(** * Nova-Voice gateway: a shallow embedding of the speech-session core

    The development follows the Python sources of the gateway:

    - [config.py]            -> [Config]
    - [session.py]           -> [SpeechState], [SpeechSession] and its methods,
                                [to_dict] / [from_dict]
    - [redis_service.py]     -> the Redis keyspace and the module
                                [RedisService]
    - [gateway.py]           -> [publish_audio_job], [publish_job_if_needed],
                                [process_audio_chunk]
    - [websocket_handler.py] -> [forward_result_to_client]
    - [vad.py]               -> [webrtc_verdict], [silero_verdict],
                                [detect_speech_activity]

    Modelling conventions.
    - Python [int] is [Z]; [len(x)] is [Z.of_nat (length x)].
    - Python [float] is idealised as an exact rational [Q]: wall-clock
      readings, configured durations and the byte/second quotients.  [int(x)]
      on a float truncates toward zero ([py_int_of_float]).
    - [bytes] / [bytearray] are [list byte]; [str] is [string].
    - A [dict] is a [gmap]; [d.get(k, v)] is [default v (d !! k)].
    - Every [time.time()] and [uuid.uuid4()] read is an explicit input.
    - Library functions of Python that are not part of the repository
      ([int(str)], [float(str)], [str(int)], [str(float)],
      [base64.b64decode]) are the fields of the class [PyPrims]. *)

From Stdlib Require Import ZArith QArith Qround List Bool Ascii String Lia.
From Stdlib.Strings Require Import Byte.
From Stdlib Require Import DecimalString DecimalZ.
From stdpp Require Import base option list gmap strings.

Local Open Scope string_scope.
Local Open Scope list_scope.
Local Open Scope Z_scope.

(** ** Python primitives *)

(** [int(x)] for a float [x]: truncation toward zero. *)
Definition py_int_of_float (q : Q) : Z := Z.quot (Qnum q) (Zpos (Qden q)).

(** [a / b] on two ints: true division. *)
Definition py_truediv (a b : Z) : Q := (inject_Z a / inject_Z b)%Q.

(** [a >= b] and [a > b] on floats. *)
Definition Qgeb (a b : Q) : bool := Qle_bool b a.
Definition Qgtb (a b : Q) : bool := negb (Qle_bool a b).

(** A Python [str] is represented by the bytes of its UTF-8 encoding. *)

(** [str.lower()], as far as the comparisons of the code can tell: the code
    only compares a lowered string with the ASCII words [true], [1], [yes]
    and [on], and no character outside ASCII lowers to a letter of these
    words, so it is enough to lower the ASCII letters. *)
Definition ascii_lower (c : ascii) : ascii :=
  let n := N_of_ascii c in
  if ((65 <=? n) && (n <=? 90))%N then ascii_of_N (n + 32) else c.

Fixpoint py_lower (s : string) : string :=
  match s with
  | EmptyString => EmptyString
  | String c s' => String (ascii_lower c) (py_lower s')
  end.

Definition utf8_1 (a : N) : string := String (ascii_of_N a) EmptyString.
Definition utf8_2 (a b : N) : string :=
  String (ascii_of_N a) (utf8_1 b).
Definition utf8_3 (a b c : N) : string :=
  String (ascii_of_N a) (utf8_2 b c).

(** The characters [str.isspace()] accepts, which are the ones [str.strip()]
    removes, each as its UTF-8 encoding: U+0009..U+000D, U+001C..U+0020,
    U+0085, U+00A0, U+1680, U+2000..U+200A, U+2028, U+2029, U+202F, U+205F
    and U+3000. *)
Definition py_whitespace : list string :=
  map utf8_1 [9; 10; 11; 12; 13; 28; 29; 30; 31; 32]%N
  ++ [utf8_2 194 133; utf8_2 194 160; utf8_3 225 154 128]
  ++ map (utf8_3 226 128)
       [128; 129; 130; 131; 132; 133; 134; 135; 136; 137; 138]%N
  ++ [utf8_3 226 128 168; utf8_3 226 128 169; utf8_3 226 128 175;
      utf8_3 226 129 159; utf8_3 227 128 128].

(** [s] without the prefix [p], when it starts with [p]. *)
Fixpoint strip_prefix (p s : string) : option string :=
  match p, s with
  | EmptyString, _ => Some s
  | String _ _, EmptyString => None
  | String a p', String b s' =>
      if Ascii.eqb a b then strip_prefix p' s' else None
  end.

(** [s] without its first character, when that is one of [ws]. *)
Fixpoint drop_space (ws : list string) (s : string) : option string :=
  match ws with
  | [] => None
  | w :: ws' =>
      match strip_prefix w s with
      | Some r => Some r
      | None => drop_space ws' s
      end
  end.

(** Dropping leading characters of [ws] for as long as there are any; every
    step consumes a byte, so [fuel] the length of the string is enough. *)
Fixpoint lstrip_with (ws : list string) (fuel : nat) (s : string) : string :=
  match fuel with
  | O => s
  | S fuel' =>
      match drop_space ws s with
      | Some r => lstrip_with ws fuel' r
      | None => s
      end
  end.

Definition string_rev (s : string) : string :=
  string_of_list_ascii (rev (list_ascii_of_string s)).

(** [s.lstrip()] and [s.rstrip()]; the latter works on the reversed string
    with the reversed encodings. *)
Definition py_lstrip (s : string) : string :=
  lstrip_with py_whitespace (String.length s) s.

Definition py_rstrip (s : string) : string :=
  string_rev
    (lstrip_with (map string_rev py_whitespace) (String.length s)
       (string_rev s)).

(** [s.strip()] *)
Definition py_strip (s : string) : string := py_rstrip (py_lstrip s).

(** Truthiness of a [str]: non-empty. *)
Definition str_truthy (s : string) : bool :=
  match s with EmptyString => false | _ => true end.

(** The conversions the session codec borrows from Python.  [None] stands for
    the [ValueError] the conversion raises. *)
Class PyPrims := {
  int_of_str : string -> option Z;        (* int(s)   *)
  str_of_int : Z -> string;               (* str(n)   *)
  float_of_str : string -> option Q;      (* float(s) *)
  str_of_float : Q -> string;             (* str(x)   *)
  b64decode : string -> option (list byte) (* base64.b64decode(s) *)
}.

(** What the round trip needs of them: [str] then [int] / [float] is the
    identity, and the empty string is not a float literal. *)
Class PyLaws (P : PyPrims) : Prop := {
  int_of_str_of_int : forall z, int_of_str (str_of_int z) = Some z;
  float_of_str_of_float : forall q, float_of_str (str_of_float q) = Some q;
  float_of_str_empty : float_of_str "" = None
}.

(** Exceptions that escape the modelled functions. *)
Inductive exn :=
| ValueError      (* SpeechState(v) on an unknown value *)
| TypeError       (* the dataclass constructor given an unexpected keyword *)
| BinasciiError   (* base64.b64decode on bad padding *)
| AttributeError  (* .strip() on a value that is not a str *)
| WrongType.      (* Redis WRONGTYPE reply *)

Inductive result (A : Type) :=
| Ok (a : A)
| Raise (e : exn).
Arguments Ok {A} a.
Arguments Raise {A} e.

Global Instance result_ret : MRet result := fun A a => Ok a.
Global Instance result_bind : MBind result := fun A B k r =>
  match r with
  | Ok a => k a
  | Raise e => Raise e
  end.

Definition is_ok {A} (r : result A) : bool :=
  match r with Ok _ => true | Raise _ => false end.

(** ** config.py *)

Record Config := {
  SILENCE_THRESHOLD_SECONDS : Q;
  SAMPLE_RATE : Z;
  SILERO_SENSITIVITY : Q;
  PRE_SPEECH_BUFFER_SECONDS : Q;
  MINIMUM_NEW_AUDIO_SECONDS : Q;
  MAX_QUEUE_DEPTH : Z;
  MAX_AUDIO_BUFFER_SECONDS : Q;
  SEND_FINAL_JOB_ON_MAX_BUFFER : bool;
  DEFAULT_SOURCE_LANGUAGE : string;
  DEFAULT_TARGET_LANGUAGE : string;
  SESSION_EXPIRATION_SECONDS : Z
}.

(** The values [config.py] takes when the environment sets nothing. *)
Definition default_config : Config := {|
  SILENCE_THRESHOLD_SECONDS := 1;
  SAMPLE_RATE := 16000;
  SILERO_SENSITIVITY := 7 # 10;
  PRE_SPEECH_BUFFER_SECONDS := 2;
  MINIMUM_NEW_AUDIO_SECONDS := 1;
  MAX_QUEUE_DEPTH := 100;
  MAX_AUDIO_BUFFER_SECONDS := 10;
  SEND_FINAL_JOB_ON_MAX_BUFFER := true;
  DEFAULT_SOURCE_LANGUAGE := "en";
  DEFAULT_TARGET_LANGUAGE := "vi";
  SESSION_EXPIRATION_SECONDS := 900
|}.

(** The two settings the handlers divide by ([n / (SAMPLE_RATE * 2)] and
    [silence_duration / SILENCE_THRESHOLD_SECONDS]).  Python raises
    [ZeroDivisionError] on a zero divisor where division in [Q] is total, so
    the model stands for the code on configurations that satisfy this. *)
Definition divisors_nonzero (cfg : Config) : Prop :=
  0 < SAMPLE_RATE cfg /\ (0 < SILENCE_THRESHOLD_SECONDS cfg)%Q.

Definition AUDIO_JOBS_STREAM : string := "audio_jobs".
Definition RESULTS_CHANNEL_PREFIX : string := "results:".
Definition SESSION_PREFIX : string := "session:".

(** ** session.py *)

Inductive SpeechState := INACTIVE | ACTIVE | SILENCE.

Definition SpeechState_eqb (a b : SpeechState) : bool :=
  match a, b with
  | INACTIVE, INACTIVE | ACTIVE, ACTIVE | SILENCE, SILENCE => true
  | _, _ => false
  end.

(** [state.value] *)
Definition state_value (s : SpeechState) : string :=
  match s with
  | INACTIVE => "inactive"
  | ACTIVE => "active"
  | SILENCE => "silence"
  end.

(** [SpeechState(v)]: lookup by value, [ValueError] otherwise. *)
Definition state_of_value (v : string) : result SpeechState :=
  if String.eqb v "inactive" then Ok INACTIVE
  else if String.eqb v "active" then Ok ACTIVE
  else if String.eqb v "silence" then Ok SILENCE
  else Raise ValueError.

Record SpeechSession := {
  state : SpeechState;
  audio_buffer : list byte;
  pre_speech_buffer : list byte;
  silence_start_time : option Q;
  session_start_time : option Q;
  accumulated_audio_bytes : Z;
  last_stt_send_time : option Q;
  last_published_len : Z;
  silence_buffer_start_len : Z;
  source_lang : string;
  target_lang : string;
  translation_enabled : bool
}.

(** [SpeechSession()]: the dataclass defaults after [__post_init__]. *)
Definition new_session (cfg : Config) : SpeechSession := {|
  state := INACTIVE;
  audio_buffer := [];
  pre_speech_buffer := [];
  silence_start_time := None;
  session_start_time := None;
  accumulated_audio_bytes := 0;
  last_stt_send_time := None;
  last_published_len := 0;
  silence_buffer_start_len := 0;
  source_lang := DEFAULT_SOURCE_LANGUAGE cfg;
  target_lang := DEFAULT_TARGET_LANGUAGE cfg;
  translation_enabled := true
|}.

Definition blen (b : list byte) : Z := Z.of_nat (length b).

(** Field assignments [session.f = v]. *)
Definition set_state v (s : SpeechSession) : SpeechSession :=
  {| state := v; audio_buffer := audio_buffer s;
     pre_speech_buffer := pre_speech_buffer s;
     silence_start_time := silence_start_time s;
     session_start_time := session_start_time s;
     accumulated_audio_bytes := accumulated_audio_bytes s;
     last_stt_send_time := last_stt_send_time s;
     last_published_len := last_published_len s;
     silence_buffer_start_len := silence_buffer_start_len s;
     source_lang := source_lang s; target_lang := target_lang s;
     translation_enabled := translation_enabled s |}.

Definition set_audio_buffer v (s : SpeechSession) : SpeechSession :=
  {| state := state s; audio_buffer := v;
     pre_speech_buffer := pre_speech_buffer s;
     silence_start_time := silence_start_time s;
     session_start_time := session_start_time s;
     accumulated_audio_bytes := accumulated_audio_bytes s;
     last_stt_send_time := last_stt_send_time s;
     last_published_len := last_published_len s;
     silence_buffer_start_len := silence_buffer_start_len s;
     source_lang := source_lang s; target_lang := target_lang s;
     translation_enabled := translation_enabled s |}.

Definition set_pre_speech_buffer v (s : SpeechSession) : SpeechSession :=
  {| state := state s; audio_buffer := audio_buffer s;
     pre_speech_buffer := v;
     silence_start_time := silence_start_time s;
     session_start_time := session_start_time s;
     accumulated_audio_bytes := accumulated_audio_bytes s;
     last_stt_send_time := last_stt_send_time s;
     last_published_len := last_published_len s;
     silence_buffer_start_len := silence_buffer_start_len s;
     source_lang := source_lang s; target_lang := target_lang s;
     translation_enabled := translation_enabled s |}.

Definition set_silence_start_time v (s : SpeechSession) : SpeechSession :=
  {| state := state s; audio_buffer := audio_buffer s;
     pre_speech_buffer := pre_speech_buffer s;
     silence_start_time := v;
     session_start_time := session_start_time s;
     accumulated_audio_bytes := accumulated_audio_bytes s;
     last_stt_send_time := last_stt_send_time s;
     last_published_len := last_published_len s;
     silence_buffer_start_len := silence_buffer_start_len s;
     source_lang := source_lang s; target_lang := target_lang s;
     translation_enabled := translation_enabled s |}.

Definition set_session_start_time v (s : SpeechSession) : SpeechSession :=
  {| state := state s; audio_buffer := audio_buffer s;
     pre_speech_buffer := pre_speech_buffer s;
     silence_start_time := silence_start_time s;
     session_start_time := v;
     accumulated_audio_bytes := accumulated_audio_bytes s;
     last_stt_send_time := last_stt_send_time s;
     last_published_len := last_published_len s;
     silence_buffer_start_len := silence_buffer_start_len s;
     source_lang := source_lang s; target_lang := target_lang s;
     translation_enabled := translation_enabled s |}.

Definition set_accumulated_audio_bytes v (s : SpeechSession) : SpeechSession :=
  {| state := state s; audio_buffer := audio_buffer s;
     pre_speech_buffer := pre_speech_buffer s;
     silence_start_time := silence_start_time s;
     session_start_time := session_start_time s;
     accumulated_audio_bytes := v;
     last_stt_send_time := last_stt_send_time s;
     last_published_len := last_published_len s;
     silence_buffer_start_len := silence_buffer_start_len s;
     source_lang := source_lang s; target_lang := target_lang s;
     translation_enabled := translation_enabled s |}.

Definition set_last_stt_send_time v (s : SpeechSession) : SpeechSession :=
  {| state := state s; audio_buffer := audio_buffer s;
     pre_speech_buffer := pre_speech_buffer s;
     silence_start_time := silence_start_time s;
     session_start_time := session_start_time s;
     accumulated_audio_bytes := accumulated_audio_bytes s;
     last_stt_send_time := v;
     last_published_len := last_published_len s;
     silence_buffer_start_len := silence_buffer_start_len s;
     source_lang := source_lang s; target_lang := target_lang s;
     translation_enabled := translation_enabled s |}.

Definition set_last_published_len v (s : SpeechSession) : SpeechSession :=
  {| state := state s; audio_buffer := audio_buffer s;
     pre_speech_buffer := pre_speech_buffer s;
     silence_start_time := silence_start_time s;
     session_start_time := session_start_time s;
     accumulated_audio_bytes := accumulated_audio_bytes s;
     last_stt_send_time := last_stt_send_time s;
     last_published_len := v;
     silence_buffer_start_len := silence_buffer_start_len s;
     source_lang := source_lang s; target_lang := target_lang s;
     translation_enabled := translation_enabled s |}.

Definition set_silence_buffer_start_len v (s : SpeechSession) : SpeechSession :=
  {| state := state s; audio_buffer := audio_buffer s;
     pre_speech_buffer := pre_speech_buffer s;
     silence_start_time := silence_start_time s;
     session_start_time := session_start_time s;
     accumulated_audio_bytes := accumulated_audio_bytes s;
     last_stt_send_time := last_stt_send_time s;
     last_published_len := last_published_len s;
     silence_buffer_start_len := v;
     source_lang := source_lang s; target_lang := target_lang s;
     translation_enabled := translation_enabled s |}.

(** [start_speech(self)]; [now] is its [time.time()] read. *)
Definition start_speech (now : Q) (s : SpeechSession) : SpeechSession :=
  set_last_published_len 0
    (set_silence_buffer_start_len 0
       (set_silence_start_time None
          (set_session_start_time (Some now)
             (set_state ACTIVE s)))).

(** [detect_silence(self)] *)
Definition detect_silence (now : Q) (s : SpeechSession) : SpeechSession :=
  match state s with
  | ACTIVE => set_silence_start_time (Some now) (set_state SILENCE s)
  | _ => s
  end.

(** [end_speech_session(self)] *)
Definition end_speech_session (s : SpeechSession) : SpeechSession :=
  set_silence_buffer_start_len 0
    (set_last_published_len 0
       (set_last_stt_send_time None
          (set_accumulated_audio_bytes 0
             (set_session_start_time None
                (set_silence_start_time None
                   (set_pre_speech_buffer []
                      (set_audio_buffer []
                         (set_state INACTIVE s)))))))).

(** [to_dict(self)]: the scalar fields as strings; the two buffers are
    popped and stored apart.  [str(bool)] is ["True"] / ["False"], [None]
    becomes the empty string. *)
Definition str_of_bool (b : bool) : string := if b then "True" else "False".

Definition str_of_opt_float `{PyPrims} (o : option Q) : string :=
  match o with
  | None => ""
  | Some q => str_of_float q
  end.

Definition to_dict `{PyPrims} (s : SpeechSession) : gmap string string :=
  <["state" := state_value (state s)]>
  (<["silence_start_time" := str_of_opt_float (silence_start_time s)]>
  (<["session_start_time" := str_of_opt_float (session_start_time s)]>
  (<["accumulated_audio_bytes" := str_of_int (accumulated_audio_bytes s)]>
  (<["last_stt_send_time" := str_of_opt_float (last_stt_send_time s)]>
  (<["last_published_len" := str_of_int (last_published_len s)]>
  (<["silence_buffer_start_len" := str_of_int (silence_buffer_start_len s)]>
  (<["source_lang" := source_lang s]>
  (<["target_lang" := target_lang s]>
  (<["translation_enabled" := str_of_bool (translation_enabled s)]> ∅))))))))).

(** [get_audio_buffers(self)] *)
Definition get_audio_buffers (s : SpeechSession) : gmap string (list byte) :=
  <["audio_buffer" := audio_buffer s]>
  (<["pre_speech_buffer" := pre_speech_buffer s]> ∅).

(** The keyword arguments the dataclass constructor accepts. *)
Definition field_names : list string :=
  ["state"; "audio_buffer"; "pre_speech_buffer"; "silence_start_time";
   "session_start_time"; "accumulated_audio_bytes"; "last_stt_send_time";
   "last_published_len"; "silence_buffer_start_len"; "source_lang";
   "target_lang"; "translation_enabled"].

Definition known_field (k : string) : bool :=
  existsb (String.eqb k) field_names.

(** Truthiness of the optional [audio_buffers] argument: [None] and the
    empty dict are both false. *)
Definition buffers_truthy (ab : option (gmap string (list byte))) : bool :=
  match ab with
  | None => false
  | Some m => negb (bool_decide (m = ∅))
  end.

(** The [try: int(v) except (ValueError, TypeError): 0] blocks. *)
Definition decode_int `{PyPrims} (data : gmap string string) (k : string)
  : Z :=
  match data !! k with
  | Some v => default 0 (int_of_str v)
  | None => 0
  end.

(** The loop over the three [Optional[float]] keys. *)
Definition decode_float `{PyPrims} (data : gmap string string) (k : string)
  : option Q :=
  match data !! k with
  | Some v => if String.eqb v "" then None else float_of_str v
  | None => None
  end.

(** The legacy branch: a base64 string stored inside the hash. *)
Definition decode_legacy_buffer `{PyPrims} (data : gmap string string)
    (k : string) : result (list byte) :=
  match data !! k with
  | Some v =>
      match b64decode v with
      | Some b => Ok b
      | None => Raise BinasciiError
      end
  | None => Ok []
  end.

(** [from_dict(cls, data, audio_buffers)].  [data] is the decoded hash, all
    values strings.  The statements run in source order, so the first
    exception met is the one raised; the final constructor call rejects any
    key that is not a field. *)
Definition from_dict `{PyPrims} (cfg : Config) (data : gmap string string)
    (audio_buffers : option (gmap string (list byte)))
  : result SpeechSession :=
  bufs ← (if buffers_truthy audio_buffers then
            let m := default ∅ audio_buffers in
            Ok (default [] (m !! "audio_buffer"),
                default [] (m !! "pre_speech_buffer"))
          else
            a ← decode_legacy_buffer data "audio_buffer";
            p ← decode_legacy_buffer data "pre_speech_buffer";
            Ok (a, p));
  st ← match data !! "state" with
       | Some v => state_of_value v
       | None => Ok INACTIVE
       end;
  let te := match data !! "translation_enabled" with
            | Some v => String.eqb (py_lower v) "true"
            | None => true
            end in
  if forallb known_field (elements (dom data)) then
    Ok {| state := st;
          audio_buffer := fst bufs;
          pre_speech_buffer := snd bufs;
          silence_start_time := decode_float data "silence_start_time";
          session_start_time := decode_float data "session_start_time";
          accumulated_audio_bytes := decode_int data "accumulated_audio_bytes";
          last_stt_send_time := decode_float data "last_stt_send_time";
          last_published_len := decode_int data "last_published_len";
          silence_buffer_start_len :=
            decode_int data "silence_buffer_start_len";
          source_lang :=
            default (DEFAULT_SOURCE_LANGUAGE cfg) (data !! "source_lang");
          target_lang :=
            default (DEFAULT_TARGET_LANGUAGE cfg) (data !! "target_lang");
          translation_enabled := te |}
  else Raise TypeError.

(** ** redis_service.py *)

(** One job envelope of the [audio_jobs] stream.  The audio travels as
    base64 text on the wire; the model keeps the bytes it encodes. *)
Record Job := {
  job_id : string;
  job_client_id : string;
  segment_id : Z;
  audio_bytes : list byte;
  job_sample_rate : Z;
  job_source_lang : string;
  job_target_lang : string;
  job_translation_enabled : bool;
  is_final : bool;
  timestamp : Q;
  gateway_instance : string
}.

(** The part of the Redis server the gateway talks to: a keyspace of hashes
    and binary strings, their expiry, and the [audio_jobs] stream (oldest
    entry first). *)
Inductive rval :=
| RHash (h : gmap string string)
| RStr (b : list byte).

Record Redis := {
  kv : gmap string rval;
  ttl : gmap string Z;
  audio_jobs : list Job
}.

Definition empty_redis : Redis := {| kv := ∅; ttl := ∅; audio_jobs := [] |}.

Definition hgetall (k : string) (r : Redis) : result (gmap string string) :=
  match kv r !! k with
  | None => Ok ∅
  | Some (RHash h) => Ok h
  | Some (RStr _) => Raise WrongType
  end.

(** [HSET key f v ...]: the given fields overwrite, other fields stay. *)
Definition hset (k : string) (m : gmap string string) (r : Redis)
  : result Redis :=
  match kv r !! k with
  | None =>
      Ok {| kv := <[k := RHash m]> (kv r); ttl := ttl r;
            audio_jobs := audio_jobs r |}
  | Some (RHash h) =>
      Ok {| kv := <[k := RHash (m ∪ h)]> (kv r); ttl := ttl r;
            audio_jobs := audio_jobs r |}
  | Some (RStr _) => Raise WrongType
  end.

Definition get (k : string) (r : Redis) : result (option (list byte)) :=
  match kv r !! k with
  | None => Ok None
  | Some (RStr b) => Ok (Some b)
  | Some (RHash _) => Raise WrongType
  end.

(** [SET] replaces whatever the key held and drops its expiry. *)
Definition set (k : string) (v : list byte) (r : Redis) : Redis :=
  {| kv := <[k := RStr v]> (kv r); ttl := delete k (ttl r);
     audio_jobs := audio_jobs r |}.

Definition del (k : string) (r : Redis) : Redis :=
  {| kv := delete k (kv r); ttl := delete k (ttl r);
     audio_jobs := audio_jobs r |}.

(** [EXPIRE] only touches keys that exist. *)
Definition expire (k : string) (n : Z) (r : Redis) : Redis :=
  match kv r !! k with
  | Some _ => {| kv := kv r; ttl := <[k := n]> (ttl r);
                 audio_jobs := audio_jobs r |}
  | None => r
  end.

Definition xlen (r : Redis) : Z := Z.of_nat (length (audio_jobs r)).

Definition xadd (j : Job) (r : Redis) : Redis :=
  {| kv := kv r; ttl := ttl r; audio_jobs := audio_jobs r ++ [j] |}.

(** The values one publish reads from the outside: eight hex digits of a
    fresh uuid and two [time.time()] readings. *)
Record PublishEnv := {
  uuid_hex8 : string;
  t_segment : Q;
  t_stamp : Q
}.

Module RedisService.

Definition session_key (client_id : string) : string :=
  SESSION_PREFIX +:+ client_id.
Definition audio_buffer_key (client_id : string) : string :=
  SESSION_PREFIX +:+ client_id +:+ ":audio_buffer".
Definition pre_speech_buffer_key (client_id : string) : string :=
  SESSION_PREFIX +:+ client_id +:+ ":pre_speech_buffer".

(** Truthiness of what [GET] returned: [None] and [b''] are false. *)
Definition blob_truthy (o : option (list byte)) : option (list byte) :=
  match o with
  | Some (_ :: _) => o
  | _ => None
  end.

(** [load_session(self, client_id)] *)
Definition load_session `{PyPrims} (cfg : Config) (client_id : string)
    (r : Redis) : result SpeechSession :=
  session_data ← hgetall (session_key client_id) r;
  if bool_decide (session_data = ∅) then Ok (new_session cfg)
  else
    audio_buffer_data ← get (audio_buffer_key client_id) r;
    pre_speech_buffer_data ← get (pre_speech_buffer_key client_id) r;
    let b0 : gmap string (list byte) := ∅ in
    let b1 := match blob_truthy audio_buffer_data with
              | Some b => <["audio_buffer" := b]> b0
              | None => b0
              end in
    let b2 := match blob_truthy pre_speech_buffer_data with
              | Some b => <["pre_speech_buffer" := b]> b1
              | None => b1
              end in
    from_dict cfg session_data (Some b2).

(** One buffer of [save_session]: store it when non-empty, delete the key
    otherwise. *)
Definition store_buffer (k : string) (b : list byte) (r : Redis) : Redis :=
  match b with
  | [] => del k r
  | _ :: _ => set k b r
  end.

(** [save_session(self, client_id, session)] *)
Definition save_session `{PyPrims} (cfg : Config) (client_id : string)
    (session : SpeechSession) (r : Redis) : result Redis :=
  r1 ← hset (session_key client_id) (to_dict session) r;
  let audio_buffers := get_audio_buffers session in
  let r2 := store_buffer (audio_buffer_key client_id)
              (default [] (audio_buffers !! "audio_buffer")) r1 in
  let r3 := store_buffer (pre_speech_buffer_key client_id)
              (default [] (audio_buffers !! "pre_speech_buffer")) r2 in
  let n := SESSION_EXPIRATION_SECONDS cfg in
  Ok (expire (pre_speech_buffer_key client_id) n
        (expire (audio_buffer_key client_id) n
           (expire (session_key client_id) n r3))).

(** [delete_session(self, client_id)] *)
Definition delete_session (client_id : string) (r : Redis) : Redis :=
  del (pre_speech_buffer_key client_id)
    (del (audio_buffer_key client_id)
       (del (session_key client_id) r)).

(** [publish_audio_job(self, client_id, session, is_final)]: [None] when
    nothing was appended (empty buffer, or the stream is deeper than
    [MAX_QUEUE_DEPTH]), otherwise the position of the new entry, standing
    for the stream id [XADD] returns (a non-empty byte string, hence
    truthy). *)
Definition publish_audio_job (cfg : Config) (instance_id : string)
    (env : PublishEnv) (client_id : string) (session : SpeechSession)
    (final : bool) (r : Redis) : option nat * Redis :=
  let buffer_size := blen (audio_buffer session) in
  if buffer_size =? 0 then (None, r)
  else
    let queue_depth := xlen r in
    if queue_depth >? MAX_QUEUE_DEPTH cfg then (None, r)
    else
      let job := {|
        job_id := client_id +:+ "_" +:+ uuid_hex8 env;
        job_client_id := client_id;
        segment_id := py_int_of_float (t_segment env * 1000);
        audio_bytes := audio_buffer session;
        job_sample_rate := SAMPLE_RATE cfg;
        job_source_lang := source_lang session;
        job_target_lang := target_lang session;
        job_translation_enabled := translation_enabled session;
        is_final := final;
        timestamp := t_stamp env;
        gateway_instance := instance_id |} in
      (Some (length (audio_jobs r)), xadd job r).

End RedisService.

(** Per-chunk readings of the clock, in the order the code takes them. *)
Record ChunkEnv := {
  t_start : Q;      (* start_speech: session_start_time *)
  t_speech : Q;     (* silence timer set on a speech chunk *)
  t_silence : Q;    (* silence timer set on the first silent chunk *)
  t_check : Q;      (* silence-duration check *)
  publish_env : PublishEnv
}.

(** A scalar of a decoded JSON envelope. *)
Inductive jval :=
| JNull
| JBool (b : bool)
| JNum (z : Z)
| JFloat (q : Q)
| JStr (s : string).

(** Frames the gateway writes to a client websocket. *)
Inductive ServerMsg :=
| Realtime (text translation seg processing_time : jval)
| UtteranceEnd (client_id : string).

(** The state of one gateway process together with the Redis it talks to:
    the two dicts of [RedisService], the clients map and metrics of
    [GatewayService], and the frames handed to [websocket.send] so far
    (oldest first; a client is in [connected_clients] when the clients map
    holds a websocket for it). *)
Record Gateway := {
  redis : Redis;
  job_in_flight : gmap string bool;
  latest_segment_id_sent : gmap string Z;
  connected_clients : gset string;
  outbox : list (string * ServerMsg);
  jobs_published : Z;
  audio_chunks_processed : Z;
  results_forwarded : Z
}.

Definition set_redis v (g : Gateway) : Gateway :=
  {| redis := v; job_in_flight := job_in_flight g;
     latest_segment_id_sent := latest_segment_id_sent g;
     connected_clients := connected_clients g; outbox := outbox g;
     jobs_published := jobs_published g;
     audio_chunks_processed := audio_chunks_processed g;
     results_forwarded := results_forwarded g |}.

Definition set_job_in_flight v (g : Gateway) : Gateway :=
  {| redis := redis g; job_in_flight := v;
     latest_segment_id_sent := latest_segment_id_sent g;
     connected_clients := connected_clients g; outbox := outbox g;
     jobs_published := jobs_published g;
     audio_chunks_processed := audio_chunks_processed g;
     results_forwarded := results_forwarded g |}.

Definition set_latest_segment_id_sent v (g : Gateway) : Gateway :=
  {| redis := redis g; job_in_flight := job_in_flight g;
     latest_segment_id_sent := v;
     connected_clients := connected_clients g; outbox := outbox g;
     jobs_published := jobs_published g;
     audio_chunks_processed := audio_chunks_processed g;
     results_forwarded := results_forwarded g |}.

Definition set_outbox v (g : Gateway) : Gateway :=
  {| redis := redis g; job_in_flight := job_in_flight g;
     latest_segment_id_sent := latest_segment_id_sent g;
     connected_clients := connected_clients g; outbox := v;
     jobs_published := jobs_published g;
     audio_chunks_processed := audio_chunks_processed g;
     results_forwarded := results_forwarded g |}.

Definition set_jobs_published v (g : Gateway) : Gateway :=
  {| redis := redis g; job_in_flight := job_in_flight g;
     latest_segment_id_sent := latest_segment_id_sent g;
     connected_clients := connected_clients g; outbox := outbox g;
     jobs_published := v;
     audio_chunks_processed := audio_chunks_processed g;
     results_forwarded := results_forwarded g |}.

Definition set_audio_chunks_processed v (g : Gateway) : Gateway :=
  {| redis := redis g; job_in_flight := job_in_flight g;
     latest_segment_id_sent := latest_segment_id_sent g;
     connected_clients := connected_clients g; outbox := outbox g;
     jobs_published := jobs_published g;
     audio_chunks_processed := v;
     results_forwarded := results_forwarded g |}.

Definition set_results_forwarded v (g : Gateway) : Gateway :=
  {| redis := redis g; job_in_flight := job_in_flight g;
     latest_segment_id_sent := latest_segment_id_sent g;
     connected_clients := connected_clients g; outbox := outbox g;
     jobs_published := jobs_published g;
     audio_chunks_processed := audio_chunks_processed g;
     results_forwarded := v |}.

(** [self.redis_client.job_in_flight.get(client_id, False)] *)
Definition in_flight (client_id : string) (g : Gateway) : bool :=
  default false (job_in_flight g !! client_id).

(** ** gateway.py *)

(** [GatewayService.publish_audio_job]: counts the job when a stream id came
    back, and returns nothing. *)
Definition publish_audio_job (cfg : Config) (instance_id : string)
    (env : PublishEnv) (client_id : string) (session : SpeechSession)
    (final : bool) (g : Gateway) : Gateway :=
  let '(stream_id, r) :=
    RedisService.publish_audio_job cfg instance_id env client_id session final
      (redis g) in
  let g1 := set_redis r g in
  match stream_id with
  | Some _ => set_jobs_published (jobs_published g1 + 1) g1
  | None => g1
  end.

(** Seconds of 16-bit mono audio in [n] bytes: [n / (SAMPLE_RATE * 2)]. *)
Definition bytes_to_seconds (cfg : Config) (n : Z) : Q :=
  py_truediv n (SAMPLE_RATE cfg * 2).

(** The amount of new speech [publish_job_if_needed] compares with the
    minimum. *)
Definition new_speech_seconds (cfg : Config) (session : SpeechSession) : Q :=
  let len := blen (audio_buffer session) in
  let new_audio_bytes := len - last_published_len session in
  if (silence_buffer_start_len session >? 0)
     && (silence_buffer_start_len session >? last_published_len session)
  then bytes_to_seconds cfg (Z.max 0 (len - silence_buffer_start_len session))
  else bytes_to_seconds cfg new_audio_bytes.

(** [publish_job_if_needed(self, client_id, session, is_final,
    force_publish)]: the returned flag, the session as mutated, and the
    gateway state. *)
Definition publish_job_if_needed (cfg : Config) (instance_id : string)
    (env : PublishEnv) (client_id : string) (session : SpeechSession)
    (final force_publish : bool) (g : Gateway)
  : bool * SpeechSession * Gateway :=
  let job_in_flight_now := in_flight client_id g in
  let buffer_has_new_data :=
    blen (audio_buffer session) >? last_published_len session in
  let new_audio_meets_minimum :=
    Qgeb (new_speech_seconds cfg session) (MINIMUM_NEW_AUDIO_SECONDS cfg) in
  if (force_publish || negb job_in_flight_now)
     && buffer_has_new_data
     && (force_publish || new_audio_meets_minimum)
  then
    let g1 := publish_audio_job cfg instance_id env client_id session final g in
    let s1 := set_last_published_len (blen (audio_buffer session)) session in
    let s2 := set_silence_buffer_start_len 0 s1 in
    let g2 := if negb final
              then set_job_in_flight (<[client_id := true]> (job_in_flight g1)) g1
              else g1 in
    (true, s2, g2)
  else (false, session, g).

(** [int(PRE_SPEECH_BUFFER_SECONDS * SAMPLE_RATE * 2)] and
    [int(MAX_AUDIO_BUFFER_SECONDS * SAMPLE_RATE * 2)]. *)
Definition pre_speech_max_bytes (cfg : Config) : Z :=
  py_int_of_float
    (PRE_SPEECH_BUFFER_SECONDS cfg * inject_Z (SAMPLE_RATE cfg) * 2).

Definition max_audio_buffer_bytes (cfg : Config) : Z :=
  py_int_of_float
    (MAX_AUDIO_BUFFER_SECONDS cfg * inject_Z (SAMPLE_RATE cfg) * 2).

(** The rolling pre-speech buffer: extend, then keep the newest
    [pre_speech_max_bytes] bytes. *)
Definition roll_pre_speech (cfg : Config) (audio_chunk : list byte)
    (session : SpeechSession) : SpeechSession :=
  let s1 :=
    set_pre_speech_buffer (pre_speech_buffer session ++ audio_chunk) session in
  if blen (pre_speech_buffer s1) >? pre_speech_max_bytes cfg then
    let excess_bytes := blen (pre_speech_buffer s1) - pre_speech_max_bytes cfg in
    set_pre_speech_buffer
      (drop (Z.to_nat excess_bytes) (pre_speech_buffer s1)) s1
  else s1.

(** The [if has_speech:] block. *)
Definition on_speech (env : ChunkEnv) (session : SpeechSession)
  : SpeechSession :=
  match state session with
  | INACTIVE =>
      let s1 := set_audio_buffer
                  (audio_buffer session ++ pre_speech_buffer session) session in
      let s2 := set_accumulated_audio_bytes
                  (accumulated_audio_bytes s1 + blen (pre_speech_buffer s1)) s1 in
      set_silence_start_time (Some (t_speech env)) (start_speech (t_start env) s2)
  | SILENCE =>
      let s1 := set_silence_buffer_start_len (blen (audio_buffer session))
                  session in
      set_silence_start_time (Some (t_speech env)) (start_speech (t_start env) s1)
  | ACTIVE => set_silence_start_time (Some (t_speech env)) session
  end.

(** "Detect when we're transitioning from speech to silence". *)
Definition mark_silence_start (env : ChunkEnv) (has_speech : bool)
    (session : SpeechSession) : SpeechSession :=
  if SpeechState_eqb (state session) ACTIVE && negb has_speech then
    match silence_start_time session with
    | None =>
        set_silence_buffer_start_len (blen (audio_buffer session))
          (set_silence_start_time (Some (t_silence env)) session)
    | Some _ => session
    end
  else session.

(** The [in_silence_period] test guarding the non-final publish. *)
Definition in_silence_period (session : SpeechSession) : bool :=
  match silence_start_time session with
  | Some _ =>
      (silence_buffer_start_len session >? 0)
      && (blen (audio_buffer session) >? silence_buffer_start_len session)
  | None => false
  end.

(** The tail of [process_audio_chunk]: the non-final publish, the save and
    the chunk counter. *)
Definition publish_phase (cfg : Config) (instance_id : string)
    (env : ChunkEnv) (client_id : string) (session : SpeechSession)
    (g : Gateway) : bool * SpeechSession * Gateway :=
  let '(s1, g1) :=
    if SpeechState_eqb (state session) ACTIVE then
      if in_silence_period session then (session, g)
      else
        let '(_, s, g') :=
          publish_job_if_needed cfg instance_id (publish_env env) client_id
            session false false g in
        (s, g')
    else (session, g) in
  (false, s1, set_audio_chunks_processed (audio_chunks_processed g1 + 1) g1).

(** "Continuous silence detection during ACTIVE recording". *)
Definition silence_phase (cfg : Config) (instance_id : string)
    (env : ChunkEnv) (client_id : string) (session : SpeechSession)
    (g : Gateway) : bool * SpeechSession * Gateway :=
  match SpeechState_eqb (state session) ACTIVE, silence_start_time session with
  | true, Some t0 =>
      let silence_duration := (t_check env - t0)%Q in
      if Qgeb silence_duration (SILENCE_THRESHOLD_SECONDS cfg) then
        let g1 :=
          set_job_in_flight (<[client_id := false]> (job_in_flight g)) g in
        let '(_, s1, g2) :=
          publish_job_if_needed cfg instance_id (publish_env env) client_id
            session true true g1 in
        (true, end_speech_session s1, g2)
      else publish_phase cfg instance_id env client_id session g
  | _, _ => publish_phase cfg instance_id env client_id session g
  end.

(** [process_audio_chunk(self, client_id, audio_chunk)], from the statement
    after its [load_session] call to the point where an exit path calls
    [save_session].  [session] is what [load_session] returned and
    [has_speech] the verdict of [detect_speech_activity] on this chunk; the
    session returned is the one every exit path hands to [save_session],
    and the gateway returned is the one that save starts from: its job
    stream, flags and counters are final, its Redis session keys are still
    those the call started with.  The two session calls around this body are
    added by [process_audio_chunk_io]. *)
Definition process_audio_chunk (cfg : Config) (instance_id : string)
    (env : ChunkEnv) (client_id : string) (audio_chunk : list byte)
    (has_speech : bool) (session : SpeechSession) (g : Gateway)
  : bool * SpeechSession * Gateway :=
  let s1 := roll_pre_speech cfg audio_chunk session in
  let s2 := if has_speech then on_speech env s1 else s1 in
  let s3 := mark_silence_start env has_speech s2 in
  if SpeechState_eqb (state s3) ACTIVE then
    let s4 := set_audio_buffer (audio_buffer s3 ++ audio_chunk) s3 in
    let s5 := set_accumulated_audio_bytes
                (accumulated_audio_bytes s4 + blen audio_chunk) s4 in
    if blen (audio_buffer s5) >? max_audio_buffer_bytes cfg then
      let '(s6, g1) :=
        if SEND_FINAL_JOB_ON_MAX_BUFFER cfg then
          let '(_, s, g') :=
            publish_job_if_needed cfg instance_id (publish_env env) client_id
              s5 true true g in
          (s, g')
        else (s5, g) in
      (true, end_speech_session s6, g1)
    else silence_phase cfg instance_id env client_id s5 g
  else silence_phase cfg instance_id env client_id s3 g.

(** One inbound chunk with everything the handler reads while serving it. *)
Record ChunkEvent := {
  ev_chunk : list byte;
  ev_has_speech : bool;
  ev_env : ChunkEnv
}.

(** A client's stream of chunks, each processed on the session the previous
    one saved. *)
Fixpoint process_chunks (cfg : Config) (instance_id client_id : string)
    (evs : list ChunkEvent) (session : SpeechSession) (g : Gateway)
  : SpeechSession * Gateway :=
  match evs with
  | [] => (session, g)
  | ev :: evs' =>
      let '(_, s', g') :=
        process_audio_chunk cfg instance_id (ev_env ev) client_id
          (ev_chunk ev) (ev_has_speech ev) session g in
      process_chunks cfg instance_id client_id evs' s' g'
  end.

(** ** websocket_handler.py *)

(** Truthiness of a decoded JSON scalar. *)
Definition jval_truthy (v : jval) : bool :=
  match v with
  | JNull => false
  | JBool b => b
  | JNum z => negb (z =? 0)
  | JFloat q => negb (Qeq_bool q 0)
  | JStr s => str_truthy s
  end.

(** [try: int(v) except Exception: 0] *)
Definition int_or_zero `{PyPrims} (v : jval) : Z :=
  match v with
  | JStr s => default 0 (int_of_str s)
  | JNum z => z
  | JFloat q => py_int_of_float q
  | JBool b => if b then 1 else 0
  | JNull => 0
  end.

(** [(result_data.get("translation") or "").strip()] *)
Definition translation_text (result_data : gmap string jval) : result string :=
  match result_data !! "translation" with
  | None => Ok ""
  | Some (JStr s) => Ok (py_strip s)
  | Some v => if jval_truthy v then Raise AttributeError else Ok ""
  end.

(** The normalisation of [is_final] before the utterance-end test. *)
Definition parse_is_final (result_data : gmap string jval) : bool :=
  match default (JBool false) (result_data !! "is_final") with
  | JStr s =>
      let l := py_lower s in
      String.eqb l "true" || String.eqb l "1" || String.eqb l "yes"
  | JBool b => b
  | v => jval_truthy v
  end.

Definition send (client_id : string) (m : ServerMsg) (g : Gateway) : Gateway :=
  set_outbox (outbox g ++ [(client_id, m)]) g.

(** The pieces of the routing decision, as the handler names them. *)
Definition should_unlock_job (enabled is_translation_result : bool) : bool :=
  negb enabled || is_translation_result.

Definition should_forward (enabled is_translation_result : bool)
    (seg last_sent : Z) : bool :=
  if enabled then (seg >? last_sent) && is_translation_result
  else seg >? last_sent.

Definition should_send_utterance_end (final enabled is_translation_result
    : bool) : bool :=
  final && (negb enabled || is_translation_result).

(** [forward_result_to_client(self, result_data)].  The subscriber calls it
    only with envelopes whose [client_id] is its own (a non-empty [str]); any
    other [client_id] is treated like a missing one.  The three tasks run in
    creation order: the [realtime] frame, the [utterance_end] frame, the
    catch-up publish. *)
Definition forward_result_to_client `{PyPrims} (cfg : Config)
    (instance_id : string) (env : PublishEnv)
    (result_data : gmap string jval) (g : Gateway) : result Gateway :=
  let seg := int_or_zero (default (JStr "0") (result_data !! "segment_id")) in
  match result_data !! "client_id" with
  | Some (JStr client_id) =>
      if negb (str_truthy client_id) then Ok g
      else
        session ← RedisService.load_session cfg client_id (redis g);
        let enabled := translation_enabled session in
        tr ← translation_text result_data;
        let is_translation_result := str_truthy tr in
        let unlock := should_unlock_job enabled is_translation_result in
        let last_sent := default (-1) (latest_segment_id_sent g !! client_id) in
        if should_forward enabled is_translation_result seg last_sent then
          let g1 :=
            if seg >? last_sent
            then set_latest_segment_id_sent
                   (<[client_id := seg]> (latest_segment_id_sent g)) g
            else g in
          let g2 :=
            if bool_decide (client_id ∈ connected_clients g1) then
              let message :=
                Realtime (default (JStr "") (result_data !! "text"))
                         (default (JStr "") (result_data !! "translation"))
                         (default (JStr "") (result_data !! "segment_id"))
                         (default (JFloat 0) (result_data !! "processing_time")) in
              let g' := set_results_forwarded (results_forwarded g1 + 1)
                          (send client_id message g1) in
              if should_send_utterance_end (parse_is_final result_data)
                   enabled is_translation_result
              then send client_id (UtteranceEnd client_id) g'
              else g'
            else g1 in
          let g3 :=
            if unlock
            then set_job_in_flight
                   (<[client_id := false]> (job_in_flight g2)) g2
            else g2 in
          if unlock
             && (blen (audio_buffer session) >? last_published_len session)
          then
            let g4 :=
              match hset (RedisService.session_key client_id)
                      {["last_published_len" :=
                          str_of_int (last_published_len session)]}
                      (redis g3) with
              | Ok r => set_redis r g3
              | Raise _ => g3
              end in
            let '(_, _, g5) :=
              publish_job_if_needed cfg instance_id env client_id session
                false false g4 in
            Ok g5
          else Ok g3
        else Ok g
  | _ => Ok g
  end.

(** The [utterance_end] frames among the frames written. *)
Definition is_utterance_end (m : string * ServerMsg) : bool :=
  match snd m with
  | UtteranceEnd _ => true
  | Realtime _ _ _ _ => false
  end.

Definition utterance_ends (g : Gateway) : nat :=
  length (filter (fun m => is_utterance_end m = true) (outbox g)).

(** ** vad.py *)

(** The two external models: WebRTC's verdict on one 10 ms frame, and the
    Silero probability of one window of 512 normalised samples. *)
Class VadModels := {
  webrtc_is_speech : list byte -> bool;
  silero_model : list Q -> Q
}.

Record VadState := {
  is_webrtc_speech_active : bool;
  is_silero_speech_active : bool;
  silero_working : bool;
  (* the chunk handed to a Silero thread that has not finished yet *)
  silero_thread : option (list byte)
}.

(** [VoiceActivityDetector()] once [initialize_models] has succeeded. *)
Definition new_vad : VadState := {|
  is_webrtc_speech_active := false;
  is_silero_speech_active := false;
  silero_working := false;
  silero_thread := None
|}.

Definition frame_bytes : nat := 160 * 2.
Definition expected_samples : nat := 512.

(** [chunk[i:i+frame_bytes]] for [i] in
    [range(0, len(chunk) - frame_bytes + 1, frame_bytes)]. *)
Fixpoint frames (fuel : nat) (chunk : list byte) : list (list byte) :=
  match fuel with
  | O => []
  | S fuel' =>
      if (frame_bytes <=? length chunk)%nat
      then take frame_bytes chunk :: frames fuel' (drop frame_bytes chunk)
      else []
  end.

(** [_is_webrtc_speech(self, chunk, all_frames_must_be_true)]: the verdict;
    the method also stores it in [is_webrtc_speech_active]. *)
Definition webrtc_verdict `{VadModels} (chunk : list byte)
    (all_frames_must_be_true : bool) : bool :=
  let fs := frames (length chunk) chunk in
  if all_frames_must_be_true then
    let speech_frames := length (filter (fun f => webrtc_is_speech f = true) fs) in
    let total_frames := length fs in
    (total_frames / 2 <? speech_frames)%nat
  else existsb webrtc_is_speech fs.

(** [np.frombuffer(chunk, dtype=np.int16)]: little-endian signed 16-bit
    samples; a buffer of odd length is a [ValueError]. *)
Fixpoint int16_samples (chunk : list byte) : option (list Z) :=
  match chunk with
  | [] => Some []
  | [_] => None
  | lo :: hi :: rest =>
      let u := Z.of_N (Byte.to_N lo) + 256 * Z.of_N (Byte.to_N hi) in
      let v := if u <? 32768 then u else u - 65536 in
      option_map (cons v) (int16_samples rest)
  end.

Definition normalise (samples : list Z) : list Q :=
  map (fun v => (inject_Z v / 32768)%Q) samples.

(** The windows [audio_chunk[i:i+512]] for [i] in
    [range(0, len - 512 + 1, 256)]. *)
Fixpoint windows (fuel : nat) (samples : list Q) : list (list Q) :=
  match fuel with
  | O => []
  | S fuel' =>
      if (expected_samples <=? length samples)%nat
      then take expected_samples samples
           :: windows fuel' (drop (expected_samples / 2) samples)
      else []
  end.

Definition Qmaxb (a b : Q) : Q := if Qle_bool a b then b else a.

(** The probability [_is_silero_speech] compares with the threshold. *)
Definition silero_prob `{VadModels} (samples : list Q) : Q :=
  let n := length samples in
  if (expected_samples <? n)%nat then
    fold_left (fun m w => Qmaxb m (silero_model w)) (windows n samples) 0%Q
  else if (n =? expected_samples)%nat then silero_model samples
  else silero_model (samples ++ repeat 0%Q (expected_samples - n)).

(** [_is_silero_speech(self, chunk)]: [None] when [np.frombuffer] raises. *)
Definition silero_verdict `{VadModels} (cfg : Config) (chunk : list byte)
  : option bool :=
  match int16_samples chunk with
  | Some samples =>
      Some (Qgtb (silero_prob (normalise samples))
                 (1 - SILERO_SENSITIVITY cfg)%Q)
  | None => None
  end.

(** The Silero thread running to its end: it publishes its verdict and
    clears [silero_working]; a thread that died on [np.frombuffer] leaves
    [silero_working] set and the verdict as it was. *)
Definition thread_finish `{VadModels} (cfg : Config) (st : VadState)
  : VadState :=
  match silero_thread st with
  | None => st
  | Some data =>
      match silero_verdict cfg data with
      | Some v =>
          {| is_webrtc_speech_active := is_webrtc_speech_active st;
             is_silero_speech_active := v;
             silero_working := false;
             silero_thread := None |}
      | None =>
          {| is_webrtc_speech_active := is_webrtc_speech_active st;
             is_silero_speech_active := is_silero_speech_active st;
             silero_working := true;
             silero_thread := None |}
      end
  end.

(** Where the scheduler lets a running Silero thread finish during one call
    of [detect_speech_activity]: before [_check_voice_activity] tests
    [silero_working], and between the start of the thread and the final read
    of the two flags. *)
Record Schedule := {
  finish_before_check : bool;
  finish_before_read : bool
}.

(** [_check_voice_activity(self, data)]: WebRTC runs inline; Silero is started
    on a thread that nobody joins. *)
Definition _check_voice_activity `{VadModels} (data : list byte)
    (st : VadState) : VadState :=
  let w := webrtc_verdict data false in
  if w && negb (silero_working st) then
    {| is_webrtc_speech_active := w;
       is_silero_speech_active := is_silero_speech_active st;
       silero_working := true;
       silero_thread := Some data |}
  else
    {| is_webrtc_speech_active := w;
       is_silero_speech_active := is_silero_speech_active st;
       silero_working := silero_working st;
       silero_thread := silero_thread st |}.

(** [detect_speech_activity(self, audio_chunk)] under a schedule. *)
Definition detect_speech_activity `{VadModels} (cfg : Config)
    (sched : Schedule) (audio_chunk : list byte) (st : VadState)
  : bool * VadState :=
  if (length audio_chunk =? 0)%nat then (false, st)
  else
    let st0 := if finish_before_check sched then thread_finish cfg st else st in
    let st1 := _check_voice_activity audio_chunk st0 in
    let st2 := if finish_before_read sched then thread_finish cfg st1 else st1 in
    (is_webrtc_speech_active st2 && is_silero_speech_active st2, st2).

(** What the two detectors say about one chunk, each run to completion on
    that chunk. *)
Definition both_detect_speech `{VadModels} (cfg : Config)
    (audio_chunk : list byte) : bool :=
  webrtc_verdict audio_chunk false
  && default false (silero_verdict cfg audio_chunk).

(** * Statement-level definitions and sample inputs

    Predicates used in the statements below, a concrete instance of the
    Python conversions, and the inputs of the closed examples. *)

(** The new-speech window as the specification words it: the bytes of
    [[silence_buffer_start_len, len)] when the silence marker lies beyond
    [last_published_len], of [[last_published_len, len)] otherwise. *)
Definition spec_new_speech_bytes (session : SpeechSession) : Z :=
  let len := blen (audio_buffer session) in
  if silence_buffer_start_len session >? last_published_len session
  then Z.max 0 (len - silence_buffer_start_len session)
  else Z.max 0 (len - last_published_len session).

Definition spec_new_speech_seconds (cfg : Config) (session : SpeechSession)
  : Q :=
  bytes_to_seconds cfg (spec_new_speech_bytes session).

(** Sample inputs used by the concrete instances below. *)
Definition fresh_gateway : Gateway := {|
  redis := empty_redis;
  job_in_flight := ∅;
  latest_segment_id_sent := ∅;
  connected_clients := ∅;
  outbox := [];
  jobs_published := 0;
  audio_chunks_processed := 0;
  results_forwarded := 0
|}.

Definition sample_publish_env : PublishEnv :=
  {| uuid_hex8 := "0a1b2c3d"; t_segment := 5; t_stamp := 5 |}.

(** An ACTIVE session whose buffer holds [n] bytes, nothing published yet. *)
Definition active_session (n : Z) : SpeechSession := {|
  state := ACTIVE;
  audio_buffer := repeat x00 (Z.to_nat n);
  pre_speech_buffer := [];
  silence_start_time := Some 0%Q;
  session_start_time := Some 0%Q;
  accumulated_audio_bytes := n;
  last_stt_send_time := None;
  last_published_len := 0;
  silence_buffer_start_len := 0;
  source_lang := "en";
  target_lang := "vi";
  translation_enabled := true
|}.

Definition sample_job : Job := {|
  job_id := "c0_00000000";
  job_client_id := "c0";
  segment_id := 1;
  audio_bytes := [x00; x00];
  job_sample_rate := 16000;
  job_source_lang := "en";
  job_target_lang := "vi";
  job_translation_enabled := true;
  is_final := false;
  timestamp := 1;
  gateway_instance := "gw"
|}.

(** A gateway whose [audio_jobs] stream already holds [n] entries. *)
Definition gateway_with_backlog (n : nat) : Gateway :=
  set_redis {| kv := ∅; ttl := ∅; audio_jobs := repeat sample_job n |}
    fresh_gateway.

(** An ACTIVE session of [n] buffered bytes whose silence marker sits at
    [m]. *)
Definition resumed_session (n m : Z) : SpeechSession :=
  set_silence_buffer_start_len m (active_session n).

Definition chunk_env_at (t : Q) : ChunkEnv := {|
  t_start := t; t_speech := t; t_silence := t; t_check := t;
  publish_env := {| uuid_hex8 := "0a1b2c3d"; t_segment := t; t_stamp := t |}
|}.

(** A gateway on which client [c] has a job in flight. *)
Definition gateway_in_flight (c : string) : Gateway :=
  set_job_in_flight {[c := true]} fresh_gateway.

(** An instance: default configuration (a cap of 64000 bytes), an INACTIVE
    session whose pre-speech buffer is already full, and three more silent
    bytes. *)
Definition full_pre_speech_session : SpeechSession :=
  set_pre_speech_buffer (repeat x00 (Z.to_nat 64000)) (new_session default_config).

(** The states the chunk handler can actually produce: never SILENCE, the
    silence timer always running while ACTIVE, the silence marker always 0. *)
Definition timer_always_set (s : SpeechSession) : Prop :=
  state s <> SILENCE
  /\ (state s = ACTIVE -> silence_start_time s <> None)
  /\ silence_buffer_start_len s = 0.

Definition speech_chunk_event (n : Z) (t : Q) : ChunkEvent :=
  {| ev_chunk := repeat x01 (Z.to_nat n); ev_has_speech := true;
     ev_env := chunk_env_at t |}.

(** Two toy detectors for the concrete runs: WebRTC calls every full frame
    speech, Silero reports the first sample of its window as probability. *)
Definition toy_models : VadModels := {|
  webrtc_is_speech := fun _ => true;
  silero_model := fun w => hd 0%Q w
|}.

(** 10 ms of loud samples (32767) and 10 ms of digital silence. *)
Definition loud_chunk : list byte := concat (repeat [xff; x7f] 160).
Definition quiet_chunk : list byte := repeat x00 320.

Definition no_finish : Schedule :=
  {| finish_before_check := false; finish_before_read := false |}.
Definition finish_first : Schedule :=
  {| finish_before_check := true; finish_before_read := false |}.

(** The three ways [from_dict] can raise, as tests on its inputs. *)
Definition legacy_loadable `{PyPrims} (data : gmap string string)
    (k : string) : bool :=
  match data !! k with
  | Some v => match b64decode v with Some _ => true | None => false end
  | None => true
  end.

Definition buffers_loadable `{PyPrims} (data : gmap string string)
    (audio_buffers : option (gmap string (list byte))) : bool :=
  buffers_truthy audio_buffers
  || (legacy_loadable data "audio_buffer"
      && legacy_loadable data "pre_speech_buffer").

Definition state_loadable (data : gmap string string) : bool :=
  match data !! "state" with
  | Some v => is_ok (state_of_value v)
  | None => true
  end.

Definition keys_known (data : gmap string string) : bool :=
  forallb known_field (elements (dom data)).

Definition int_keys : list string :=
  ["accumulated_audio_bytes"; "last_published_len"; "silence_buffer_start_len"].
Definition float_keys : list string :=
  ["silence_start_time"; "session_start_time"; "last_stt_send_time"].

(** A concrete instance of the Python conversions: decimal [str] / [int]
    from the standard library, and a codec for rationals that prints the
    decimal code of the (numerator, denominator) pair.  It serves the closed
    examples; the theorems hold for every instance satisfying [PyLaws]. *)
Definition dec_int_of_str (s : string) : option Z :=
  option_map Z.of_int (NilZero.int_of_string s).

Definition dec_str_of_int (z : Z) : string :=
  NilZero.string_of_int (Z.to_int z).

Definition code_str_of_float (q : Q) : string :=
  dec_str_of_int (Zpos (encode (Qnum q, Qden q))).

Definition code_float_of_str (s : string) : option Q :=
  match dec_int_of_str s with
  | Some (Zpos p) =>
      match decode p with
      | Some (n, d) => Some (Qmake n d)
      | None => None
      end
  | _ => None
  end.

Definition decimal_prims : PyPrims := {|
  int_of_str := dec_int_of_str;
  str_of_int := dec_str_of_int;
  float_of_str := code_float_of_str;
  str_of_float := code_str_of_float;
  b64decode := fun _ => None
|}.

Definition corrupted_hash : gmap string string :=
  <["state" := "active"]>
  (<["accumulated_audio_bytes" := "12x"]>
  (<["last_published_len" := ""]>
  (<["silence_start_time" := "soon"]>
  (<["session_start_time" := ""]> ∅)))).

(** The fields [save_session] writes into the hash. *)
Definition scalar_keys : list string :=
  ["state"; "silence_start_time"; "session_start_time";
   "accumulated_audio_bytes"; "last_stt_send_time"; "last_published_len";
   "silence_buffer_start_len"; "source_lang"; "target_lang";
   "translation_enabled"].

(** The session key of a client holds nothing, or a hash with no other
    fields than those: the states the gateway's own writes leave behind. *)
Definition session_slot_ok (c : string) (r : Redis) : Prop :=
  match kv r !! RedisService.session_key c with
  | None => True
  | Some (RHash h) => forall k, is_Some (h !! k) -> In k scalar_keys
  | Some (RStr _) => False
  end.

(** [load_session] once the three keys have been read. *)
Definition loaded_buffers (oa op : option (list byte))
  : gmap string (list byte) :=
  let b1 := match RedisService.blob_truthy oa with
            | Some b => <["audio_buffer" := b]> (∅ : gmap string (list byte))
            | None => ∅
            end in
  match RedisService.blob_truthy op with
  | Some b => <["pre_speech_buffer" := b]> b1
  | None => b1
  end.

(** What [GET] sees after [store_buffer]. *)
Definition stored_blob (b : list byte) : option (list byte) :=
  match b with
  | [] => None
  | _ :: _ => Some b
  end.

Definition sample_session : SpeechSession := {|
  state := ACTIVE;
  audio_buffer := [x00; xff; x0a; x0d; x80];
  pre_speech_buffer := [];
  silence_start_time := Some (3 # 2)%Q;
  session_start_time := None;
  accumulated_audio_bytes := 5;
  last_stt_send_time := None;
  last_published_len := 0;
  silence_buffer_start_len := 0;
  source_lang := "en";
  target_lang := "en";
  translation_enabled := false
|}.

(** The segment id the router compares with [latest_segment_id_sent]. *)
Definition result_segment_id `{PyPrims} (result_data : gmap string jval) : Z :=
  int_or_zero (default (JStr "0") (result_data !! "segment_id")).

Definition last_sent (c : string) (g : Gateway) : Z :=
  default (-1) (latest_segment_id_sent g !! c).

Definition realtime_frame (result_data : gmap string jval) : ServerMsg :=
  Realtime (default (JStr "") (result_data !! "text"))
           (default (JStr "") (result_data !! "translation"))
           (default (JStr "") (result_data !! "segment_id"))
           (default (JFloat 0) (result_data !! "processing_time")).

(** A stored session with translation off, a job in flight, segment 7
    already forwarded, and the client connected. *)
Definition stored_redis : Redis :=
  match RedisService.save_session (H := decimal_prims) default_config "c1"
          sample_session empty_redis with
  | Ok r => r
  | Raise _ => empty_redis
  end.

Definition busy_gateway : Gateway := {|
  redis := stored_redis;
  job_in_flight := {["c1" := true]};
  latest_segment_id_sent := {["c1" := 7]};
  connected_clients := {["c1"]};
  outbox := [];
  jobs_published := 1;
  audio_chunks_processed := 0;
  results_forwarded := 1
|}.

(** A final single-stage result for segment 6, arriving after segment 7. *)
Definition stale_result : gmap string jval :=
  <["client_id" := JStr "c1"]>
  (<["segment_id" := JStr "6"]>
  (<["text" := JStr "hello"]>
  (<["translation" := JStr ""]>
  (<["is_final" := JBool true]> ∅)))).

(** The frames one result makes the router write. *)
Definition frames_for `{PyPrims} (c : string) (session : SpeechSession)
    (tr : string) (result_data : gmap string jval) (g : Gateway)
  : list (string * ServerMsg) :=
  if should_forward (translation_enabled session) (str_truthy tr)
       (result_segment_id result_data) (last_sent c g)
     && bool_decide (c ∈ connected_clients g)
  then (c, realtime_frame result_data)
       :: (if parse_is_final result_data then [(c, UtteranceEnd c)] else [])
  else [].

(** A final single-stage result for a new segment. *)
Definition fresh_final_result : gmap string jval :=
  <["client_id" := JStr "c1"]>
  (<["segment_id" := JStr "8"]>
  (<["text" := JStr "goodbye"]>
  (<["translation" := JStr ""]>
  (<["is_final" := JStr "True"]> ∅)))).

(** * Further code: the session cache, the control handlers, framing

    The parts of [gateway.py], [websocket_handler.py], [vad.py] and their
    neighbours that the statements of the second half of the development
    are about. *)

(** ** gateway.py: the in-process session cache *)

(** [a < b] on floats. *)
Definition Qltb (a b : Q) : bool := negb (Qle_bool b a).

(** [self.session_cache_ttl] *)
Definition session_cache_ttl : Q := 30.

(** A gateway process with its [session_cache]: client id to (session,
    cache time). *)
Record CachedGateway := {
  gateway : Gateway;
  session_cache : gmap string (SpeechSession * Q)
}.

Definition with_gateway (g : Gateway) (cg : CachedGateway) : CachedGateway :=
  {| gateway := g; session_cache := session_cache cg |}.

Definition with_cache (m : gmap string (SpeechSession * Q))
    (cg : CachedGateway) : CachedGateway :=
  {| gateway := gateway cg; session_cache := m |}.

(** [GatewayService.load_session(self, client_id)]; [current_time] is its
    [time.time()] read.  An expired entry is deleted before Redis is asked,
    so the deletion survives an exception of the Redis load. *)
Definition cached_load_session `{PyPrims} (cfg : Config) (current_time : Q)
    (client_id : string) (cg : CachedGateway)
  : result SpeechSession * CachedGateway :=
  let from_redis (cg1 : CachedGateway) :=
    match RedisService.load_session cfg client_id (redis (gateway cg1)) with
    | Ok session =>
        (Ok session,
         with_cache (<[client_id := (session, current_time)]>
                       (session_cache cg1)) cg1)
    | Raise e => (Raise e, cg1)
    end in
  match session_cache cg !! client_id with
  | Some (session, cache_time) =>
      if Qltb (current_time - cache_time) session_cache_ttl
      then (Ok session, cg)
      else from_redis (with_cache (delete client_id (session_cache cg)) cg)
  | None => from_redis cg
  end.

(** [GatewayService.save_session(self, client_id, session)]; [now] is the
    [time.time()] read after the Redis save. *)
Definition cached_save_session `{PyPrims} (cfg : Config) (now : Q)
    (client_id : string) (session : SpeechSession) (cg : CachedGateway)
  : result CachedGateway :=
  r ← RedisService.save_session cfg client_id session (redis (gateway cg));
  Ok {| gateway := set_redis r (gateway cg);
        session_cache := <[client_id := (session, now)]> (session_cache cg) |}.

(** The whole of [process_audio_chunk(self, client_id, audio_chunk)]: the
    [load_session] call, the body above, and the [save_session] call every
    exit path makes before it returns.  The session object obtained from
    [load_session] is the one the cache holds, and the handler mutates it in
    place: when the final save raises, the cache already shows the mutated
    session under its old cache time, and the chunk counter, incremented
    only after the save, keeps its old value. *)
Definition process_audio_chunk_io `{PyPrims} (cfg : Config)
    (instance_id : string) (t_load t_save : Q) (env : ChunkEnv)
    (client_id : string) (audio_chunk : list byte) (has_speech : bool)
    (cg : CachedGateway) : result bool * CachedGateway :=
  match cached_load_session cfg t_load client_id cg with
  | (Raise e, cg1) => (Raise e, cg1)
  | (Ok session, cg1) =>
      let cache_time :=
        match session_cache cg1 !! client_id with
        | Some (_, t) => t
        | None => t_load
        end in
      let '(ended, s', g') :=
        process_audio_chunk cfg instance_id env client_id audio_chunk
          has_speech session (gateway cg1) in
      match cached_save_session cfg t_save client_id s'
              (with_gateway g' cg1) with
      | Ok cg2 => (Ok ended, cg2)
      | Raise e =>
          (Raise e,
           {| gateway :=
                set_audio_chunks_processed
                  (audio_chunks_processed (gateway cg1)) g';
              session_cache :=
                <[client_id := (s', cache_time)]> (session_cache cg1) |})
      end
  end.

(** ** websocket_handler.py: control messages *)

Definition set_source_lang v (s : SpeechSession) : SpeechSession :=
  {| state := state s; audio_buffer := audio_buffer s;
     pre_speech_buffer := pre_speech_buffer s;
     silence_start_time := silence_start_time s;
     session_start_time := session_start_time s;
     accumulated_audio_bytes := accumulated_audio_bytes s;
     last_stt_send_time := last_stt_send_time s;
     last_published_len := last_published_len s;
     silence_buffer_start_len := silence_buffer_start_len s;
     source_lang := v; target_lang := target_lang s;
     translation_enabled := translation_enabled s |}.

Definition set_target_lang v (s : SpeechSession) : SpeechSession :=
  {| state := state s; audio_buffer := audio_buffer s;
     pre_speech_buffer := pre_speech_buffer s;
     silence_start_time := silence_start_time s;
     session_start_time := session_start_time s;
     accumulated_audio_bytes := accumulated_audio_bytes s;
     last_stt_send_time := last_stt_send_time s;
     last_published_len := last_published_len s;
     silence_buffer_start_len := silence_buffer_start_len s;
     source_lang := source_lang s; target_lang := v;
     translation_enabled := translation_enabled s |}.

Definition set_translation_enabled v (s : SpeechSession) : SpeechSession :=
  {| state := state s; audio_buffer := audio_buffer s;
     pre_speech_buffer := pre_speech_buffer s;
     silence_start_time := silence_start_time s;
     session_start_time := session_start_time s;
     accumulated_audio_bytes := accumulated_audio_bytes s;
     last_stt_send_time := last_stt_send_time s;
     last_published_len := last_published_len s;
     silence_buffer_start_len := silence_buffer_start_len s;
     source_lang := source_lang s; target_lang := target_lang s;
     translation_enabled := v |}.

(** The [status] frame of [_send_status_update]. *)
Record StatusFrame := {
  status_client_id : string;
  status_source_language : string;
  status_target_language : string;
  status_translation_enabled : bool
}.

Definition status_of (client_id : string) (session : SpeechSession)
  : StatusFrame :=
  {| status_client_id := client_id;
     status_source_language := source_lang session;
     status_target_language := target_lang session;
     status_translation_enabled := translation_enabled session |}.

(** [_handle_set_languages(self, data, client_id, websocket)], on control
    messages whose [source_language] / [target_language], when present, are
    JSON strings ([data] holds those string fields).  It talks to
    [RedisService] directly.  The result is the Redis state and the status
    frame sent, if any. *)
Definition _handle_set_languages `{PyPrims} (cfg : Config)
    (data : gmap string string) (client_id : string) (r : Redis)
  : result (Redis * option StatusFrame) :=
  session ← RedisService.load_session cfg client_id r;
  let old_source := source_lang session in
  let old_target := target_lang session in
  let new_source := default (source_lang session) (data !! "source_language") in
  let new_target := default (target_lang session) (data !! "target_language") in
  if negb (String.eqb new_source old_source)
     || negb (String.eqb new_target old_target)
  then
    let s1 := set_target_lang new_target (set_source_lang new_source session) in
    let s2 := set_translation_enabled
                (negb (String.eqb (source_lang s1) (target_lang s1))) s1 in
    r' ← RedisService.save_session cfg client_id s2 r;
    Ok (r', Some (status_of client_id s2))
  else Ok (r, None).

(** [_handle_start_over(self, client_id)]: the session is reset in Redis,
    through [RedisService], and the in-flight flag cleared; no job is
    published. *)
Definition _handle_start_over `{PyPrims} (cfg : Config) (client_id : string)
    (g : Gateway) : result Gateway :=
  session ← RedisService.load_session cfg client_id (redis g);
  r' ← RedisService.save_session cfg client_id (end_speech_session session)
         (redis g);
  Ok (set_job_in_flight (<[client_id := false]> (job_in_flight g))
        (set_redis r' g)).

(** ** The audio frame: client encoder and gateway decoder *)

(** [int.from_bytes(b, byteorder='little', signed=False)] *)
Fixpoint int_from_bytes_le (b : list byte) : Z :=
  match b with
  | [] => 0
  | x :: rest => Z.of_N (Byte.to_N x) + 256 * int_from_bytes_le rest
  end.

(** The slicing of [_handle_audio_message]: metadata length, metadata bytes,
    audio chunk. *)
Definition split_audio_message (message : list byte)
  : Z * list byte * list byte :=
  let metadata_length := int_from_bytes_le (take 4 message) in
  (metadata_length,
   take (Z.to_nat metadata_length) (drop 4 message),
   drop (4 + Z.to_nat metadata_length) message).

(** The [n]-byte little-endian digits of [z]. *)
Fixpoint le_bytes (n : nat) (z : Z) : list byte :=
  match n with
  | O => []
  | S n' =>
      default x00 (Byte.of_N (Z.to_N (z mod 256))) :: le_bytes n' (z / 256)
  end.

(** [struct.pack("<I", n)]: [None] stands for [struct.error], raised when
    [n] does not fit an unsigned 32-bit integer. *)
Definition struct_pack_u32_le (n : Z) : option (list byte) :=
  if (0 <=? n) && (n <? 2 ^ 32) then Some (le_bytes 4 n) else None.

(** The frame [send_audio_chunk] of the demo client builds from the encoded
    metadata and the audio. *)
Definition audio_message (metadata audio_data : list byte)
  : option (list byte) :=
  match struct_pack_u32_le (blen metadata) with
  | Some metadata_len => Some (metadata_len ++ metadata ++ audio_data)
  | None => None
  end.

(** ** audio_processor.py: stripping the WAV header *)





(** ** stt_worker/worker.py: reading the flags of a job *)

(** [_parse_bool(value)] *)
Definition _parse_bool (value : jval) : bool :=
  match value with
  | JBool b => b
  | JStr s =>
      let l := py_lower s in
      String.eqb l "true" || String.eqb l "1" || String.eqb l "yes"
      || String.eqb l "on"
  | v => jval_truthy v
  end.

(** ** Predicates of the statements *)

(** The two markers point into the audio buffer. *)
Definition markers_in_range (s : SpeechSession) : Prop :=
  0 <= last_published_len s <= blen (audio_buffer s)
  /\ 0 <= silence_buffer_start_len s <= blen (audio_buffer s).

(** An INACTIVE session holds no audio and no utterance state. *)
Definition idle_is_empty (s : SpeechSession) : Prop :=
  state s = INACTIVE ->
  audio_buffer s = [] /\ last_published_len s = 0
  /\ silence_buffer_start_len s = 0 /\ silence_start_time s = None
  /\ session_start_time s = None.

(** The state a chunk leaves behind when it does not end the session. *)
Definition next_state (st : SpeechState) (has_speech : bool) : SpeechState :=
  match st with
  | ACTIVE => ACTIVE
  | INACTIVE => if has_speech then ACTIVE else INACTIVE
  | SILENCE => if has_speech then ACTIVE else SILENCE
  end.

(** A session wiped by [end_speech_session]. *)
Definition is_reset (s : SpeechSession) : Prop :=
  state s = INACTIVE /\ audio_buffer s = [] /\ pre_speech_buffer s = []
  /\ silence_start_time s = None /\ session_start_time s = None
  /\ accumulated_audio_bytes s = 0 /\ last_stt_send_time s = None
  /\ last_published_len s = 0 /\ silence_buffer_start_len s = 0.

(** The language settings of two sessions agree. *)
Definition same_languages (s s' : SpeechSession) : Prop :=
  source_lang s' = source_lang s /\ target_lang s' = target_lang s
  /\ translation_enabled s' = translation_enabled s.

(** Everything of the gateway but the job stream, its counter, the chunk
    counter and the in-flight dict is the same in [g] and [g']. *)
Definition same_but_jobs (g g' : Gateway) : Prop :=
  kv (redis g') = kv (redis g) /\ ttl (redis g') = ttl (redis g)
  /\ latest_segment_id_sent g' = latest_segment_id_sent g
  /\ connected_clients g' = connected_clients g
  /\ outbox g' = outbox g
  /\ results_forwarded g' = results_forwarded g.

(** The frames sent, the connected clients and the router's bookkeeping are
    the same in [g] and [g']. *)
Definition same_frames (g g' : Gateway) : Prop :=
  latest_segment_id_sent g' = latest_segment_id_sent g
  /\ connected_clients g' = connected_clients g
  /\ outbox g' = outbox g
  /\ results_forwarded g' = results_forwarded g.

(** Everything of the gateway outside the Redis keyspace and its expiries
    is the same in [g] and [g']: the job stream, the counters, the in-flight
    flags, the frames sent. *)
Definition same_outside_keyspace (g g' : Gateway) : Prop :=
  audio_jobs (redis g') = audio_jobs (redis g)
  /\ job_in_flight g' = job_in_flight g
  /\ jobs_published g' = jobs_published g
  /\ audio_chunks_processed g' = audio_chunks_processed g
  /\ same_frames g g'.

(** [j] is the envelope of client [c] for the audio buffer [buf]. *)
Definition job_of (cfg : Config) (c : string) (s : SpeechSession)
    (buf : list byte) (final : bool) (j : Job) : Prop :=
  job_client_id j = c /\ audio_bytes j = buf /\ buf <> []
  /\ is_final j = final
  /\ job_sample_rate j = SAMPLE_RATE cfg
  /\ job_source_lang j = source_lang s
  /\ job_target_lang j = target_lang s
  /\ job_translation_enabled j = translation_enabled s.

(** From [g] to [g'] the stream is untouched, or exactly one envelope was
    appended and counted. *)
Definition stream_step (cfg : Config) (c : string) (s : SpeechSession)
    (buf : list byte) (final : bool) (g g' : Gateway) : Prop :=
  (audio_jobs (redis g') = audio_jobs (redis g)
   /\ jobs_published g' = jobs_published g)
  \/ exists j,
       audio_jobs (redis g') = audio_jobs (redis g) ++ [j]
       /\ jobs_published g' = jobs_published g + 1
       /\ job_of cfg c s buf final j.

(** The in-flight flags of the clients other than [c] agree. *)
Definition others_in_flight_kept (c : string) (g g' : Gateway) : Prop :=
  forall c', c' <> c -> job_in_flight g' !! c' = job_in_flight g !! c'.

(** The facts about one phase of the handler that the statements below
    share: [x] is the session the phase starts from, [r] what it returns. *)
Definition phase_effect (cfg : Config) (c : string) (x : SpeechSession)
    (g : Gateway) (r : bool * SpeechSession * Gateway) : Prop :=
  let '(ended, s', g') := r in
  same_languages x s'
  /\ same_but_jobs g g'
  /\ others_in_flight_kept c g g'
  /\ stream_step cfg c x (audio_buffer x) ended g g'
  /\ audio_chunks_processed g'
     = audio_chunks_processed g + (if ended then 0 else 1)
  /\ (ended = true -> is_reset s' /\ state x = ACTIVE)
  /\ (ended = false ->
      state s' = state x /\ audio_buffer s' = audio_buffer x
      /\ pre_speech_buffer s' = pre_speech_buffer x
      /\ silence_start_time s' = silence_start_time x
      /\ session_start_time s' = session_start_time x)
  /\ (state x <> ACTIVE ->
      audio_jobs (redis g') = audio_jobs (redis g)
      /\ jobs_published g' = jobs_published g
      /\ job_in_flight g' = job_in_flight g).

(** The same facts for a whole call of [process_audio_chunk] on session
    [s]: the buffer a published job carries ends with the chunk just
    received. *)
Definition chunk_effect (cfg : Config) (c : string) (chunk : list byte)
    (h : bool) (s : SpeechSession) (g : Gateway)
    (r : bool * SpeechSession * Gateway) : Prop :=
  let '(ended, s', g') := r in
  same_languages s s'
  /\ same_but_jobs g g'
  /\ others_in_flight_kept c g g'
  /\ (exists p, stream_step cfg c s (p ++ chunk) ended g g')
  /\ audio_chunks_processed g'
     = audio_chunks_processed g + (if ended then 0 else 1)
  /\ (ended = true -> is_reset s' /\ next_state (state s) h = ACTIVE)
  /\ (ended = false -> state s' = next_state (state s) h)
  /\ (next_state (state s) h <> ACTIVE ->
      audio_jobs (redis g') = audio_jobs (redis g)
      /\ jobs_published g' = jobs_published g
      /\ job_in_flight g' = job_in_flight g).

(** ** The handler once the chunk is appended *)

(** The silence timer the handler compares with the clock once the verdict
    has been taken into account: the time of this chunk when it holds
    speech, otherwise the timer already running, otherwise the time silence
    is first noted. *)
Definition timer_after (env : ChunkEnv) (has_speech : bool)
    (s : SpeechSession) : Q :=
  if has_speech then t_speech env
  else default (t_silence env) (silence_start_time s).

(** The audio buffer once the chunk has been appended: an activating chunk
    first brings the rolled pre-speech buffer along. *)
Definition buffer_after (cfg : Config) (audio_chunk : list byte)
    (has_speech : bool) (s : SpeechSession) : list byte :=
  match state s, has_speech with
  | INACTIVE, true =>
      audio_buffer s ++ pre_speech_buffer (roll_pre_speech cfg audio_chunk s)
        ++ audio_chunk
  | _, _ => audio_buffer s ++ audio_chunk
  end.

(** The session of [process_audio_chunk] right after the chunk has been
    appended to the audio buffer, before the cap and the timer are checked. *)
Definition appended (cfg : Config) (env : ChunkEnv) (audio_chunk : list byte)
    (has_speech : bool) (s : SpeechSession) : SpeechSession :=
  let s1 := roll_pre_speech cfg audio_chunk s in
  let s2 := if has_speech then on_speech env s1 else s1 in
  let s3 := mark_silence_start env has_speech s2 in
  let s4 := set_audio_buffer (audio_buffer s3 ++ audio_chunk) s3 in
  set_accumulated_audio_bytes
    (accumulated_audio_bytes s4 + blen audio_chunk) s4.

(** [last_published_len] at that point: [start_speech] has reset it unless
    the session was ACTIVE already. *)
Definition published_before (has_speech : bool) (s : SpeechSession) : Z :=
  match state s, has_speech with
  | ACTIVE, _ => last_published_len s
  | _, _ => 0
  end.

(** ** redis_service.py: the keys of a client *)

(** The three Redis keys [redis_service.py] uses for one client. *)
Definition client_keys (client_id : string) : list string :=
  [RedisService.session_key client_id;
   RedisService.audio_buffer_key client_id;
   RedisService.pre_speech_buffer_key client_id].

(** What [save_session] leaves under each of the three keys: the hash of
    scalar fields, and each buffer when it is not empty. *)
Definition stored_value `{PyPrims} (c : string) (s : SpeechSession)
    (k : string) : option rval :=
  if decide (k = RedisService.session_key c) then Some (RHash (to_dict s))
  else if decide (k = RedisService.audio_buffer_key c)
       then RStr <$> stored_blob (audio_buffer s)
  else if decide (k = RedisService.pre_speech_buffer_key c)
       then RStr <$> stored_blob (pre_speech_buffer s)
  else None.

(** The client id [handle_client] makes up:
    [f"client_{user_id}_{uuid.uuid4().hex[:4]}"]. *)
Definition client_id_of (user_id hex4 : string) : string :=
  "client_" +:+ user_id +:+ "_" +:+ hex4.

(** A digit of [uuid.hex]. *)
Definition is_hex_digit (a : ascii) : bool :=
  existsb (Ascii.eqb a) (list_ascii_of_string "0123456789abcdef").

(** The last character of a string. *)
Fixpoint last_ascii (s : string) : option ascii :=
  match s with
  | EmptyString => None
  | String a EmptyString => Some a
  | String _ rest => last_ascii rest
  end.

(** No Redis key of client [c'] is a key of client [c]. *)
Definition keys_disjoint (c c' : string) : Prop :=
  forall k, In k (client_keys c') -> ~ In k (client_keys c).

(** Four hex digits, as [uuid.uuid4().hex[:4]] gives. *)
Definition is_hex4 (s : string) : bool :=
  match s with
  | String a (String b (String c (String d EmptyString))) =>
      is_hex_digit a && is_hex_digit b && is_hex_digit c && is_hex_digit d
  | _ => false
  end.

(** ** A sample cache *)

(** A gateway process whose cache holds an ACTIVE session of client [c1],
    cached at time 0, over an empty Redis. *)
Definition cached_active_gateway : CachedGateway :=
  {| gateway := fresh_gateway;
     session_cache := {["c1" := (active_session 4, 0%Q)]} |}.

(** ** vad.py: runs of the detector *)

(** A detector whose Silero check can never complete again: the flag
    [silero_working] is set, and the thread that should clear it is gone or
    is bound to die on [np.frombuffer]. *)
Definition silero_doomed (st : VadState) : Prop :=
  silero_working st = true
  /\ forall d, silero_thread st = Some d -> int16_samples d = None.

(** [detect_speech_activity] on one chunk after the other, each under its
    own schedule; the verdicts in order. *)
Fixpoint detect_all `{VadModels} (cfg : Config)
    (evs : list (Schedule * list byte)) (st : VadState)
  : list bool * VadState :=
  match evs with
  | [] => ([], st)
  | (sched, chunk) :: rest =>
      let '(v, st1) := detect_speech_activity cfg sched chunk st in
      let '(vs, st2) := detect_all cfg rest st1 in
      (v :: vs, st2)
  end.

(** 321 bytes: one full frame and one stray byte. *)
Definition odd_speech_chunk : list byte := repeat x01 321.

(** ** websocket_handler.py: what the router may change *)

(** What one result may change of the gateway, for the client [c] it is
    addressed to: frames are appended for [c] only, jobs are appended for
    [c] only and none of them final, the latest segment id of [c] does not
    go down, and the ids and in-flight flags of other clients, the connected
    clients, the chunk counter, the expiries and every Redis key but the
    session hash of [c] stay as they are. *)
Definition router_step (c : string) (g g' : Gateway) : Prop :=
  connected_clients g' = connected_clients g
  /\ audio_chunks_processed g' = audio_chunks_processed g
  /\ (forall c', c' <> c ->
        latest_segment_id_sent g' !! c' = latest_segment_id_sent g !! c'
        /\ job_in_flight g' !! c' = job_in_flight g !! c')
  /\ last_sent c g <= last_sent c g'
  /\ (exists new,
        outbox g' = outbox g ++ new /\ Forall (fun m => fst m = c) new)
  /\ (exists js,
        audio_jobs (redis g') = audio_jobs (redis g) ++ js
        /\ Forall (fun j => job_client_id j = c /\ is_final j = false) js)
  /\ (forall k, k <> RedisService.session_key c ->
        kv (redis g') !! k = kv (redis g) !! k)
  /\ ttl (redis g') = ttl (redis g).
(** * Properties *)

(** ** Arithmetic helpers *)

Lemma Qgeb_le (a b : Q) : Qgeb a b = true <-> (b <= a)%Q.
Proof. unfold Qgeb. apply Qle_bool_iff. Qed.

Lemma Qgeb_false (a b : Q) : Qgeb a b = false <-> (a < b)%Q.
Proof.
  unfold Qgeb. split.
  - intros H. apply Qnot_le_lt. intros Hle.
    apply Qle_bool_iff in Hle. congruence.
  - intros H. destruct (Qle_bool b a) eqn:E; [|reflexivity].
    apply Qle_bool_iff in E. exfalso. eapply Qlt_not_le; eassumption.
Qed.

Lemma gtb_true (a b : Z) : (a >? b) = true <-> b < a.
Proof. rewrite Z.gtb_ltb. apply Z.ltb_lt. Qed.

Lemma gtb_false (a b : Z) : (a >? b) = false <-> a <= b.
Proof. rewrite Z.gtb_ltb. apply Z.ltb_ge. Qed.

Lemma blen_nonneg (b : list byte) : 0 <= blen b.
Proof. unfold blen. lia. Qed.

Lemma blen_app (a b : list byte) : blen (a ++ b) = blen a + blen b.
Proof. unfold blen. rewrite length_app. lia. Qed.

(** ** [str.strip()] *)

Lemma strip_prefix_length p s r :
  strip_prefix p s = Some r ->
  String.length s = (String.length p + String.length r)%nat.
Proof.
  revert s. induction p as [|a p IH]; intros [|b s]; simpl; try discriminate.
  - now intros [= <-].
  - now intros [= <-].
  - destruct (Ascii.eqb a b); [|discriminate]. intros H. now rewrite (IH s H).
Qed.

Lemma drop_space_length ws s r :
  Forall (fun w => w <> "") ws ->
  drop_space ws s = Some r -> (String.length r < String.length s)%nat.
Proof.
  intros Hne. induction Hne as [|w ws Hw _ IH]; simpl; [discriminate|].
  destruct (strip_prefix w s) as [r'|] eqn:E; [|exact IH].
  intros [= <-]. apply strip_prefix_length in E.
  destruct w; [congruence|]. simpl in E. lia.
Qed.

(** Fuel the length of the string is enough: what [lstrip_with] returns no
    longer starts with a character of [ws]. *)
Lemma lstrip_with_done ws n s :
  Forall (fun w => w <> "") ws ->
  (String.length s <= n)%nat ->
  drop_space ws (lstrip_with ws n s) = None.
Proof.
  intros Hne. revert s. induction n as [|n IH]; intros s Hn.
  - destruct s; [|simpl in Hn; lia]. simpl.
    clear Hn. induction Hne as [|w ws Hw _ IHw]; [reflexivity|].
    simpl. destruct w; [congruence|]. exact IHw.
  - simpl. destruct (drop_space ws s) as [r|] eqn:E; [|exact E].
    apply IH. apply drop_space_length in E; [lia|exact Hne].
Qed.

Lemma py_whitespace_nonempty : Forall (fun w => w <> "") py_whitespace.
Proof. unfold py_whitespace. repeat constructor; discriminate. Qed.

Lemma py_lstrip_done s : drop_space py_whitespace (py_lstrip s) = None.
Proof. apply lstrip_with_done; [apply py_whitespace_nonempty|lia]. Qed.

(** ASCII blanks, a no-break space, an ideographic space and a line
    separator are stripped; a zero-width space (U+200B) is not. *)
Lemma py_strip_examples :
  py_strip ("  hi there" +:+ utf8_1 9 +:+ " ") = "hi there"
  /\ py_strip (utf8_2 194 160) = ""
  /\ py_strip (utf8_3 227 128 128 +:+ "x y" +:+ utf8_3 226 128 168
               +:+ utf8_2 194 133 +:+ " ") = "x y"
  /\ py_strip ("a" +:+ utf8_3 226 128 139 +:+ " ")
     = "a" +:+ utf8_3 226 128 139.
Proof. repeat split; vm_compute; reflexivity. Qed.

(** ** The minimum-new-speech gate (C7) *)

Lemma new_speech_seconds_spec cfg s :
  0 <= last_published_len s ->
  last_published_len s < blen (audio_buffer s) ->
  new_speech_seconds cfg s = spec_new_speech_seconds cfg s.
Proof.
  intros Hlpl Hnew.
  unfold new_speech_seconds, spec_new_speech_seconds, spec_new_speech_bytes.
  destruct (silence_buffer_start_len s >? last_published_len s) eqn:E.
  - assert ((silence_buffer_start_len s >? 0) = true) as ->.
    { apply gtb_true. apply gtb_true in E. lia. }
    reflexivity.
  - rewrite andb_false_r. f_equal. lia.
Qed.

Lemma publish_job_if_needed_flag cfg iid env c s final force g :
  fst (fst (publish_job_if_needed cfg iid env c s final force g))
  = (force || negb (in_flight c g))
    && (blen (audio_buffer s) >? last_published_len s)
    && (force || Qgeb (new_speech_seconds cfg s) (MINIMUM_NEW_AUDIO_SECONDS cfg)).
Proof.
  unfold publish_job_if_needed.
  destruct (_ && _ && _); reflexivity.
Qed.

Lemma default_seconds cfg n :
  SAMPLE_RATE cfg = 16000 ->
  (bytes_to_seconds cfg n == inject_Z n / 32000)%Q.
Proof.
  intros E. unfold bytes_to_seconds, py_truediv. rewrite E. reflexivity.
Qed.

Lemma redis_publish_within_depth cfg iid env c s final r :
  0 < blen (audio_buffer s) ->
  xlen r <= MAX_QUEUE_DEPTH cfg ->
  exists j,
    RedisService.publish_audio_job cfg iid env c s final r
    = (Some (length (audio_jobs r)), xadd j r)
    /\ is_final j = final
    /\ audio_bytes j = audio_buffer s
    /\ job_client_id j = c.
Proof.
  intros Hlen Hdepth. unfold RedisService.publish_audio_job.
  destruct (blen (audio_buffer s) =? 0) eqn:E0.
  { apply Z.eqb_eq in E0. lia. }
  destruct (xlen r >? MAX_QUEUE_DEPTH cfg) eqn:E1.
  { apply gtb_true in E1. lia. }
  eexists. split; [reflexivity|]. simpl. auto.
Qed.

(** C7.  On a configuration with non-zero divisors and a session whose
    [last_published_len] is not negative, a non-final, unforced publish
    happens exactly when no job is in flight, the buffer holds bytes beyond
    [last_published_len], and the new-speech window of the specification,
    in seconds, reaches [MINIMUM_NEW_AUDIO_SECONDS].  With the default rate and a minimum of one
    second, both markers at 0, nothing in flight and the stream within its
    depth limit, a buffer of 31999 bytes is left alone and a buffer of 32000
    bytes is appended to the stream as a non-final job. *)
Theorem C7_minimum_new_speech_gate
    (cfg : Config) (iid : string) (env : PublishEnv) (c : string)
    (s : SpeechSession) (g : Gateway) :
  divisors_nonzero cfg ->
  0 <= last_published_len s ->
  (fst (fst (publish_job_if_needed cfg iid env c s false false g)) = true
   <-> in_flight c g = false
       /\ last_published_len s < blen (audio_buffer s)
       /\ (MINIMUM_NEW_AUDIO_SECONDS cfg <= spec_new_speech_seconds cfg s)%Q)
  /\ (SAMPLE_RATE cfg = 16000 ->
      (MINIMUM_NEW_AUDIO_SECONDS cfg == 1)%Q ->
      last_published_len s = 0 ->
      silence_buffer_start_len s = 0 ->
      in_flight c g = false ->
      xlen (redis g) <= MAX_QUEUE_DEPTH cfg ->
      (blen (audio_buffer s) = 31999 ->
       publish_job_if_needed cfg iid env c s false false g = (false, s, g))
      /\ (blen (audio_buffer s) = 32000 ->
          exists s' g' j,
            publish_job_if_needed cfg iid env c s false false g = (true, s', g')
            /\ audio_jobs (redis g') = audio_jobs (redis g) ++ [j]
            /\ is_final j = false
            /\ audio_bytes j = audio_buffer s
            /\ job_client_id j = c)).
Proof.
  intros _ Hlpl. split.
  - rewrite publish_job_if_needed_flag. simpl.
    rewrite !andb_true_iff, negb_true_iff, gtb_true, Qgeb_le.
    split.
    + intros [[Hf Hnew] Hmin]. repeat split; try assumption.
      rewrite <- new_speech_seconds_spec by assumption. exact Hmin.
    + intros (Hf & Hnew & Hmin). repeat split; try assumption.
      rewrite new_speech_seconds_spec by assumption. exact Hmin.
  - intros Hrate Hmin Hl0 Hs0 Hfl Hdepth.
    assert (Hsec : forall n, blen (audio_buffer s) = n ->
              (new_speech_seconds cfg s == inject_Z n / 32000)%Q).
    { intros n Hn. unfold new_speech_seconds. rewrite Hs0, Hl0, Hn. simpl.
      rewrite default_seconds by assumption.
      replace (n - 0) with n by lia. reflexivity. }
    split; intros Hlen.
    + unfold publish_job_if_needed. rewrite Hfl, Hl0, Hlen. simpl.
      assert (Qgeb (new_speech_seconds cfg s) (MINIMUM_NEW_AUDIO_SECONDS cfg)
              = false) as ->; [|reflexivity].
      apply Qgeb_false. rewrite (Hsec _ Hlen), Hmin. reflexivity.
    + unfold publish_job_if_needed. rewrite Hfl, Hl0, Hlen. simpl.
      assert (Qgeb (new_speech_seconds cfg s) (MINIMUM_NEW_AUDIO_SECONDS cfg)
              = true) as ->.
      { apply Qgeb_le. rewrite (Hsec _ Hlen), Hmin. discriminate. }
      destruct (redis_publish_within_depth cfg iid env c s false (redis g))
        as (j & Hj & Hfin & Haud & Hc); [lia | assumption |].
      unfold publish_audio_job. rewrite Hj. simpl.
      eexists _, _, j. split; [reflexivity|]. simpl. auto.
Qed.

Lemma blen_repeat (b : byte) (n : Z) :
  0 <= n -> blen (repeat b (Z.to_nat n)) = n.
Proof. intros H. unfold blen. rewrite repeat_length. lia. Qed.

Lemma C7_witness :
  publish_job_if_needed default_config "gw" sample_publish_env "c1"
    (active_session 31999) false false fresh_gateway
  = (false, active_session 31999, fresh_gateway)
  /\ exists s' g' j,
       publish_job_if_needed default_config "gw" sample_publish_env "c1"
         (active_session 32000) false false fresh_gateway = (true, s', g')
       /\ audio_jobs (redis g') = audio_jobs (redis fresh_gateway) ++ [j]
       /\ is_final j = false
       /\ audio_bytes j = audio_buffer (active_session 32000)
       /\ job_client_id j = "c1".
Proof.
  split.
  - apply (C7_minimum_new_speech_gate default_config "gw" sample_publish_env
             "c1" (active_session 31999) fresh_gateway);
      try (apply blen_repeat; lia); try reflexivity;
      try (vm_compute; intuition congruence).
  - apply (C7_minimum_new_speech_gate default_config "gw" sample_publish_env
             "c1" (active_session 32000) fresh_gateway);
      try (apply blen_repeat; lia); try reflexivity;
      try (vm_compute; intuition congruence).
Defined.

(** ** Backpressure (C1) *)

(** When the stream is deeper than [MAX_QUEUE_DEPTH] nothing is appended. *)
Lemma redis_publish_over_depth cfg iid env c s final r :
  MAX_QUEUE_DEPTH cfg < xlen r ->
  RedisService.publish_audio_job cfg iid env c s final r = (None, r).
Proof.
  intros H. unfold RedisService.publish_audio_job.
  destruct (blen (audio_buffer s) =? 0); [reflexivity|].
  assert ((xlen r >? MAX_QUEUE_DEPTH cfg) = true) as ->
    by now apply gtb_true.
  reflexivity.
Qed.

Lemma set_redis_same g : set_redis (redis g) g = g.
Proof. now destruct g. Qed.

(** ... but [publish_job_if_needed] never looks at what the publish
    returned: an eligible publish met by a full stream still advances
    [last_published_len], clears the silence marker and marks the client
    in flight. *)
Lemma publish_job_if_needed_over_depth cfg iid env c s g :
  MAX_QUEUE_DEPTH cfg < xlen (redis g) ->
  in_flight c g = false ->
  last_published_len s < blen (audio_buffer s) ->
  (MINIMUM_NEW_AUDIO_SECONDS cfg <= new_speech_seconds cfg s)%Q ->
  publish_job_if_needed cfg iid env c s false false g
  = (true,
     set_silence_buffer_start_len 0
       (set_last_published_len (blen (audio_buffer s)) s),
     set_job_in_flight (<[c := true]> (job_in_flight g)) g).
Proof.
  intros Hdepth Hfl Hnew Hmin. unfold publish_job_if_needed.
  rewrite Hfl. simpl.
  assert ((blen (audio_buffer s) >? last_published_len s) = true) as ->
    by now apply gtb_true.
  assert (Qgeb (new_speech_seconds cfg s) (MINIMUM_NEW_AUDIO_SECONDS cfg)
          = true) as -> by now apply Qgeb_le.
  simpl. unfold publish_audio_job.
  rewrite redis_publish_over_depth by assumption.
  now rewrite set_redis_same.
Qed.

(** C1 at a failing input: default configuration, 101 entries in the stream
    (one more than [MAX_QUEUE_DEPTH]), a client with nothing in flight, 48000
    buffered bytes and the silence marker at 16000.  No job is appended, yet
    the client is marked in flight, [last_published_len] jumps to 48000 and
    the silence marker is cleared. *)
Theorem C1_backpressure_still_marks_in_flight :
  let g := gateway_with_backlog 101 in
  let s := resumed_session 48000 16000 in
  let '(published, s', g') :=
    publish_job_if_needed default_config "gw" sample_publish_env "c1" s
      false false g in
  published = true
  /\ audio_jobs (redis g') = audio_jobs (redis g)
  /\ jobs_published g' = jobs_published g
  /\ in_flight "c1" g = false /\ in_flight "c1" g' = true
  /\ last_published_len s = 0 /\ last_published_len s' = 48000
  /\ silence_buffer_start_len s = 16000 /\ silence_buffer_start_len s' = 0.
Proof.
  cbv zeta.
  rewrite publish_job_if_needed_over_depth.
  - repeat split; vm_compute; reflexivity.
  - vm_compute. reflexivity.
  - vm_compute. reflexivity.
  - vm_compute. reflexivity.
  - vm_compute. discriminate.
Qed.

(** ** Forced final publishes (C6) *)

(** A final publish never touches the in-flight dict. *)
Lemma publish_final_keeps_in_flight cfg iid env c s force g :
  job_in_flight (snd (publish_job_if_needed cfg iid env c s true force g))
  = job_in_flight g.
Proof.
  unfold publish_job_if_needed.
  destruct (_ && _ && _); [|reflexivity].
  simpl. unfold publish_audio_job.
  destruct (RedisService.publish_audio_job _ _ _ _ _ _ _) as [[n|] r]; reflexivity.
Qed.

(** The silence-timeout path clears the flag before its final publish, so the
    client is not in flight afterwards. *)
Lemma silence_timeout_clears_in_flight cfg iid env c s g t0 :
  state s = ACTIVE ->
  silence_start_time s = Some t0 ->
  (SILENCE_THRESHOLD_SECONDS cfg <= t_check env - t0)%Q ->
  let '(ended, s', g') := silence_phase cfg iid env c s g in
  ended = true /\ in_flight c g' = false /\ state s' = INACTIVE.
Proof.
  intros Hst Ht0 Hdur. unfold silence_phase. rewrite Hst, Ht0. simpl.
  assert (Qgeb (t_check env - t0) (SILENCE_THRESHOLD_SECONDS cfg) = true) as ->
    by now apply Qgeb_le.
  pose proof (publish_final_keeps_in_flight cfg iid (publish_env env) c s true
                (set_job_in_flight (<[c := false]> (job_in_flight g)) g)) as Hk.
  destruct (publish_job_if_needed _ _ _ _ _ _ _ _) as [[p s1] g2].
  simpl in Hk. split; [reflexivity|]. split; [|reflexivity].
  unfold in_flight. rewrite Hk. simpl. now rewrite lookup_insert_eq.
Qed.

(** C6 at a failing input: default configuration, an ACTIVE session holding
    exactly [MAX_AUDIO_BUFFER_SECONDS] of audio (320000 bytes) with a job in
    flight, and one more two-byte speech chunk.  The overflow path publishes
    its final job and ends the session, but the in-flight flag is still set
    afterwards: only the silence-timeout path clears it. *)
Theorem C6_overflow_final_leaves_in_flight :
  let '(ended, s', g') :=
    process_audio_chunk default_config "gw" (chunk_env_at (1 # 2)) "c1"
      [x01; x00] true (active_session 320000) (gateway_in_flight "c1") in
  ended = true
  /\ state s' = INACTIVE
  /\ map is_final (audio_jobs (redis g')) = [true]
  /\ map (fun j => blen (audio_bytes j)) (audio_jobs (redis g')) = [320002]
  /\ in_flight "c1" (gateway_in_flight "c1") = true
  /\ in_flight "c1" g' = true.
Proof. vm_compute. repeat split; reflexivity. Qed.

(** ** The rolling pre-speech buffer (C9) *)

Lemma py_int_of_float_le (q : Q) : (0 <= q)%Q -> (inject_Z (py_int_of_float q) <= q)%Q.
Proof.
  intros Hq. unfold py_int_of_float.
  assert (0 <= Qnum q) as Hn.
  { unfold Qle in Hq. simpl in Hq. lia. }
  rewrite Z.quot_div_nonneg by lia.
  destruct q as [n d]. exact (Qfloor_le (n # d)).
Qed.

Lemma py_int_of_float_nonneg (q : Q) : (0 <= q)%Q -> 0 <= py_int_of_float q.
Proof.
  intros Hq. unfold py_int_of_float.
  assert (0 <= Qnum q) as Hn.
  { unfold Qle in Hq. simpl in Hq. lia. }
  apply Z.quot_pos; lia.
Qed.

Lemma pre_speech_cap_nonneg cfg :
  (0 <= PRE_SPEECH_BUFFER_SECONDS cfg)%Q -> 0 <= SAMPLE_RATE cfg ->
  (0 <= PRE_SPEECH_BUFFER_SECONDS cfg * inject_Z (SAMPLE_RATE cfg) * 2)%Q.
Proof.
  intros Hp Hr.
  apply Qmult_le_0_compat; [|discriminate].
  apply Qmult_le_0_compat; [assumption|].
  change 0%Q with (inject_Z 0). now rewrite <- Zle_Qle.
Qed.

(** What the rolling update leaves: the newest bytes of old buffer plus
    chunk, at most [pre_speech_max_bytes] of them. *)
Lemma roll_pre_speech_spec cfg chunk s :
  0 <= pre_speech_max_bytes cfg ->
  let all := pre_speech_buffer s ++ chunk in
  let k := Z.to_nat (Z.max 0 (blen all - pre_speech_max_bytes cfg)) in
  pre_speech_buffer (roll_pre_speech cfg chunk s) = drop k all
  /\ blen (pre_speech_buffer (roll_pre_speech cfg chunk s))
     = Z.min (blen all) (pre_speech_max_bytes cfg).
Proof.
  intros Hmax. cbv zeta. unfold roll_pre_speech. cbn [pre_speech_buffer set_pre_speech_buffer].
  destruct (blen (pre_speech_buffer s ++ chunk) >? pre_speech_max_bytes cfg) eqn:E.
  - apply gtb_true in E. cbn [pre_speech_buffer set_pre_speech_buffer].
    rewrite Z.max_r by lia. split; [reflexivity|].
    unfold blen in *. rewrite length_drop. lia.
  - apply gtb_false in E. cbn [pre_speech_buffer set_pre_speech_buffer].
    rewrite Z.max_l by lia. split; [reflexivity|]. lia.
Qed.

Lemma publish_keeps_pre_speech cfg iid env c s final force g :
  pre_speech_buffer (snd (fst (publish_job_if_needed cfg iid env c s final force g)))
  = pre_speech_buffer s.
Proof.
  unfold publish_job_if_needed. destruct (_ && _ && _); reflexivity.
Qed.

Lemma publish_phase_keeps_pre_speech cfg iid env c s g :
  pre_speech_buffer (snd (fst (publish_phase cfg iid env c s g)))
  = pre_speech_buffer s.
Proof.
  unfold publish_phase.
  destruct (SpeechState_eqb (state s) ACTIVE); [|reflexivity].
  destruct (in_silence_period s); [reflexivity|].
  pose proof (publish_keeps_pre_speech cfg iid (publish_env env) c s false false g) as H.
  destruct (publish_job_if_needed _ _ _ _ _ _ _ _) as [[p s1] g1].
  exact H.
Qed.

Lemma silence_phase_pre_speech cfg iid env c s g :
  let '(ended, s', _) := silence_phase cfg iid env c s g in
  (ended = false -> pre_speech_buffer s' = pre_speech_buffer s)
  /\ (ended = true -> pre_speech_buffer s' = []).
Proof.
  assert (forall x,
            let '(ended, s', _) := publish_phase cfg iid env c x g in
            (ended = false -> pre_speech_buffer s' = pre_speech_buffer x)
            /\ (ended = true -> pre_speech_buffer s' = [])) as Hpub.
  { intros x.
    pose proof (publish_phase_keeps_pre_speech cfg iid env c x g) as H.
    unfold publish_phase in *.
    destruct (if SpeechState_eqb (state x) ACTIVE then _ else _) as [s1 g1].
    simpl in H. split; [intros _; exact H | discriminate]. }
  unfold silence_phase.
  destruct (SpeechState_eqb (state s) ACTIVE);
    [destruct (silence_start_time s) as [t0|]|]; try apply Hpub.
  destruct (Qgeb _ _); [|apply Hpub].
  destruct (publish_job_if_needed _ _ _ _ _ _ _ _) as [[p s1] g1].
  split; [discriminate | reflexivity].
Qed.

Lemma on_speech_keeps_pre_speech env s :
  pre_speech_buffer (on_speech env s) = pre_speech_buffer s.
Proof. unfold on_speech. destruct (state s); reflexivity. Qed.

Lemma mark_silence_keeps_pre_speech env h s :
  pre_speech_buffer (mark_silence_start env h s) = pre_speech_buffer s.
Proof.
  unfold mark_silence_start.
  destruct (_ && _); [|reflexivity].
  destruct (silence_start_time s); reflexivity.
Qed.

Lemma process_audio_chunk_pre_speech cfg iid env c chunk h s g :
  let '(ended, s', _) := process_audio_chunk cfg iid env c chunk h s g in
  (ended = false ->
   pre_speech_buffer s' = pre_speech_buffer (roll_pre_speech cfg chunk s))
  /\ (ended = true -> pre_speech_buffer s' = []).
Proof.
  unfold process_audio_chunk.
  set (s1 := roll_pre_speech cfg chunk s).
  set (s2 := if h then on_speech env s1 else s1).
  assert (pre_speech_buffer s2 = pre_speech_buffer s1) as H2.
  { subst s2. destruct h; [apply on_speech_keeps_pre_speech|reflexivity]. }
  set (s3 := mark_silence_start env h s2).
  assert (pre_speech_buffer s3 = pre_speech_buffer s1) as H3.
  { subst s3. now rewrite mark_silence_keeps_pre_speech. }
  rewrite <- H3.
  destruct (SpeechState_eqb (state s3) ACTIVE); [|apply silence_phase_pre_speech].
  match goal with |- context [if ?b then _ else silence_phase _ _ _ _ ?s5 _] =>
    destruct b; [|apply (silence_phase_pre_speech cfg iid env c s5 g)] end.
  destruct (SEND_FINAL_JOB_ON_MAX_BUFFER cfg).
  - destruct (publish_job_if_needed _ _ _ _ _ _ _ _) as [[p s6] g1].
    split; [discriminate | reflexivity].
  - split; [discriminate | reflexivity].
Qed.

Lemma process_chunks_snoc cfg iid c evs ev s g :
  process_chunks cfg iid c (evs ++ [ev]) s g
  = let '(s1, g1) := process_chunks cfg iid c evs s g in
    let '(_, s', g') :=
      process_audio_chunk cfg iid (ev_env ev) c (ev_chunk ev)
        (ev_has_speech ev) s1 g1 in
    (s', g').
Proof.
  revert s g. induction evs as [|e evs IH]; intros s g; simpl.
  - destruct (process_audio_chunk _ _ _ _ _ _ _ _) as [[b s'] g']. reflexivity.
  - destruct (process_audio_chunk _ _ _ _ _ _ _ _) as [[b s'] g']. apply IH.
Qed.

(** C9.  With a non-negative [PRE_SPEECH_BUFFER_SECONDS] (and non-zero
    divisors), processing a chunk from any session, in any state, leaves a
    pre-speech buffer of at most [PRE_SPEECH_BUFFER_SECONDS * SAMPLE_RATE * 2]
    bytes, and it is a rolling FIFO: when the call does not end the
    utterance the buffer is the old buffer followed by the chunk with just
    the oldest bytes in excess of the cap dropped (nothing is dropped while
    the cap is not reached, and exactly the cap is kept once it is); when the
    call ends the utterance the buffer is empty.  Hence the bound holds after
    every chunk of every chunk sequence. *)
Theorem C9_pre_speech_buffer_bounded
    (cfg : Config) (iid c : string) :
  divisors_nonzero cfg ->
  (0 <= PRE_SPEECH_BUFFER_SECONDS cfg)%Q ->
  (forall env chunk h s g,
     let '(ended, s', _) := process_audio_chunk cfg iid env c chunk h s g in
     let all := pre_speech_buffer s ++ chunk in
     let k := Z.to_nat (Z.max 0 (blen all - pre_speech_max_bytes cfg)) in
     (inject_Z (blen (pre_speech_buffer s'))
      <= PRE_SPEECH_BUFFER_SECONDS cfg * inject_Z (SAMPLE_RATE cfg) * 2)%Q
     /\ (ended = false ->
         pre_speech_buffer s' = drop k all
         /\ blen (pre_speech_buffer s')
            = Z.min (blen all) (pre_speech_max_bytes cfg))
     /\ (ended = true -> pre_speech_buffer s' = []))
  /\ (forall evs ev s g,
        let s' := fst (process_chunks cfg iid c (evs ++ [ev]) s g) in
        (inject_Z (blen (pre_speech_buffer s'))
         <= PRE_SPEECH_BUFFER_SECONDS cfg * inject_Z (SAMPLE_RATE cfg) * 2)%Q).
Proof.
  intros [Hrate _] Hp.
  assert (Hr : 0 <= SAMPLE_RATE cfg) by lia.
  pose proof (pre_speech_cap_nonneg cfg Hp Hr) as Hcap.
  assert (Hmax : 0 <= pre_speech_max_bytes cfg)
    by now apply py_int_of_float_nonneg.
  assert (Hstep : forall env chunk h s g,
     let '(ended, s', _) := process_audio_chunk cfg iid env c chunk h s g in
     let all := pre_speech_buffer s ++ chunk in
     let k := Z.to_nat (Z.max 0 (blen all - pre_speech_max_bytes cfg)) in
     (inject_Z (blen (pre_speech_buffer s'))
      <= PRE_SPEECH_BUFFER_SECONDS cfg * inject_Z (SAMPLE_RATE cfg) * 2)%Q
     /\ (ended = false ->
         pre_speech_buffer s' = drop k all
         /\ blen (pre_speech_buffer s')
            = Z.min (blen all) (pre_speech_max_bytes cfg))
     /\ (ended = true -> pre_speech_buffer s' = [])).
  { intros env chunk h s g.
    destruct (roll_pre_speech_spec cfg chunk s Hmax) as [Hdrop Hlen].
    cbv zeta in Hdrop, Hlen.
    pose proof (process_audio_chunk_pre_speech cfg iid env c chunk h s g)
      as Hk.
    destruct (process_audio_chunk cfg iid env c chunk h s g)
      as [[ended s'] g'].
    cbv zeta. destruct Hk as [Hkeep Hclear].
    destruct ended.
    - rewrite (Hclear eq_refl).
      split; [exact Hcap|]. split; [discriminate | reflexivity].
    - rewrite (Hkeep eq_refl).
      split; [|split; [intros _; split; [exact Hdrop | exact Hlen]
                      |discriminate]].
      apply Qle_trans with (inject_Z (pre_speech_max_bytes cfg)).
      + rewrite <- Zle_Qle. rewrite Hlen. lia.
      + now apply py_int_of_float_le. }
  split; [exact Hstep|].
  intros evs ev s g. cbv zeta. rewrite process_chunks_snoc.
  destruct (process_chunks cfg iid c evs s g) as [s1 g1].
  pose proof (Hstep (ev_env ev) (ev_chunk ev) (ev_has_speech ev) s1 g1) as H.
  destruct (process_audio_chunk _ _ _ _ _ _ _ _) as [[b s'] g'].
  exact (proj1 H).
Qed.

Lemma C9_witness :
  let '(ended, s', _) :=
    process_audio_chunk default_config "gw" (chunk_env_at 1) "c1"
      [x01; x02; x03] false full_pre_speech_session fresh_gateway in
  ended = false
  /\ (inject_Z (blen (pre_speech_buffer s')) <= 2 * inject_Z 16000 * 2)%Q
  /\ pre_speech_buffer s'
     = drop 3 (repeat x00 (Z.to_nat 64000) ++ [x01; x02; x03])
  /\ blen (pre_speech_buffer s') = 64000.
Proof.
  destruct (C9_pre_speech_buffer_bounded default_config "gw" "c1")
    as [Hstep _]; [split; reflexivity | discriminate |].
  specialize (Hstep (chunk_env_at 1) [x01; x02; x03] false
                full_pre_speech_session fresh_gateway).
  destruct (process_audio_chunk _ _ _ _ _ _ _ _) as [[ended s'] g'] eqn:E.
  assert (ended = false) as He.
  { change ended with (fst (fst (ended, s', g'))). rewrite <- E.
    vm_compute. reflexivity. }
  cbv zeta in Hstep. destruct Hstep as (Hb & Hk & _).
  destruct (Hk He) as [Hd Hl].
  replace (Z.to_nat (Z.max 0 (blen (pre_speech_buffer full_pre_speech_session
             ++ [x01; x02; x03]) - pre_speech_max_bytes default_config)))
    with 3%nat in Hd by (vm_compute; reflexivity).
  split; [exact He|]. split; [exact Hb|]. split; [exact Hd|].
  rewrite Hl. vm_compute. reflexivity.
Defined.

(** ** The silence gate (C2) *)

(** What the marking code does when it runs: on a silent chunk met in ACTIVE
    with the silence timer unset, the marker takes the buffer length before
    the chunk and the timer starts. *)
Lemma mark_silence_start_unset env s :
  state s = ACTIVE ->
  silence_start_time s = None ->
  let s' := mark_silence_start env false s in
  silence_buffer_start_len s' = blen (audio_buffer s)
  /\ silence_start_time s' = Some (t_silence env).
Proof.
  intros Hst Hnone. unfold mark_silence_start. rewrite Hst, Hnone. simpl. auto.
Qed.

(** ... and the gate it feeds: a session inside the code's silence period is
    not offered to the non-final publish. *)
Lemma publish_phase_in_silence_period cfg iid env c s g :
  state s = ACTIVE ->
  in_silence_period s = true ->
  publish_phase cfg iid env c s g
  = (false, s, set_audio_chunks_processed (audio_chunks_processed g + 1) g).
Proof.
  intros Hst Hin. unfold publish_phase. now rewrite Hst, Hin.
Qed.

Lemma timer_always_set_new cfg : timer_always_set (new_session cfg).
Proof. repeat split; simpl; congruence. Qed.

Lemma timer_always_set_ext s s' :
  state s' = state s ->
  silence_start_time s' = silence_start_time s ->
  silence_buffer_start_len s' = silence_buffer_start_len s ->
  timer_always_set s -> timer_always_set s'.
Proof. unfold timer_always_set. intros -> -> ->. auto. Qed.

Lemma timer_always_set_end s : timer_always_set (end_speech_session s).
Proof. repeat split; simpl; congruence. Qed.

Lemma timer_always_set_publish cfg iid env c s final force g :
  timer_always_set s ->
  timer_always_set (snd (fst (publish_job_if_needed cfg iid env c s final force g))).
Proof.
  intros (H1 & H2 & H3). unfold publish_job_if_needed.
  destruct (_ && _ && _); simpl; repeat split; auto.
Qed.

Lemma timer_always_set_on_speech env s :
  timer_always_set s ->
  timer_always_set (on_speech env s) /\ state (on_speech env s) = ACTIVE.
Proof.
  intros (H1 & H2 & H3). unfold on_speech.
  destruct (state s) eqn:E; simpl; try congruence;
    repeat split; simpl; congruence.
Qed.

Lemma mark_silence_start_dead env h s :
  timer_always_set s -> mark_silence_start env h s = s.
Proof.
  intros (H1 & H2 & H3). unfold mark_silence_start.
  destruct (SpeechState_eqb (state s) ACTIVE) eqn:E; [|reflexivity].
  destruct (negb h); [|reflexivity]. simpl.
  destruct (silence_start_time s) eqn:Et; [reflexivity|].
  exfalso. apply H2; [|reflexivity].
  destruct (state s); simpl in E; congruence.
Qed.

Lemma in_silence_period_dead s :
  timer_always_set s -> in_silence_period s = false.
Proof.
  intros (_ & _ & H3). unfold in_silence_period. rewrite H3.
  destruct (silence_start_time s); reflexivity.
Qed.

Lemma timer_always_set_publish_phase cfg iid env c s g :
  timer_always_set s ->
  timer_always_set (snd (fst (publish_phase cfg iid env c s g))).
Proof.
  intros H. unfold publish_phase.
  destruct (SpeechState_eqb (state s) ACTIVE); [|exact H].
  destruct (in_silence_period s); [exact H|].
  pose proof (timer_always_set_publish cfg iid (publish_env env) c s false false g H) as Hp.
  destruct (publish_job_if_needed _ _ _ _ _ _ _ _) as [[p s1] g1]. exact Hp.
Qed.

Lemma timer_always_set_silence_phase cfg iid env c s g :
  timer_always_set s ->
  timer_always_set (snd (fst (silence_phase cfg iid env c s g))).
Proof.
  intros H. unfold silence_phase.
  destruct (SpeechState_eqb (state s) ACTIVE);
    [destruct (silence_start_time s) as [t0|]|];
    try now apply timer_always_set_publish_phase.
  destruct (Qgeb _ _); [|now apply timer_always_set_publish_phase].
  destruct (publish_job_if_needed _ _ _ _ _ _ _ _) as [[p s1] g1].
  apply timer_always_set_end.
Qed.

Lemma timer_always_set_step cfg iid env c chunk h s g :
  timer_always_set s ->
  timer_always_set (snd (fst (process_audio_chunk cfg iid env c chunk h s g))).
Proof.
  intros H. unfold process_audio_chunk.
  set (s1 := roll_pre_speech cfg chunk s).
  assert (H1 : timer_always_set s1).
  { apply (timer_always_set_ext s); [| | |exact H];
      subst s1; unfold roll_pre_speech; destruct (_ >? _); reflexivity. }
  set (s2 := if h then on_speech env s1 else s1).
  assert (H2 : timer_always_set s2).
  { subst s2. destruct h; [now apply timer_always_set_on_speech|exact H1]. }
  rewrite (mark_silence_start_dead env h s2 H2).
  destruct (SpeechState_eqb (state s2) ACTIVE);
    [|now apply timer_always_set_silence_phase].
  match goal with |- context [if ?b then _ else silence_phase _ _ _ _ ?s5 _] =>
    destruct b;
    [|apply (timer_always_set_silence_phase cfg iid env c s5 g);
      apply (timer_always_set_ext s2); [reflexivity..|exact H2]] end.
  destruct (SEND_FINAL_JOB_ON_MAX_BUFFER cfg).
  - destruct (publish_job_if_needed _ _ _ _ _ _ _ _) as [[p s6] g1].
    apply timer_always_set_end.
  - apply timer_always_set_end.
Qed.

(** Starting from a new session the silence marker is never recorded, so the
    silence gate of the publish phase never closes. *)
Lemma silence_gate_never_closes cfg iid c evs g :
  let s' := fst (process_chunks cfg iid c evs (new_session cfg) g) in
  silence_buffer_start_len s' = 0 /\ in_silence_period s' = false.
Proof.
  cbv zeta.
  assert (forall s g, timer_always_set s ->
            timer_always_set (fst (process_chunks cfg iid c evs s g))) as Hrun.
  { induction evs as [|ev evs IH]; intros s g0 Hs; simpl; [exact Hs|].
    pose proof (timer_always_set_step cfg iid (ev_env ev) c (ev_chunk ev)
                  (ev_has_speech ev) s g0 Hs) as Hstep.
    destruct (process_audio_chunk _ _ _ _ _ _ _ _) as [[b s'] g'].
    now apply IH. }
  pose proof (Hrun _ g (timer_always_set_new cfg)) as H.
  split; [apply H | now apply in_silence_period_dead].
Qed.

(** C2 at a failing input: default configuration, a new client, an
    8000-byte speech chunk at time 0 (it activates the session: the buffer
    holds the chunk twice, 16000 bytes, and nothing is published), then a
    silent chunk at time 1/2.  With a 16000-byte silent chunk a non-final job
    is published while the silence is open; with a 100-byte silent chunk one
    sees that the marker stayed 0 instead of 16000 and that the timer still
    shows the time of the speech chunk. *)
Theorem C2_non_final_job_published_during_silence :
  let '(s1, g1) :=
    process_chunks default_config "gw" "c1" [speech_chunk_event 8000 0]
      (new_session default_config) fresh_gateway in
  let '(_, s2, g2) :=
    process_audio_chunk default_config "gw" (chunk_env_at (1 # 2)) "c1"
      (repeat x00 (Z.to_nat 16000)) false s1 g1 in
  let '(_, s3, g3) :=
    process_audio_chunk default_config "gw" (chunk_env_at (1 # 2)) "c1"
      (repeat x00 (Z.to_nat 100)) false s1 g1 in
  state s1 = ACTIVE
  /\ blen (audio_buffer s1) = 16000
  /\ audio_jobs (redis g1) = []
  /\ state s2 = ACTIVE
  /\ map job_client_id (audio_jobs (redis g2)) = ["c1"]
  /\ map is_final (audio_jobs (redis g2)) = [false]
  /\ map (fun j => blen (audio_bytes j)) (audio_jobs (redis g2)) = [32000]
  /\ in_flight "c1" g2 = true
  /\ state s3 = ACTIVE
  /\ silence_buffer_start_len s3 = 0
  /\ silence_start_time s3 = Some 0%Q.
Proof. vm_compute. repeat split; reflexivity. Qed.

(** ** Dual VAD (C3) *)

(** Counterexample to C3 as stated.  On a new detector the first chunk that
    both models call speech is reported as silence, because the Silero thread
    has not written its verdict when the flags are read; once that thread has
    finished, a following chunk that Silero calls silence is reported as
    speech, on the strength of the verdict of the previous chunk. *)
Lemma C3_counterexample :
  let '(v1, st1) :=
    detect_speech_activity (H := toy_models) default_config no_finish
      loud_chunk new_vad in
  let '(v2, _) :=
    detect_speech_activity (H := toy_models) default_config finish_first
      quiet_chunk st1 in
  both_detect_speech (H := toy_models) default_config loud_chunk = true
  /\ v1 = false
  /\ both_detect_speech (H := toy_models) default_config quiet_chunk = false
  /\ v2 = true.
Proof. vm_compute. repeat split; reflexivity. Qed.

Lemma thread_finish_idle `{VadModels} cfg st :
  silero_thread st = None -> thread_finish cfg st = st.
Proof. intros E. unfold thread_finish. now rewrite E. Qed.

Lemma thread_finish_webrtc `{VadModels} cfg st :
  is_webrtc_speech_active (thread_finish cfg st) = is_webrtc_speech_active st.
Proof.
  unfold thread_finish. destruct (silero_thread st); [|reflexivity].
  destruct (silero_verdict cfg l); reflexivity.
Qed.

Lemma check_voice_activity_webrtc `{VadModels} data st :
  is_webrtc_speech_active (_check_voice_activity data st)
  = webrtc_verdict data false.
Proof. unfold _check_voice_activity. destruct (_ && _); reflexivity. Qed.

Lemma check_voice_activity_silero `{VadModels} data st :
  is_silero_speech_active (_check_voice_activity data st)
  = is_silero_speech_active st.
Proof. unfold _check_voice_activity. destruct (_ && _); reflexivity. Qed.

(** C3, amended.  For a non-empty chunk the verdict is the AND of the WebRTC
    verdict on that chunk and the Silero flag as it stands when read.  The
    Silero run is started on a thread and not waited for.  So: when WebRTC
    says silence the verdict is the AND of both detectors on the chunk; when
    no Silero thread finishes during the call the Silero operand is the flag
    left by an earlier chunk; and when no Silero run is outstanding, WebRTC
    says speech, the PCM is whole samples and the new thread does finish
    before the read, the verdict is again the AND of both detectors on the
    chunk. *)
Theorem C3_verdict_uses_latest_finished_silero_run
    `{VadModels} (cfg : Config) (sched : Schedule) (chunk : list byte)
    (st : VadState) :
  chunk <> [] ->
  let '(v, st') := detect_speech_activity cfg sched chunk st in
  v = webrtc_verdict chunk false && is_silero_speech_active st'
  /\ (webrtc_verdict chunk false = false -> v = both_detect_speech cfg chunk)
  /\ (finish_before_check sched = false ->
      finish_before_read sched = false ->
      v = webrtc_verdict chunk false && is_silero_speech_active st)
  /\ (silero_working st = false ->
      silero_thread st = None ->
      webrtc_verdict chunk false = true ->
      finish_before_read sched = true ->
      is_Some (int16_samples chunk) ->
      v = both_detect_speech cfg chunk).
Proof.
  intros Hne. unfold detect_speech_activity.
  destruct chunk as [|b chunk]; [congruence|]. cbn [length Nat.eqb].
  set (data := b :: chunk) in *.
  set (st0 := if finish_before_check sched then thread_finish cfg st else st).
  set (st1 := _check_voice_activity data st0).
  set (st2 := if finish_before_read sched then thread_finish cfg st1 else st1).
  assert (Hw : is_webrtc_speech_active st2 = webrtc_verdict data false).
  { subst st2 st1. destruct (finish_before_read sched);
      rewrite ?thread_finish_webrtc; apply check_voice_activity_webrtc. }
  split; [now rewrite Hw|].
  split; [|split].
  - intros Hf. rewrite Hw, Hf. unfold both_detect_speech. now rewrite Hf.
  - intros Hc Hr. subst st2 st1 st0. rewrite Hc, Hr in *.
    rewrite check_voice_activity_webrtc, check_voice_activity_silero.
    reflexivity.
  - intros Hwork Hidle Hspeech Hr [samples Hs].
    rewrite Hw. unfold both_detect_speech. f_equal.
    assert (st0 = st) as E0.
    { subst st0. destruct (finish_before_check sched);
        [now apply thread_finish_idle|reflexivity]. }
    subst st2 st1. rewrite Hr, E0.
    unfold _check_voice_activity. rewrite Hspeech, Hwork. simpl.
    unfold thread_finish. simpl.
    destruct (silero_verdict cfg data) as [v|] eqn:Ev; [reflexivity|].
    unfold silero_verdict in Ev. fold data in Hs. rewrite Hs in Ev.
    discriminate.
Qed.

Lemma C3_witness :
  let '(v, st') :=
    detect_speech_activity (H := toy_models) default_config
      {| finish_before_check := false; finish_before_read := true |}
      loud_chunk new_vad in
  v = webrtc_verdict (H := toy_models) loud_chunk false
      && is_silero_speech_active st'
  /\ v = both_detect_speech (H := toy_models) default_config loud_chunk.
Proof.
  pose proof (C3_verdict_uses_latest_finished_silero_run (H := toy_models)
                default_config
                {| finish_before_check := false; finish_before_read := true |}
                loud_chunk new_vad) as Hthm.
  destruct (detect_speech_activity _ _ _ _) as [v st'].
  destruct Hthm as (H1 & _ & _ & H4); [discriminate|].
  split; [exact H1|].
  apply H4; try reflexivity.
  vm_compute. eexists. reflexivity.
Defined.

(** ** Decoding a stored session (C10) *)

Lemma from_dict_is_ok `{PyPrims} cfg data bufs :
  is_ok (from_dict cfg data bufs)
  = buffers_loadable data bufs && state_loadable data && keys_known data.
Proof.
  unfold from_dict, buffers_loadable, state_loadable, keys_known,
    legacy_loadable, decode_legacy_buffer.
  destruct (buffers_truthy bufs); simpl.
  - destruct (data !! "state") as [v|]; simpl.
    + destruct (state_of_value v); simpl; [|reflexivity].
      destruct (forallb _ _); reflexivity.
    + destruct (forallb _ _); reflexivity.
  - destruct (data !! "audio_buffer") as [a|]; simpl;
      [destruct (b64decode a); simpl; [|reflexivity]|];
      (destruct (data !! "pre_speech_buffer") as [p|]; simpl;
       [destruct (b64decode p); simpl; [|reflexivity]|]);
      (destruct (data !! "state") as [v|]; simpl;
       [destruct (state_of_value v); simpl; [|reflexivity]|]);
      destruct (forallb _ _); reflexivity.
Qed.

Lemma from_dict_fields `{PyPrims} cfg data bufs s :
  from_dict cfg data bufs = Ok s ->
  accumulated_audio_bytes s = decode_int data "accumulated_audio_bytes"
  /\ last_published_len s = decode_int data "last_published_len"
  /\ silence_buffer_start_len s = decode_int data "silence_buffer_start_len"
  /\ silence_start_time s = decode_float data "silence_start_time"
  /\ session_start_time s = decode_float data "session_start_time"
  /\ last_stt_send_time s = decode_float data "last_stt_send_time".
Proof.
  unfold from_dict. intros Hs.
  destruct (if buffers_truthy bufs then _ else _) as [[a p]|e]; simpl in Hs;
    [|discriminate].
  destruct (match data !! "state" with Some v => _ | None => _ end) as [st|e];
    simpl in Hs; [|discriminate].
  destruct (forallb _ _); [|discriminate].
  injection Hs as <-. simpl. repeat split.
Qed.

Lemma loadable_insert `{PyPrims} (data : gmap string string) bufs k v v' :
  In k (int_keys ++ float_keys) ->
  buffers_loadable (<[k:=v]> data) bufs = buffers_loadable (<[k:=v']> data) bufs
  /\ state_loadable (<[k:=v]> data) = state_loadable (<[k:=v']> data)
  /\ keys_known (<[k:=v]> data) = keys_known (<[k:=v']> data).
Proof.
  intros Hk.
  assert (k <> "audio_buffer" /\ k <> "pre_speech_buffer" /\ k <> "state")
    as (Ha & Hp & Hs).
  { simpl in Hk.
    destruct Hk as [<-|[<-|[<-|[<-|[<-|[<-|[]]]]]]]; repeat split; discriminate. }
  unfold buffers_loadable, legacy_loadable, state_loadable, keys_known.
  rewrite !lookup_insert_ne by assumption.
  rewrite !dom_insert_L. auto.
Qed.

Lemma decode_int_malformed `{PyPrims} (data : gmap string string) k v :
  data !! k = Some v -> int_of_str v = None -> decode_int data k = 0.
Proof. intros Hk Hv. unfold decode_int. now rewrite Hk, Hv. Qed.

Lemma decode_float_malformed `{PyPrims} (data : gmap string string) k v :
  data !! k = Some v -> v = "" \/ float_of_str v = None ->
  decode_float data k = None.
Proof.
  intros Hk Hv. unfold decode_float. rewrite Hk.
  destruct Hv as [-> | Hv]; [reflexivity|].
  destruct (String.eqb v ""); [reflexivity | exact Hv].
Qed.

(** C10.  [from_dict] raises exactly when a legacy base64 buffer does not
    decode, the [state] value is unknown, or a key is not a field; the
    values stored under the numeric and timestamp keys play no part in that.
    When it returns, a numeric field whose stored value [int] rejects is 0,
    and a timestamp whose stored value is empty or rejected by [float] is
    [None]. *)
Theorem C10_from_dict_tolerates_malformed_numbers
    `{PyPrims} (cfg : Config) (data : gmap string string)
    (bufs : option (gmap string (list byte))) :
  is_ok (from_dict cfg data bufs)
  = buffers_loadable data bufs && state_loadable data && keys_known data
  /\ (forall k v v', In k (int_keys ++ float_keys) ->
        is_ok (from_dict cfg (<[k:=v]> data) bufs)
        = is_ok (from_dict cfg (<[k:=v']> data) bufs))
  /\ (forall s, from_dict cfg data bufs = Ok s ->
        (forall v, data !! "accumulated_audio_bytes" = Some v ->
                   int_of_str v = None -> accumulated_audio_bytes s = 0)
        /\ (forall v, data !! "last_published_len" = Some v ->
                      int_of_str v = None -> last_published_len s = 0)
        /\ (forall v, data !! "silence_buffer_start_len" = Some v ->
                      int_of_str v = None -> silence_buffer_start_len s = 0)
        /\ (forall v, data !! "silence_start_time" = Some v ->
                      v = "" \/ float_of_str v = None ->
                      silence_start_time s = None)
        /\ (forall v, data !! "session_start_time" = Some v ->
                      v = "" \/ float_of_str v = None ->
                      session_start_time s = None)
        /\ (forall v, data !! "last_stt_send_time" = Some v ->
                      v = "" \/ float_of_str v = None ->
                      last_stt_send_time s = None)).
Proof.
  split; [apply from_dict_is_ok|]. split.
  - intros k v v' Hk. rewrite !from_dict_is_ok.
    destruct (loadable_insert data bufs k v v' Hk) as (-> & -> & ->).
    reflexivity.
  - intros s Hs.
    destruct (from_dict_fields cfg data bufs s Hs)
      as (-> & -> & -> & -> & -> & ->).
    repeat split; intros v Hk Hv;
      first [ now apply (decode_int_malformed _ _ v)
            | now apply (decode_float_malformed _ _ v) ].
Qed.

(** ** The decimal instance satisfies the laws *)

Lemma dec_int_roundtrip (z : Z) : dec_int_of_str (dec_str_of_int z) = Some z.
Proof.
  unfold dec_int_of_str, dec_str_of_int.
  rewrite NilZero.isi.
  - simpl. now rewrite DecimalZ.of_to.
  - destruct z; simpl; try discriminate.
    intros [= E]. now apply (DecimalPos.Unsigned.to_uint_nonnil p).
  - destruct z; simpl; try discriminate.
    intros [= E]. now apply (DecimalPos.Unsigned.to_uint_nonnil p).
Qed.

Lemma code_float_roundtrip (q : Q) :
  code_float_of_str (code_str_of_float q) = Some q.
Proof.
  unfold code_float_of_str, code_str_of_float.
  rewrite dec_int_roundtrip, decode_encode. now destruct q.
Qed.

Lemma decimal_laws : PyLaws decimal_prims.
Proof.
  split.
  - exact dec_int_roundtrip.
  - exact code_float_roundtrip.
  - reflexivity.
Qed.

Lemma C10_witness :
  exists s,
    from_dict (H := decimal_prims) default_config corrupted_hash None = Ok s
    /\ state s = ACTIVE
    /\ accumulated_audio_bytes s = 0
    /\ last_published_len s = 0
    /\ silence_start_time s = None
    /\ session_start_time s = None.
Proof.
  destruct (from_dict (H := decimal_prims) default_config corrupted_hash None)
    as [s|e] eqn:E; [|vm_compute in E; discriminate].
  exists s. split; [reflexivity|].
  destruct (C10_from_dict_tolerates_malformed_numbers (H := decimal_prims)
              default_config corrupted_hash None) as (_ & _ & Hf).
  destruct (Hf s E) as (Ha & Hl & _ & Ht & Hs & _).
  split; [vm_compute in E; now injection E as <-|].
  split; [apply (Ha "12x"); reflexivity|].
  split; [apply (Hl ""); reflexivity|].
  split; [apply (Ht "soon"); [reflexivity | right; reflexivity]|].
  apply (Hs ""); [reflexivity | left; reflexivity].
Defined.

(** ** The session round trip (C8) *)

Lemma string_length_app (a b : string) :
  String.length (a +:+ b) = (String.length a + String.length b)%nat.
Proof. induction a as [|x a IH]; simpl; [reflexivity | now rewrite IH]. Qed.

Lemma string_app_neq (a b : string) : b <> "" -> a <> a +:+ b.
Proof.
  intros Hb E. apply (f_equal String.length) in E.
  rewrite string_length_app in E.
  destruct b; [congruence | simpl in E; lia].
Qed.

(** The three Redis keys of one client are pairwise distinct. *)
Lemma session_keys_distinct c :
  RedisService.session_key c <> RedisService.audio_buffer_key c
  /\ RedisService.session_key c <> RedisService.pre_speech_buffer_key c
  /\ RedisService.audio_buffer_key c <> RedisService.pre_speech_buffer_key c.
Proof.
  unfold RedisService.session_key, RedisService.audio_buffer_key,
    RedisService.pre_speech_buffer_key.
  repeat split; intros E; apply (inj (String.app SESSION_PREFIX)) in E.
  - now apply string_app_neq in E.
  - now apply string_app_neq in E.
  - apply (inj (String.app c)) in E. discriminate.
Qed.

Lemma to_dict_keys `{PyPrims} s k :
  is_Some (to_dict s !! k) <-> In k scalar_keys.
Proof.
  unfold to_dict, scalar_keys. rewrite <- elem_of_dom, !dom_insert_L, dom_empty_L.
  rewrite <- list_elem_of_In. set_solver.
Qed.

Lemma to_dict_absorbs `{PyPrims} s (h : gmap string string) :
  (forall k, is_Some (h !! k) -> In k scalar_keys) -> to_dict s ∪ h = to_dict s.
Proof.
  intros Hh. apply map_eq. intros k. rewrite lookup_union.
  destruct (to_dict s !! k) as [v|] eqn:Ev.
  - destruct (h !! k); reflexivity.
  - destruct (h !! k) as [w|] eqn:Ew; [|reflexivity].
    exfalso. assert (is_Some (to_dict s !! k)) as [x Hx].
    { apply to_dict_keys, Hh. now exists w. }
    congruence.
Qed.

Lemma to_dict_keys_known `{PyPrims} s : keys_known (to_dict s) = true.
Proof.
  unfold keys_known. apply forallb_forall. intros k Hk.
  apply list_elem_of_In, elem_of_elements, elem_of_dom, to_dict_keys in Hk.
  simpl in Hk.
  destruct Hk as [<-|[<-|[<-|[<-|[<-|[<-|[<-|[<-|[<-|[<-|[]]]]]]]]]]];
    reflexivity.
Qed.

Lemma state_of_state_value st : state_of_value (state_value st) = Ok st.
Proof. destruct st; reflexivity. Qed.

Lemma decode_float_to_dict `{P : PyPrims} `{!PyLaws P} (o : option Q) :
  (if String.eqb (str_of_opt_float o) "" then None
   else float_of_str (str_of_opt_float o)) = o.
Proof.
  destruct o as [q|]; [|reflexivity]. simpl.
  destruct (String.eqb_spec (str_of_float q) "") as [E|E].
  - pose proof (float_of_str_of_float q) as Hq. rewrite E in Hq.
    rewrite float_of_str_empty in Hq. discriminate.
  - apply float_of_str_of_float.
Qed.

(** Decoding what [to_dict] produced, with the buffers handed over apart,
    gives the session back. *)
Lemma from_dict_to_dict `{P : PyPrims} `{!PyLaws P} cfg s bufs :
  (if buffers_truthy bufs
   then default [] (default ∅ bufs !! "audio_buffer") = audio_buffer s
        /\ default [] (default ∅ bufs !! "pre_speech_buffer")
           = pre_speech_buffer s
   else audio_buffer s = [] /\ pre_speech_buffer s = []) ->
  from_dict cfg (to_dict s) bufs = Ok s.
Proof.
  intros Hb. unfold from_dict.
  change (forallb known_field (elements (dom (to_dict s))))
    with (keys_known (to_dict s)).
  rewrite to_dict_keys_known.
  assert (to_dict s !! "state" = Some (state_value (state s))) as -> by reflexivity.
  rewrite state_of_state_value.
  assert (to_dict s !! "translation_enabled"
          = Some (str_of_bool (translation_enabled s))) as -> by reflexivity.
  assert (to_dict s !! "source_lang" = Some (source_lang s)) as -> by reflexivity.
  assert (to_dict s !! "target_lang" = Some (target_lang s)) as -> by reflexivity.
  unfold decode_int, decode_float, decode_legacy_buffer.
  assert (to_dict s !! "audio_buffer" = None) as -> by reflexivity.
  assert (to_dict s !! "pre_speech_buffer" = None) as -> by reflexivity.
  assert (to_dict s !! "accumulated_audio_bytes"
          = Some (str_of_int (accumulated_audio_bytes s))) as -> by reflexivity.
  assert (to_dict s !! "last_published_len"
          = Some (str_of_int (last_published_len s))) as -> by reflexivity.
  assert (to_dict s !! "silence_buffer_start_len"
          = Some (str_of_int (silence_buffer_start_len s))) as -> by reflexivity.
  assert (to_dict s !! "silence_start_time"
          = Some (str_of_opt_float (silence_start_time s))) as -> by reflexivity.
  assert (to_dict s !! "session_start_time"
          = Some (str_of_opt_float (session_start_time s))) as -> by reflexivity.
  assert (to_dict s !! "last_stt_send_time"
          = Some (str_of_opt_float (last_stt_send_time s))) as -> by reflexivity.
  rewrite !int_of_str_of_int, !decode_float_to_dict.
  assert (String.eqb (py_lower (str_of_bool (translation_enabled s))) "true"
          = translation_enabled s) as ->
    by (destruct (translation_enabled s); reflexivity).
  destruct (buffers_truthy bufs); simpl; destruct Hb as [Ha Hp];
    destruct s; simpl in *; congruence.
Qed.

Lemma kv_expire k n r : kv (expire k n r) = kv r.
Proof. unfold expire. destruct (kv r !! k); reflexivity. Qed.

Lemma kv_store_buffer k b r :
  kv (RedisService.store_buffer k b r)
  = match b with
    | [] => delete k (kv r)
    | _ :: _ => <[k := RStr b]> (kv r)
    end.
Proof. destruct b; reflexivity. Qed.

Lemma hset_session `{PyPrims} c s r :
  session_slot_ok c r ->
  exists r1,
    hset (RedisService.session_key c) (to_dict s) r = Ok r1
    /\ kv r1 = <[RedisService.session_key c := RHash (to_dict s)]> (kv r).
Proof.
  unfold session_slot_ok, hset. intros Hok.
  destruct (kv r !! RedisService.session_key c) as [[h|b]|];
    [|contradiction|].
  - eexists. split; [reflexivity|]. simpl. now rewrite to_dict_absorbs.
  - eexists. split; [reflexivity|]. reflexivity.
Qed.

Lemma get_blob k r :
  get k r = match kv r !! k with
            | None => Ok None
            | Some (RStr b) => Ok (Some b)
            | Some (RHash _) => Raise WrongType
            end.
Proof. reflexivity. Qed.

Lemma buffers_truthy_nonempty (m : gmap string (list byte)) k b :
  m !! k = Some b -> buffers_truthy (Some m) = true.
Proof.
  intros Hk. unfold buffers_truthy.
  rewrite bool_decide_eq_false_2; [reflexivity|].
  intros ->. rewrite lookup_empty in Hk. discriminate.
Qed.

Lemma load_session_eq `{PyPrims} cfg c r h oa op :
  kv r !! RedisService.session_key c = Some (RHash h) ->
  h <> ∅ ->
  get (RedisService.audio_buffer_key c) r = Ok oa ->
  get (RedisService.pre_speech_buffer_key c) r = Ok op ->
  RedisService.load_session cfg c r
  = from_dict cfg h (Some (loaded_buffers oa op)).
Proof.
  intros Hh Hne Ha Hp. unfold RedisService.load_session, hgetall.
  rewrite Hh. simpl. rewrite bool_decide_eq_false_2 by assumption.
  rewrite Ha. simpl. rewrite Hp. reflexivity.
Qed.

Lemma get_after_store k b r :
  get k (RedisService.store_buffer k b r) = Ok (stored_blob b).
Proof.
  unfold get. rewrite kv_store_buffer.
  destruct b; [now rewrite lookup_delete_eq | now rewrite lookup_insert_eq].
Qed.

Lemma lookup_after_store k k' b r :
  k <> k' -> kv (RedisService.store_buffer k b r) !! k' = kv r !! k'.
Proof.
  intros Hne. rewrite kv_store_buffer.
  destruct b; [now rewrite lookup_delete_ne | now rewrite lookup_insert_ne].
Qed.

Lemma get_expire k k' n r : get k (expire k' n r) = get k r.
Proof. unfold get. now rewrite kv_expire. Qed.

Lemma get_other k k' b r :
  k' <> k -> get k (RedisService.store_buffer k' b r) = get k r.
Proof. intros Hne. unfold get. now rewrite lookup_after_store. Qed.

Lemma buffers_truthy_empty : buffers_truthy (Some ∅) = false.
Proof.
  unfold buffers_truthy. now rewrite bool_decide_eq_true_2 by reflexivity.
Qed.

Lemma loaded_buffers_stored s :
  let bufs := Some (loaded_buffers (stored_blob (audio_buffer s))
                      (stored_blob (pre_speech_buffer s))) in
  if buffers_truthy bufs
  then default [] (default ∅ bufs !! "audio_buffer") = audio_buffer s
       /\ default [] (default ∅ bufs !! "pre_speech_buffer")
          = pre_speech_buffer s
  else audio_buffer s = [] /\ pre_speech_buffer s = [].
Proof.
  cbv zeta. unfold loaded_buffers.
  destruct (audio_buffer s) as [|a ab]; destruct (pre_speech_buffer s) as [|p pb];
    cbn [stored_blob RedisService.blob_truthy].
  - rewrite buffers_truthy_empty. auto.
  - erewrite buffers_truthy_nonempty by (apply lookup_insert_eq).
    split; reflexivity.
  - erewrite buffers_truthy_nonempty by (apply lookup_insert_eq).
    split; reflexivity.
  - erewrite buffers_truthy_nonempty by (apply lookup_insert_eq).
    split; reflexivity.
Qed.

(** What [save_session] leaves under the three keys of the client. *)
Lemma save_session_stores `{PyPrims} cfg c s r :
  session_slot_ok c r ->
  exists r',
    RedisService.save_session cfg c s r = Ok r'
    /\ kv r' !! RedisService.session_key c = Some (RHash (to_dict s))
    /\ get (RedisService.audio_buffer_key c) r'
       = Ok (stored_blob (audio_buffer s))
    /\ get (RedisService.pre_speech_buffer_key c) r'
       = Ok (stored_blob (pre_speech_buffer s)).
Proof.
  intros Hok.
  destruct (session_keys_distinct c) as (Hsa & Hsp & Hap).
  destruct (hset_session c s r Hok) as (r1 & Hset & Hkv1).
  unfold RedisService.save_session. rewrite Hset. simpl.
  eexists. split; [reflexivity|].
  assert (get_audio_buffers s !! "audio_buffer" = Some (audio_buffer s))
    as -> by reflexivity.
  assert (get_audio_buffers s !! "pre_speech_buffer"
          = Some (pre_speech_buffer s)) as -> by reflexivity.
  simpl. repeat split.
  - rewrite !kv_expire, !lookup_after_store by congruence.
    rewrite Hkv1. apply lookup_insert_eq.
  - rewrite !get_expire, get_other by congruence. apply get_after_store.
  - rewrite !get_expire. apply get_after_store.
Qed.

(** The assumption on the session key holds of an empty Redis and is
    re-established by every save. *)
Lemma session_slot_ok_empty c : session_slot_ok c empty_redis.
Proof. unfold session_slot_ok. simpl. now rewrite lookup_empty. Qed.

Lemma session_slot_ok_saved `{PyPrims} cfg c s r r' :
  session_slot_ok c r ->
  RedisService.save_session cfg c s r = Ok r' ->
  session_slot_ok c r'.
Proof.
  intros Hok Hsave.
  destruct (save_session_stores cfg c s r Hok) as (r2 & Hs2 & Hkv & _).
  rewrite Hsave in Hs2. injection Hs2 as <-.
  unfold session_slot_ok. rewrite Hkv. intros k. apply to_dict_keys.
Qed.

(** C8.  Provided Python's [str] / [int] / [float] round-trip and the
    client's session key holds nothing or a hash of session fields,
    [save_session] succeeds on every session and [load_session] then returns
    that very session, buffers included. *)
Theorem C8_save_load_roundtrip
    `{P : PyPrims} `{!PyLaws P} (cfg : Config) (c : string)
    (s : SpeechSession) (r : Redis) :
  session_slot_ok c r ->
  exists r',
    RedisService.save_session cfg c s r = Ok r'
    /\ RedisService.load_session cfg c r' = Ok s.
Proof.
  intros Hok.
  destruct (save_session_stores cfg c s r Hok) as (r' & Hsave & Hkv & Ha & Hp).
  exists r'. split; [exact Hsave|].
  rewrite (load_session_eq cfg c r' (to_dict s)
             (stored_blob (audio_buffer s))
             (stored_blob (pre_speech_buffer s)) Hkv);
    [| |exact Ha|exact Hp].
  - apply from_dict_to_dict, loaded_buffers_stored.
  - intros E. assert (to_dict s !! "state" = None) as Hl by now rewrite E.
    discriminate Hl.
Qed.

Lemma C8_witness :
  exists r',
    RedisService.save_session (H := decimal_prims) default_config "c1"
      sample_session empty_redis = Ok r'
    /\ RedisService.load_session (H := decimal_prims) default_config "c1" r'
       = Ok sample_session.
Proof.
  apply (@C8_save_load_roundtrip decimal_prims decimal_laws default_config
           "c1" sample_session empty_redis).
  vm_compute. exact I.
Defined.

(** ** The result router (C4, C5) *)

Lemma publish_keeps_outbox cfg iid env c s final force g :
  outbox (snd (publish_job_if_needed cfg iid env c s final force g))
  = outbox g.
Proof.
  unfold publish_job_if_needed.
  destruct (_ && _ && _); [|reflexivity]. simpl.
  unfold publish_audio_job.
  destruct (RedisService.publish_audio_job _ _ _ _ _ _ _) as [[n|] r];
    destruct (negb final); reflexivity.
Qed.

Lemma should_forward_unlocks enabled is_tr seg last :
  should_forward enabled is_tr seg last = true ->
  should_unlock_job enabled is_tr = true.
Proof.
  unfold should_forward, should_unlock_job.
  destruct enabled; simpl; [|reflexivity].
  now intros [_ ->]%andb_true_iff.
Qed.

(** Counterexample to C4 as stated: translation is off, so the unlock
    predicate holds for the stale result, yet the router returns the gateway
    state it was given, in which the in-flight flag is set. *)
Lemma C4_counterexample :
  forward_result_to_client (H := decimal_prims) default_config "gw"
    sample_publish_env stale_result busy_gateway = Ok busy_gateway
  /\ result_segment_id (H := decimal_prims) stale_result
     <= last_sent "c1" busy_gateway
  /\ should_unlock_job (translation_enabled sample_session) (str_truthy "")
     = true
  /\ outbox busy_gateway = []
  /\ in_flight "c1" busy_gateway = true.
Proof.
  split; [vm_compute; reflexivity|].
  split; [vm_compute; discriminate|].
  repeat split; reflexivity.
Qed.

(** C4, amended.  When the session loads and the translation field is
    usable, a result whose segment id is not beyond
    [latest_segment_id_sent] leaves the whole gateway state as it was:
    nothing is sent to the client and the in-flight flag is not touched,
    whatever the unlock predicate says. *)
Theorem C4_stale_result_is_ignored
    `{PyPrims} (cfg : Config) (iid : string) (env : PublishEnv)
    (result_data : gmap string jval) (g : Gateway) (c : string)
    (session : SpeechSession) (tr : string) :
  result_data !! "client_id" = Some (JStr c) ->
  RedisService.load_session cfg c (redis g) = Ok session ->
  translation_text result_data = Ok tr ->
  result_segment_id result_data <= last_sent c g ->
  forward_result_to_client cfg iid env result_data g = Ok g.
Proof.
  intros Hc Hload Htr Hseg. unfold forward_result_to_client.
  rewrite Hc. destruct (negb (str_truthy c)); [reflexivity|].
  rewrite Hload. simpl. rewrite Htr. simpl.
  fold (result_segment_id result_data). fold (last_sent c g).
  assert ((result_segment_id result_data >? last_sent c g) = false) as E
    by now apply gtb_false.
  unfold should_forward. rewrite E.
  destruct (translation_enabled session); reflexivity.
Qed.

Lemma C4_witness :
  forward_result_to_client (H := decimal_prims) default_config "gw"
    sample_publish_env stale_result busy_gateway = Ok busy_gateway.
Proof.
  apply (C4_stale_result_is_ignored (H := decimal_prims) default_config "gw"
           sample_publish_env stale_result busy_gateway "c1" sample_session "").
  - reflexivity.
  - vm_compute. reflexivity.
  - reflexivity.
  - vm_compute. discriminate.
Defined.

(** Counterexample to C5 as stated: the stale result is final and satisfies
    the unlock predicate (translation is off), yet the router returns the
    gateway state it was given, whose outbox holds no [utterance_end]
    frame. *)
Lemma C5_counterexample :
  forward_result_to_client (H := decimal_prims) default_config "gw"
    sample_publish_env stale_result busy_gateway = Ok busy_gateway
  /\ parse_is_final stale_result = true
  /\ should_unlock_job (translation_enabled sample_session) (str_truthy "")
     = true
  /\ utterance_ends busy_gateway = 0%nat.
Proof.
  split; [vm_compute; reflexivity|].
  repeat split; reflexivity.
Qed.

(** With translation on, a result whose translation is blank once stripped
    (a no-break space, say) is dropped: nothing is sent and nothing changes. *)
Lemma blank_translation_is_dropped `{PyPrims} cfg iid env
    (result_data : gmap string jval) g c session s :
  result_data !! "client_id" = Some (JStr c) ->
  RedisService.load_session cfg c (redis g) = Ok session ->
  translation_enabled session = true ->
  result_data !! "translation" = Some (JStr s) ->
  py_strip s = "" ->
  forward_result_to_client cfg iid env result_data g = Ok g.
Proof.
  intros Hc Hload Hen Htr Hblank.
  unfold forward_result_to_client. rewrite Hc.
  destruct (negb (str_truthy c)); [reflexivity|].
  rewrite Hload. cbn [mbind result_bind].
  unfold translation_text. rewrite Htr, Hblank. cbn [mbind result_bind].
  unfold should_forward. rewrite Hen. cbn [str_truthy].
  now rewrite andb_false_r.
Qed.

(** C5, amended.  When the session loads and the translation field is
    usable, the router writes an [utterance_end] frame exactly when the
    result is forwarded to a connected client (segment id beyond
    [latest_segment_id_sent] and, with translation on, a non-blank
    translation) and [is_final] is true: one frame, right after the
    [realtime] frame.  A forwarded result always satisfies the unlock
    predicate; a final result that is not forwarded produces no frame. *)
Theorem C5_utterance_end_only_with_forwarded_final
    `{PyPrims} (cfg : Config) (iid : string) (env : PublishEnv)
    (result_data : gmap string jval) (g : Gateway) (c : string)
    (session : SpeechSession) (tr : string) :
  result_data !! "client_id" = Some (JStr c) ->
  c <> "" ->
  RedisService.load_session cfg c (redis g) = Ok session ->
  translation_text result_data = Ok tr ->
  exists g',
    forward_result_to_client cfg iid env result_data g = Ok g'
    /\ outbox g' = outbox g ++ frames_for c session tr result_data g
    /\ (should_forward (translation_enabled session) (str_truthy tr)
          (result_segment_id result_data) (last_sent c g) = true ->
        should_unlock_job (translation_enabled session) (str_truthy tr) = true)
    /\ (utterance_ends g' = S (utterance_ends g)
        <-> should_forward (translation_enabled session) (str_truthy tr)
              (result_segment_id result_data) (last_sent c g) = true
            /\ c ∈ connected_clients g
            /\ parse_is_final result_data = true)
    /\ (utterance_ends g' = utterance_ends g
        \/ utterance_ends g' = S (utterance_ends g)).
Proof.
  intros Hc Hne Hload Htr.
  assert (Hout : exists g',
            forward_result_to_client cfg iid env result_data g = Ok g'
            /\ outbox g' = outbox g ++ frames_for c session tr result_data g).
  { unfold forward_result_to_client, frames_for.
    rewrite Hc. destruct c as [|a c']; [congruence|].
    cbn [str_truthy negb]. set (cid := String a c') in *.
    rewrite Hload. simpl. rewrite Htr. simpl.
    fold (result_segment_id result_data). fold (last_sent cid g).
    fold (realtime_frame result_data).
    destruct (should_forward _ _ _ _) eqn:Ef;
      [|eexists; split; [reflexivity|]; simpl; now rewrite app_nil_r].
    pose proof (should_forward_unlocks _ _ _ _ Ef) as Hu.
    assert ((result_segment_id result_data >? last_sent cid g) = true) as ->.
    { unfold should_forward in Ef.
      destruct (translation_enabled session); [|exact Ef].
      now apply andb_true_iff in Ef. }
    unfold should_send_utterance_end. fold (should_unlock_job
      (translation_enabled session) (str_truthy tr)). rewrite Hu.
    rewrite andb_true_r. simpl.
    destruct (bool_decide (cid ∈ connected_clients g)) eqn:Econ; simpl.
    - destruct (parse_is_final result_data); simpl;
        (destruct (blen (audio_buffer session) >? last_published_len session);
         [ match goal with |- context [publish_job_if_needed ?a ?b ?c ?d ?e ?f ?h ?x] =>
             pose proof (publish_keeps_outbox a b c d e f h x) as Hp;
             destruct (publish_job_if_needed a b c d e f h x) as [[p s1] g5]
           end;
           eexists; split; [reflexivity|]; simpl in Hp; rewrite Hp;
           destruct (hset _ _ _); simpl; now rewrite <- ?app_assoc
         | eexists; split; [reflexivity|]; simpl; now rewrite <- ?app_assoc ]).
    - destruct (blen (audio_buffer session) >? last_published_len session);
        [ match goal with |- context [publish_job_if_needed ?a ?b ?c ?d ?e ?f ?h ?x] =>
            pose proof (publish_keeps_outbox a b c d e f h x) as Hp;
            destruct (publish_job_if_needed a b c d e f h x) as [[p s1] g5]
          end;
          eexists; split; [reflexivity|]; simpl in Hp; rewrite Hp;
          destruct (hset _ _ _); simpl; now rewrite app_nil_r
        | eexists; split; [reflexivity|]; simpl; now rewrite app_nil_r ]. }
  destruct Hout as (g' & Hfw & Hbox).
  exists g'. split; [exact Hfw|]. split; [exact Hbox|].
  split; [apply should_forward_unlocks|].
  assert (Hcount : utterance_ends g'
            = (utterance_ends g
               + length (filter (fun m => is_utterance_end m = true)
                           (frames_for c session tr result_data g)))%nat).
  { unfold utterance_ends. now rewrite Hbox, filter_app, length_app. }
  unfold frames_for in Hcount.
  destruct (should_forward _ _ _ _); simpl in Hcount.
  - destruct (bool_decide (c ∈ connected_clients g)) eqn:Econ; simpl in Hcount.
    + apply bool_decide_eq_true_1 in Econ.
      destruct (parse_is_final result_data); simpl in Hcount.
      * split; [|right; lia]. split; [auto | intros _; lia].
      * split; [|left; lia]. split; [lia | intros (_ & _ & ?); discriminate].
    + apply bool_decide_eq_false_1 in Econ.
      split; [|left; lia]. split; [lia | tauto].
  - split; [|left; lia]. split; [lia | intros (? & _); discriminate].
Qed.

Lemma C5_witness :
  exists g',
    forward_result_to_client (H := decimal_prims) default_config "gw"
      sample_publish_env fresh_final_result busy_gateway = Ok g'
    /\ outbox g'
       = [("c1", Realtime (JStr "goodbye") (JStr "") (JStr "8") (JFloat 0));
          ("c1", UtteranceEnd "c1")]
    /\ utterance_ends g' = S (utterance_ends busy_gateway).
Proof.
  destruct (C5_utterance_end_only_with_forwarded_final (H := decimal_prims)
              default_config "gw" sample_publish_env fresh_final_result
              busy_gateway "c1" sample_session "")
    as (g' & Hfw & Hbox & _ & Hiff & _).
  - reflexivity.
  - discriminate.
  - vm_compute. reflexivity.
  - reflexivity.
  - exists g'. split; [exact Hfw|]. split.
    + rewrite Hbox. vm_compute. reflexivity.
    + apply Hiff. split; [vm_compute; reflexivity|].
      split; [vm_compute; reflexivity | reflexivity].
Defined.

(** * Further properties

    The statements about [process_audio_chunk] and [publish_job_if_needed]
    are made for configurations that satisfy [divisors_nonzero], the ones on
    which the Python divisions do not raise. *)

(** The default configuration divides by nothing that is zero. *)
Lemma default_divisors : divisors_nonzero default_config.
Proof. split; reflexivity. Qed.

(** ** One chunk through [process_audio_chunk] *)

(** The buffer the handler works on once the chunk is appended. *)
Lemma process_audio_chunk_preserves (P : SpeechSession -> Prop)
    cfg iid env c chunk h s g :
  (forall x, P x -> P (roll_pre_speech cfg chunk x)) ->
  (forall x, P x -> P (on_speech env x)) ->
  (forall x, P x -> P (mark_silence_start env h x)) ->
  (forall x, P x -> state x = ACTIVE ->
     P (set_accumulated_audio_bytes
          (accumulated_audio_bytes x + blen chunk)
          (set_audio_buffer (audio_buffer x ++ chunk) x))) ->
  (forall x final force g0, P x ->
     P (snd (fst (publish_job_if_needed cfg iid (publish_env env) c x
                    final force g0)))) ->
  (forall x, P (end_speech_session x)) ->
  P s ->
  P (snd (fst (process_audio_chunk cfg iid env c chunk h s g))).
Proof.
  intros Hroll Hspeech Hmark Hacc Hpub Hend Hs.
  assert (Hphase : forall x g0, P x ->
            P (snd (fst (publish_phase cfg iid env c x g0)))).
  { intros x g0 Hx. unfold publish_phase.
    destruct (SpeechState_eqb (state x) ACTIVE); [|exact Hx].
    destruct (in_silence_period x); [exact Hx|].
    pose proof (Hpub x false false g0 Hx) as Hp.
    destruct (publish_job_if_needed _ _ _ _ _ _ _ _) as [[p x1] g1]. exact Hp. }
  assert (Hsil : forall x g0, P x ->
            P (snd (fst (silence_phase cfg iid env c x g0)))).
  { intros x g0 Hx. unfold silence_phase.
    destruct (SpeechState_eqb (state x) ACTIVE);
      [destruct (silence_start_time x) as [t0|]|]; try now apply Hphase.
    destruct (Qgeb _ _); [|now apply Hphase].
    destruct (publish_job_if_needed _ _ _ _ _ _ _ _) as [[p x1] g1].
    apply Hend. }
  unfold process_audio_chunk.
  set (s1 := roll_pre_speech cfg chunk s).
  set (s2 := if h then on_speech env s1 else s1).
  set (s3 := mark_silence_start env h s2).
  assert (H3 : P s3).
  { subst s3 s2 s1. apply Hmark. destruct h; auto. }
  destruct (SpeechState_eqb (state s3) ACTIVE) eqn:Est; [|now apply Hsil].
  assert (state s3 = ACTIVE) as Hact
    by (destruct (state s3); simpl in Est; congruence).
  match goal with |- context [if ?b then _ else silence_phase _ _ _ _ ?s5 _] =>
    destruct b; [|apply Hsil; exact (Hacc s3 H3 Hact)] end.
  destruct (SEND_FINAL_JOB_ON_MAX_BUFFER cfg).
  - destruct (publish_job_if_needed _ _ _ _ _ _ _ _) as [[p s6] g1]. apply Hend.
  - apply Hend.
Qed.

Lemma publish_session_cases cfg iid env c s final force g :
  let s' := snd (fst (publish_job_if_needed cfg iid env c s final force g)) in
  s' = s
  \/ (last_published_len s < blen (audio_buffer s)
      /\ s' = set_silence_buffer_start_len 0
                (set_last_published_len (blen (audio_buffer s)) s)).
Proof.
  cbv zeta. unfold publish_job_if_needed.
  destruct (force || negb (in_flight c g)); simpl; [|now left].
  destruct (blen (audio_buffer s) >? last_published_len s) eqn:E; simpl;
    [|now left].
  apply gtb_true in E.
  destruct (force || Qgeb _ _); simpl; [|now left].
  now right.
Qed.

(** X1.  [process_audio_chunk] keeps both markers inside the audio buffer:
    if [0 <= last_published_len <= len(audio_buffer)] and
    [0 <= silence_buffer_start_len <= len(audio_buffer)] hold of the session
    it is given, they hold of the session it saves, for every chunk, verdict,
    clock and gateway state; hence after every chunk of a client's stream
    that starts from a new session. *)
Theorem X1_markers_stay_inside_buffer
    (cfg : Config) (iid c : string) :
  divisors_nonzero cfg ->
  (forall env chunk h s g,
     markers_in_range s ->
     markers_in_range
       (snd (fst (process_audio_chunk cfg iid env c chunk h s g))))
  /\ (forall evs g,
        markers_in_range
          (fst (process_chunks cfg iid c evs (new_session cfg) g))).
Proof.
  intros _.
  assert (Hstep : forall env chunk h s g,
     markers_in_range s ->
     markers_in_range
       (snd (fst (process_audio_chunk cfg iid env c chunk h s g)))).
  { intros env chunk h s g Hs.
    apply process_audio_chunk_preserves; try exact Hs.
    - intros x Hx. unfold roll_pre_speech. destruct (_ >? _); exact Hx.
    - intros x [H1 H2]. unfold on_speech, markers_in_range.
      pose proof (blen_nonneg (audio_buffer x ++ pre_speech_buffer x)).
      pose proof (blen_nonneg (audio_buffer x)).
      destruct (state x); cbn [last_published_len silence_buffer_start_len
        audio_buffer set_silence_start_time start_speech
        set_last_published_len set_silence_buffer_start_len
        set_session_start_time set_state set_accumulated_audio_bytes
        set_audio_buffer]; lia.
    - intros x [H1 H2]. unfold mark_silence_start, markers_in_range.
      destruct (_ && _); [|split; assumption].
      destruct (silence_start_time x); [split; assumption|]. simpl. lia.
    - intros x [H1 H2] _. unfold markers_in_range. simpl.
      rewrite blen_app. pose proof (blen_nonneg chunk). lia.
    - intros x final force g0 [H1 H2].
      destruct (publish_session_cases cfg iid (publish_env env) c x final
                  force g0) as [-> | [Hlt ->]]; [split; assumption|].
      unfold markers_in_range. simpl. lia.
    - intros x. unfold markers_in_range, blen. simpl. lia. }
  split; [exact Hstep|].
  intros evs.
  assert (forall s g, markers_in_range s ->
            markers_in_range (fst (process_chunks cfg iid c evs s g))) as Hrun.
  { induction evs as [|ev evs IH]; intros s g Hs; simpl; [exact Hs|].
    pose proof (Hstep (ev_env ev) (ev_chunk ev) (ev_has_speech ev) s g Hs) as H.
    destruct (process_audio_chunk _ _ _ _ _ _ _ _) as [[b s'] g'].
    now apply IH. }
  intros g. apply Hrun. unfold markers_in_range, blen. simpl. lia.
Qed.

Lemma X1_witness :
  markers_in_range
    (snd (fst (process_audio_chunk default_config "gw" (chunk_env_at 1) "c1"
                 [x01; x02] true (active_session 4) fresh_gateway))).
Proof.
  apply (X1_markers_stay_inside_buffer default_config "gw" "c1"
           default_divisors).
  unfold markers_in_range. vm_compute. intuition congruence.
Defined.

(** X2.  [process_audio_chunk] keeps [accumulated_audio_bytes] equal to the
    length of the audio buffer, and keeps INACTIVE sessions empty: if the
    session it is given satisfies both (an INACTIVE session having an empty
    audio buffer, both markers 0 and no timers), so does the session it
    saves; in particular every session reached from a new one. *)
Theorem X2_idle_sessions_hold_no_audio
    (cfg : Config) (iid c : string) :
  divisors_nonzero cfg ->
  (forall env chunk h s g,
     accumulated_audio_bytes s = blen (audio_buffer s) ->
     idle_is_empty s ->
     let s' := snd (fst (process_audio_chunk cfg iid env c chunk h s g)) in
     accumulated_audio_bytes s' = blen (audio_buffer s') /\ idle_is_empty s')
  /\ (forall evs g,
        let s' := fst (process_chunks cfg iid c evs (new_session cfg) g) in
        accumulated_audio_bytes s' = blen (audio_buffer s')
        /\ idle_is_empty s').
Proof.
  intros _.
  set (P := fun s => accumulated_audio_bytes s = blen (audio_buffer s)
                     /\ idle_is_empty s).
  assert (Hstep : forall env chunk h s g, P s ->
            P (snd (fst (process_audio_chunk cfg iid env c chunk h s g)))).
  { intros env chunk h s g Hs.
    apply process_audio_chunk_preserves; try exact Hs; subst P; cbv beta.
    - intros x Hx. unfold roll_pre_speech. destruct (_ >? _); exact Hx.
    - intros x [Ha Hi]. unfold on_speech, idle_is_empty.
      destruct (state x) eqn:E; simpl; rewrite ?blen_app.
      + split; [lia | congruence].
      + split; [lia | congruence].
      + split; [exact Ha | congruence].
    - intros x [Ha Hi]. unfold mark_silence_start.
      destruct (SpeechState_eqb (state x) ACTIVE) eqn:E; simpl;
        [|split; assumption].
      destruct (negb h); simpl; [|split; assumption].
      destruct (silence_start_time x); [split; assumption|].
      split; [exact Ha|]. unfold idle_is_empty. simpl.
      destruct (state x); simpl in E; congruence.
    - intros x [Ha Hi] Hact. split.
      + simpl. rewrite blen_app. lia.
      + unfold idle_is_empty. simpl. congruence.
    - intros x final force g0 [Ha Hi].
      destruct (publish_session_cases cfg iid (publish_env env) c x final
                  force g0) as [-> | [Hlt ->]]; [split; assumption|].
      split; [exact Ha|]. unfold idle_is_empty. simpl. intros Hst.
      destruct (Hi Hst) as (Hb & Hl & _). rewrite Hb, Hl in Hlt.
      unfold blen in Hlt. simpl in Hlt. lia.
    - intros x. split; [reflexivity|]. unfold idle_is_empty. simpl. auto. }
  split; [intros env chunk h s g Ha Hi; exact (Hstep env chunk h s g (conj Ha Hi))|].
  intros evs.
  assert (forall s g, P s -> P (fst (process_chunks cfg iid c evs s g))) as Hrun.
  { induction evs as [|ev evs IH]; intros s g Hs; simpl; [exact Hs|].
    pose proof (Hstep (ev_env ev) (ev_chunk ev) (ev_has_speech ev) s g Hs) as H.
    destruct (process_audio_chunk _ _ _ _ _ _ _ _) as [[b s'] g'].
    now apply IH. }
  intros g. apply Hrun. split; [reflexivity|].
  unfold idle_is_empty. simpl. auto.
Qed.

Lemma X2_witness :
  let s' := snd (fst (process_audio_chunk default_config "gw" (chunk_env_at 1)
                        "c1" [x01; x02] true (active_session 4)
                        fresh_gateway)) in
  accumulated_audio_bytes s' = blen (audio_buffer s') /\ idle_is_empty s'.
Proof.
  apply (X2_idle_sessions_hold_no_audio default_config "gw" "c1"
           default_divisors).
  - vm_compute. reflexivity.
  - unfold idle_is_empty. simpl. discriminate.
Defined.

(** What one call of [publish_job_if_needed] does to the gateway. *)
Lemma publish_effect cfg iid env c s final force g :
  let r := publish_job_if_needed cfg iid env c s final force g in
  same_but_jobs g (snd r)
  /\ audio_chunks_processed (snd r) = audio_chunks_processed g
  /\ others_in_flight_kept c g (snd r)
  /\ stream_step cfg c s (audio_buffer s) final g (snd r).
Proof.
  cbv zeta. unfold publish_job_if_needed.
  destruct (_ && _ && _).
  2:{ simpl. repeat split. now left. }
  unfold publish_audio_job, RedisService.publish_audio_job.
  destruct (blen (audio_buffer s) =? 0) eqn:E0.
  - destruct (negb final); simpl; repeat split; try (now left);
      intros c' Hc'; simpl; now rewrite ?lookup_insert_ne by congruence.
  - assert (audio_buffer s <> []) as Hne.
    { intros E. rewrite E in E0. discriminate. }
    destruct (xlen (redis g) >? MAX_QUEUE_DEPTH cfg).
    + destruct (negb final); simpl; repeat split; try (now left);
        intros c' Hc'; simpl; now rewrite ?lookup_insert_ne by congruence.
    + destruct (negb final); simpl; repeat split;
        try (intros c' Hc'; simpl; now rewrite ?lookup_insert_ne by congruence);
        right; eexists; (split; [reflexivity|]); (split; [reflexivity|]);
        repeat split; assumption.
Qed.

Lemma publish_session_kept cfg iid env c s final force g :
  let s' := snd (fst (publish_job_if_needed cfg iid env c s final force g)) in
  state s' = state s /\ same_languages s s'
  /\ audio_buffer s' = audio_buffer s
  /\ pre_speech_buffer s' = pre_speech_buffer s
  /\ silence_start_time s' = silence_start_time s
  /\ session_start_time s' = session_start_time s.
Proof.
  cbv zeta.
  destruct (publish_session_cases cfg iid env c s final force g)
    as [-> | [_ ->]]; repeat split.
Qed.

Lemma same_but_jobs_trans g1 g2 g3 :
  same_but_jobs g1 g2 -> same_but_jobs g2 g3 -> same_but_jobs g1 g3.
Proof.
  unfold same_but_jobs.
  intros (A1 & A2 & A3 & A4 & A5 & A6) (B1 & B2 & B3 & B4 & B5 & B6).
  repeat split; congruence.
Qed.

Lemma is_reset_end s : is_reset (end_speech_session s).
Proof. unfold is_reset. simpl. repeat split. Qed.

Lemma state_eqb_true st : SpeechState_eqb st ACTIVE = true <-> st = ACTIVE.
Proof. destruct st; simpl; split; congruence. Qed.

Lemma state_eqb_false st : SpeechState_eqb st ACTIVE = false <-> st <> ACTIVE.
Proof. destruct st; simpl; split; congruence. Qed.

Lemma publish_phase_effect cfg iid env c x g :
  phase_effect cfg c x g (publish_phase cfg iid env c x g).
Proof.
  unfold phase_effect, publish_phase.
  destruct (SpeechState_eqb (state x) ACTIVE) eqn:Est.
  - apply state_eqb_true in Est.
    destruct (in_silence_period x).
    + simpl. repeat split; try discriminate; try (now left); congruence.
    + pose proof (publish_effect cfg iid (publish_env env) c x false false g)
        as (Hsame & Hcnt & Hoth & Hstep).
      pose proof (publish_session_kept cfg iid (publish_env env) c x false
                    false g) as (Hst & Hlang & Hab & Hpre & Hsst & Hsess).
      cbv zeta in *.
      destruct (publish_job_if_needed _ _ _ _ _ _ _ _) as [[p s1] g1].
      simpl in *. repeat split; try discriminate; try assumption;
        try apply Hsame; try apply Hlang; try lia; congruence.
  - apply state_eqb_false in Est.
    simpl. repeat split; try discriminate; now left.
Qed.

Lemma silence_phase_effect cfg iid env c x g :
  phase_effect cfg c x g (silence_phase cfg iid env c x g).
Proof.
  unfold silence_phase.
  destruct (SpeechState_eqb (state x) ACTIVE) eqn:Est;
    [|apply publish_phase_effect].
  apply state_eqb_true in Est.
  destruct (silence_start_time x) as [t0|]; [|apply publish_phase_effect].
  destruct (Qgeb _ _); [|apply publish_phase_effect].
  set (g1 := set_job_in_flight (<[c:=false]> (job_in_flight g)) g).
  pose proof (publish_effect cfg iid (publish_env env) c x true true g1)
    as (Hsame & Hcnt & Hoth & Hstep).
  pose proof (publish_session_kept cfg iid (publish_env env) c x true true g1)
    as (Hst & Hlang & _).
  cbv zeta in *.
  destruct (publish_job_if_needed _ _ _ _ _ _ _ _) as [[p s1] g2].
  cbn [fst snd] in *. unfold phase_effect.
  assert (same_but_jobs g g1) as Hg by (repeat split).
  assert (audio_chunks_processed g1 = audio_chunks_processed g) as Hc1
    by reflexivity.
  assert (forall c', c' <> c ->
            job_in_flight g1 !! c' = job_in_flight g !! c') as Hf.
  { intros c' Hc'. unfold g1. cbn [job_in_flight set_job_in_flight].
    now rewrite lookup_insert_ne by congruence. }
  assert (audio_jobs (redis g1) = audio_jobs (redis g)
          /\ jobs_published g1 = jobs_published g) as [Hj1 Hj2]
    by (split; reflexivity).
  clearbody g1.
  split; [exact Hlang|].
  split; [exact (same_but_jobs_trans _ _ _ Hg Hsame)|].
  split.
  { intros c' Hc'. rewrite (Hoth c' Hc'). now apply Hf. }
  split.
  { unfold stream_step in *. rewrite <- Hj1, <- Hj2. exact Hstep. }
  split; [rewrite Hcnt, Hc1; lia|].
  split; [intros _; split; [apply is_reset_end | exact Est]|].
  split; [intros H; discriminate H | intros H; congruence].
Qed.

Lemma stream_step_languages cfg c x s buf e g g' :
  same_languages s x ->
  stream_step cfg c x buf e g g' -> stream_step cfg c s buf e g g'.
Proof.
  intros (L1 & L2 & L3) [H | (j & Hj & Hn & J)]; [now left|].
  right. exists j. split; [exact Hj|]. split; [exact Hn|].
  unfold job_of in *. destruct J as (J1 & J2 & J3 & J4 & J5 & J6 & J7 & J8).
  repeat split; congruence.
Qed.

(** The session as it stands when the chunk is about to be appended. *)
Lemma before_append cfg env chunk h s :
  let s3 := mark_silence_start env h
              (if h then on_speech env (roll_pre_speech cfg chunk s)
               else roll_pre_speech cfg chunk s) in
  state s3 = next_state (state s) h /\ same_languages s s3.
Proof.
  cbv zeta.
  assert (state (roll_pre_speech cfg chunk s) = state s
          /\ same_languages s (roll_pre_speech cfg chunk s)) as [Hr Hl].
  { unfold roll_pre_speech. destruct (_ >? _); repeat split. }
  set (s1 := roll_pre_speech cfg chunk s) in *.
  assert (forall x, state (mark_silence_start env h x) = state x
                    /\ same_languages x (mark_silence_start env h x)) as Hm.
  { intros x. unfold mark_silence_start.
    destruct (_ && _); [|repeat split].
    destruct (silence_start_time x); repeat split. }
  destruct h.
  - destruct (Hm (on_speech env s1)) as [-> (M1 & M2 & M3)].
    unfold same_languages. rewrite M1, M2, M3.
    destruct Hl as (L1 & L2 & L3). rewrite <- Hr, <- L1, <- L2, <- L3.
    unfold on_speech. destruct (state s1) eqn:E; simpl; rewrite ?E;
      repeat split.
  - destruct (Hm s1) as [-> (M1 & M2 & M3)].
    unfold same_languages. rewrite M1, M2, M3, Hr.
    destruct (state s); repeat split; apply Hl.
Qed.

Lemma process_audio_chunk_effect cfg iid env c chunk h s g :
  chunk_effect cfg c chunk h s g
    (process_audio_chunk cfg iid env c chunk h s g).
Proof.
  unfold process_audio_chunk.
  pose proof (before_append cfg env chunk h s) as [Hst Hlang].
  cbv zeta in Hst, Hlang.
  set (s3 := mark_silence_start env h
               (if h then on_speech env (roll_pre_speech cfg chunk s)
                else roll_pre_speech cfg chunk s)) in *.
  destruct (SpeechState_eqb (state s3) ACTIVE) eqn:Est.
  - apply state_eqb_true in Est.
    set (s5 := set_accumulated_audio_bytes
                 (accumulated_audio_bytes
                    (set_audio_buffer (audio_buffer s3 ++ chunk) s3)
                  + blen chunk)
                 (set_audio_buffer (audio_buffer s3 ++ chunk) s3)).
    assert (Hl5 : same_languages s s5) by exact Hlang.
    assert (Hb5 : audio_buffer s5 = audio_buffer s3 ++ chunk) by reflexivity.
    assert (Hs5 : state s5 = ACTIVE) by exact Est.
    destruct (blen (audio_buffer s5) >? max_audio_buffer_bytes cfg).
    + destruct (SEND_FINAL_JOB_ON_MAX_BUFFER cfg).
      * pose proof (publish_effect cfg iid (publish_env env) c s5 true true g)
          as (Hsame & Hcnt & Hoth & Hstep).
        pose proof (publish_session_kept cfg iid (publish_env env) c s5 true
                      true g) as (_ & Hl6 & _).
        cbv zeta in *.
        destruct (publish_job_if_needed _ _ _ _ _ _ _ _) as [[p s6] g1].
        simpl in Hsame, Hcnt, Hoth, Hstep, Hl6. unfold chunk_effect.
        split.
        { destruct Hl5 as (A1 & A2 & A3), Hl6 as (B1 & B2 & B3).
          repeat split; simpl; congruence. }
        split; [exact Hsame|]. split; [exact Hoth|].
        split.
        { exists (audio_buffer s3). rewrite <- Hb5.
          now apply (stream_step_languages cfg c s5). }
        split; [lia|].
        split; [intros _; split; [apply is_reset_end | congruence]|].
        split; [discriminate | congruence].
      * unfold chunk_effect.
        split; [exact Hl5|].
        split; [repeat split|]. split; [intros c' _; reflexivity|].
        split; [exists (audio_buffer s3); now left|].
        split; [lia|].
        split; [intros _; split; [apply is_reset_end | congruence]|].
        split; [discriminate | congruence].
    + pose proof (silence_phase_effect cfg iid env c s5 g) as H.
      unfold phase_effect in H.
      destruct (silence_phase cfg iid env c s5 g) as [[e s'] g'].
      destruct H as (Hl & Hsame & Hoth & Hstep & Hcnt & He & Hne & _).
      unfold chunk_effect.
      split.
      { destruct Hl5 as (A1 & A2 & A3), Hl as (B1 & B2 & B3).
        repeat split; congruence. }
      split; [exact Hsame|]. split; [exact Hoth|].
      split.
      { exists (audio_buffer s3). rewrite <- Hb5.
        now apply (stream_step_languages cfg c s5). }
      split; [exact Hcnt|].
      split; [intros E; split; [apply (He E) | congruence]|].
      split; [intros E; destruct (Hne E) as [-> _]; congruence | congruence].
  - apply state_eqb_false in Est.
    pose proof (silence_phase_effect cfg iid env c s3 g) as H.
    unfold phase_effect in H.
    destruct (silence_phase cfg iid env c s3 g) as [[e s'] g'].
    destruct H as (Hl & Hsame & Hoth & Hstep & Hcnt & He & Hne & Hidle).
    destruct (Hidle Est) as (Hj & Hn & Hf).
    unfold chunk_effect.
    split.
    { destruct Hlang as (A1 & A2 & A3), Hl as (B1 & B2 & B3).
      repeat split; congruence. }
    split; [exact Hsame|]. split; [exact Hoth|].
    split; [exists []; left; split; assumption|].
    split; [exact Hcnt|].
    split; [intros E; destruct (He E) as [_ Hact]; congruence|].
    split; [intros E; destruct (Hne E) as [-> _]; congruence|].
    intros _. repeat split; assumption.
Qed.

(** X3.  [process_audio_chunk] returns True exactly on the chunks that end
    the utterance.  When it does, the session it saves is wiped (INACTIVE,
    both buffers empty, markers and byte count 0, no timers), the session
    was ACTIVE once the verdict had been taken into account, and the chunk
    is not counted in [audio_chunks_processed].  When it returns False the
    state is ACTIVE if it was ACTIVE or the chunk holds speech, and unchanged
    otherwise, and the chunk is counted.  The language settings never
    change. *)
Theorem X3_true_means_session_ended
    (cfg : Config) (iid : string) (env : ChunkEnv) (c : string)
    (chunk : list byte) (h : bool) (s : SpeechSession) (g : Gateway) :
  divisors_nonzero cfg ->
  let '(ended, s', g') := process_audio_chunk cfg iid env c chunk h s g in
  same_languages s s'
  /\ (ended = true -> is_reset s' /\ next_state (state s) h = ACTIVE)
  /\ (ended = false -> state s' = next_state (state s) h)
  /\ audio_chunks_processed g'
     = audio_chunks_processed g + (if ended then 0 else 1).
Proof.
  intros _.
  pose proof (process_audio_chunk_effect cfg iid env c chunk h s g) as H.
  unfold chunk_effect in H.
  destruct (process_audio_chunk cfg iid env c chunk h s g) as [[e s'] g'].
  destruct H as (H1 & _ & _ & _ & H5 & H6 & H7 & _). auto.
Qed.

Lemma X3_witness :
  let '(ended, s', g') :=
    process_audio_chunk default_config "gw" (chunk_env_at 1) "c1"
      [x01; x02] false (active_session 4) fresh_gateway in
  same_languages (active_session 4) s'
  /\ (ended = true ->
      is_reset s' /\ next_state (state (active_session 4)) false = ACTIVE)
  /\ (ended = false ->
      state s' = next_state (state (active_session 4)) false)
  /\ audio_chunks_processed g'
     = audio_chunks_processed fresh_gateway + (if ended then 0 else 1).
Proof.
  exact (X3_true_means_session_ended default_config "gw" (chunk_env_at 1)
           "c1" [x01; x02] false (active_session 4) fresh_gateway
           default_divisors).
Defined.

(** X4.  One call of [process_audio_chunk] appends at most one job to the
    stream.  A job it appends is addressed to this client, carries a
    non-empty audio buffer that ends with the chunk just received, the
    configured sample rate and the session's language settings, is final
    exactly when the call returns True, and is counted once in
    [jobs_published].  Apart from that the frames sent, the connected
    clients, [latest_segment_id_sent], [results_forwarded] and the in-flight
    flags of other clients are untouched; and a chunk that leaves the
    session outside ACTIVE publishes nothing and changes no in-flight flag.
    Nothing is said here of the Redis session keys: the [save_session] every
    exit path ends with rewrites those of this client (X25). *)
Theorem X4_at_most_one_job_per_chunk
    (cfg : Config) (iid : string) (env : ChunkEnv) (c : string)
    (chunk : list byte) (h : bool) (s : SpeechSession) (g : Gateway) :
  divisors_nonzero cfg ->
  let '(ended, s', g') := process_audio_chunk cfg iid env c chunk h s g in
  same_frames g g'
  /\ others_in_flight_kept c g g'
  /\ (exists p, stream_step cfg c s (p ++ chunk) ended g g')
  /\ (next_state (state s) h <> ACTIVE ->
      audio_jobs (redis g') = audio_jobs (redis g)
      /\ jobs_published g' = jobs_published g
      /\ job_in_flight g' = job_in_flight g).
Proof.
  intros _.
  pose proof (process_audio_chunk_effect cfg iid env c chunk h s g) as H.
  unfold chunk_effect in H.
  destruct (process_audio_chunk cfg iid env c chunk h s g) as [[e s'] g'].
  destruct H as (_ & (_ & _ & K3 & K4 & K5 & K6) & H3 & H4 & _ & _ & _ & H8).
  unfold same_frames. auto.
Qed.

Lemma X4_witness :
  let '(ended, s', g') :=
    process_audio_chunk default_config "gw" (chunk_env_at 1) "c1"
      [x01; x02] false (active_session 4) fresh_gateway in
  same_frames fresh_gateway g'
  /\ others_in_flight_kept "c1" fresh_gateway g'
  /\ (exists p,
        stream_step default_config "c1" (active_session 4) (p ++ [x01; x02])
          ended fresh_gateway g')
  /\ (next_state (state (active_session 4)) false <> ACTIVE ->
      audio_jobs (redis g') = audio_jobs (redis fresh_gateway)
      /\ jobs_published g' = jobs_published fresh_gateway
      /\ job_in_flight g' = job_in_flight fresh_gateway).
Proof.
  exact (X4_at_most_one_job_per_chunk default_config "gw" (chunk_env_at 1)
           "c1" [x01; x02] false (active_session 4) fresh_gateway
           default_divisors).
Defined.

Lemma mark_silence_start_speech env x :
  mark_silence_start env true x = x.
Proof.
  unfold mark_silence_start. now rewrite andb_false_r.
Qed.

(** X5.  The chunk that activates an INACTIVE session is buffered twice.
    When a speech chunk arrives in INACTIVE and the call does not end the
    utterance at once, the session becomes ACTIVE with both timers started
    and its audio buffer is the old buffer, then the rolled pre-speech
    buffer, then the chunk; and since the chunk was already appended to the
    pre-speech buffer, whenever it fits the pre-speech cap the audio buffer
    ends with the chunk followed by the chunk again. *)
Theorem X5_activating_chunk_is_buffered_twice
    (cfg : Config) (iid : string) (env : ChunkEnv) (c : string)
    (chunk : list byte) (s : SpeechSession) (g : Gateway) :
  divisors_nonzero cfg ->
  state s = INACTIVE ->
  let '(ended, s', g') := process_audio_chunk cfg iid env c chunk true s g in
  ended = false ->
  state s' = ACTIVE
  /\ session_start_time s' = Some (t_start env)
  /\ silence_start_time s' = Some (t_speech env)
  /\ pre_speech_buffer s' = pre_speech_buffer (roll_pre_speech cfg chunk s)
  /\ audio_buffer s'
     = audio_buffer s ++ pre_speech_buffer (roll_pre_speech cfg chunk s)
       ++ chunk
  /\ (blen chunk <= pre_speech_max_bytes cfg ->
      exists p, audio_buffer s' = audio_buffer s ++ p ++ chunk ++ chunk).
Proof.
  intros _ Hst. unfold process_audio_chunk.
  set (s1 := roll_pre_speech cfg chunk s).
  assert (Hs1 : state s1 = INACTIVE).
  { subst s1. unfold roll_pre_speech. destruct (_ >? _); exact Hst. }
  assert (Hab1 : audio_buffer s1 = audio_buffer s).
  { subst s1. unfold roll_pre_speech. destruct (_ >? _); reflexivity. }
  rewrite mark_silence_start_speech.
  assert (Hon : on_speech env s1
                = set_silence_start_time (Some (t_speech env))
                    (start_speech (t_start env)
                       (set_accumulated_audio_bytes
                          (accumulated_audio_bytes s1
                           + blen (pre_speech_buffer s1))
                          (set_audio_buffer
                             (audio_buffer s1 ++ pre_speech_buffer s1) s1)))).
  { unfold on_speech. now rewrite Hs1. }
  rewrite Hon. cbn [SpeechState_eqb state set_silence_start_time start_speech
    set_last_published_len set_silence_buffer_start_len
    set_session_start_time set_state].
  match goal with |- context [if _ then _ else silence_phase _ _ _ _ ?x _] =>
    set (s5 := x) end.
  destruct (blen (audio_buffer s5) >? max_audio_buffer_bytes cfg).
  { destruct (SEND_FINAL_JOB_ON_MAX_BUFFER cfg);
      [destruct (publish_job_if_needed _ _ _ _ _ _ _ _) as [[p s6] g1]|];
      cbn beta iota; intros ?; discriminate. }
  pose proof (silence_phase_effect cfg iid env c s5 g) as H.
  unfold phase_effect in H.
  destruct (silence_phase cfg iid env c s5 g) as [[e s'] g'].
  destruct H as (_ & _ & _ & _ & _ & _ & Hne & _).
  intros He. destruct (Hne He) as (E1 & E2 & E3 & E4 & E5).
  rewrite E1, E2, E3, E4, E5. subst s5. simpl. rewrite Hab1.
  repeat split; try (now rewrite <- app_assoc).
  intros Hfit.
  assert (0 <= pre_speech_max_bytes cfg) as Hcap
    by (pose proof (blen_nonneg chunk); lia).
  destruct (roll_pre_speech_spec cfg chunk s Hcap) as [Hdrop _].
  cbv zeta in Hdrop. fold s1 in Hdrop. rewrite Hdrop.
  rewrite drop_app_le.
  - match goal with |- context [drop ?n ?l] => exists (drop n l) end.
    now rewrite <- !app_assoc.
  - rewrite blen_app. unfold blen in *. lia.
Qed.

Lemma X5_witness :
  let '(ended, s', g') :=
    process_audio_chunk default_config "gw" (chunk_env_at 0) "c1"
      [x01; x02] true (new_session default_config) fresh_gateway in
  ended = false /\ audio_buffer s' = [x01; x02; x01; x02].
Proof.
  pose proof (X5_activating_chunk_is_buffered_twice default_config "gw"
                (chunk_env_at 0) "c1" [x01; x02]
                (new_session default_config) fresh_gateway default_divisors
                eq_refl) as H.
  destruct (process_audio_chunk _ _ _ _ _ _ _ _) as [[e s'] g'] eqn:E.
  vm_compute in E. injection E as <- <- <-.
  split; [reflexivity|].
  destruct (H eq_refl) as (_ & _ & _ & _ & Hab & _). exact Hab.
Defined.

(** ** The two ways an utterance ends *)

(** [process_audio_chunk] split by whether the session is ACTIVE once the
    verdict is in. *)
Lemma roll_pre_speech_keeps cfg chunk s :
  state (roll_pre_speech cfg chunk s) = state s
  /\ audio_buffer (roll_pre_speech cfg chunk s) = audio_buffer s
  /\ silence_start_time (roll_pre_speech cfg chunk s) = silence_start_time s
  /\ last_published_len (roll_pre_speech cfg chunk s) = last_published_len s.
Proof. unfold roll_pre_speech. destruct (_ >? _); repeat split. Qed.

Lemma process_audio_chunk_active cfg iid env c chunk h s g :
  next_state (state s) h = ACTIVE ->
  process_audio_chunk cfg iid env c chunk h s g
  = let s5 := appended cfg env chunk h s in
    if blen (audio_buffer s5) >? max_audio_buffer_bytes cfg then
      let '(s6, g1) :=
        if SEND_FINAL_JOB_ON_MAX_BUFFER cfg then
          let '(_, s, g') :=
            publish_job_if_needed cfg iid (publish_env env) c s5 true true g in
          (s, g')
        else (s5, g) in
      (true, end_speech_session s6, g1)
    else silence_phase cfg iid env c s5 g.
Proof.
  intros Hn. unfold process_audio_chunk, appended.
  destruct (before_append cfg env chunk h s) as [Hst _]. cbv zeta in Hst.
  cbv zeta. rewrite Hst, Hn. reflexivity.
Qed.

Lemma process_audio_chunk_idle cfg iid env c chunk h s g :
  next_state (state s) h <> ACTIVE ->
  process_audio_chunk cfg iid env c chunk h s g
  = (false, roll_pre_speech cfg chunk s,
     set_audio_chunks_processed (audio_chunks_processed g + 1) g).
Proof.
  intros Hn. unfold process_audio_chunk.
  destruct (roll_pre_speech_keeps cfg chunk s) as (R1 & _).
  set (s1 := roll_pre_speech cfg chunk s) in *.
  destruct (state s) eqn:Est, h; simpl in Hn; try congruence.
  - unfold mark_silence_start. rewrite R1. cbn. rewrite R1. cbn.
    unfold silence_phase, publish_phase. rewrite R1. reflexivity.
  - unfold mark_silence_start. rewrite R1. cbn. rewrite R1. cbn.
    unfold silence_phase, publish_phase. rewrite R1. reflexivity.
Qed.

Lemma appended_fields cfg env chunk h s :
  next_state (state s) h = ACTIVE ->
  let s5 := appended cfg env chunk h s in
  state s5 = ACTIVE
  /\ audio_buffer s5 = buffer_after cfg chunk h s
  /\ silence_start_time s5 = Some (timer_after env h s)
  /\ last_published_len s5 = published_before h s.
Proof.
  intros Hn. cbv zeta. unfold appended, buffer_after, timer_after, published_before.
  destruct (roll_pre_speech_keeps cfg chunk s) as (R1 & R2 & R3 & R4).
  set (s1 := roll_pre_speech cfg chunk s) in *.
  destruct (state s) eqn:Est, h; simpl in Hn; try discriminate;
    unfold on_speech, mark_silence_start; rewrite ?R1; cbn; rewrite ?R1; cbn.
  - repeat split; rewrite ?R1, ?R2, ?R3, ?R4, <- ?app_assoc; reflexivity.
  - repeat split; rewrite ?R1, ?R2, ?R3, ?R4, <- ?app_assoc; reflexivity.
  - rewrite R3. destruct (silence_start_time s); cbn;
      repeat split; rewrite ?R1, ?R2, ?R3, ?R4, <- ?app_assoc; reflexivity.
  - repeat split; rewrite ?R1, ?R2, ?R3, ?R4, <- ?app_assoc; reflexivity.
Qed.

(** A forced publish only asks whether there is unpublished audio. *)
Lemma forced_publish cfg iid env c s final g :
  publish_job_if_needed cfg iid env c s final true g
  = if blen (audio_buffer s) >? last_published_len s then
      (true,
       set_silence_buffer_start_len 0
         (set_last_published_len (blen (audio_buffer s)) s),
       let g1 := publish_audio_job cfg iid env c s final g in
       if negb final
       then set_job_in_flight (<[c := true]> (job_in_flight g1)) g1
       else g1)
    else (false, s, g).
Proof.
  unfold publish_job_if_needed. simpl.
  rewrite andb_true_r. reflexivity.
Qed.

Lemma publish_audio_job_cases cfg iid env c s final g :
  let g1 := publish_audio_job cfg iid env c s final g in
  job_in_flight g1 = job_in_flight g
  /\ audio_chunks_processed g1 = audio_chunks_processed g
  /\ (audio_buffer s <> [] -> xlen (redis g) <= MAX_QUEUE_DEPTH cfg ->
      exists j,
        audio_jobs (redis g1) = audio_jobs (redis g) ++ [j]
        /\ jobs_published g1 = jobs_published g + 1
        /\ is_final j = final /\ audio_bytes j = audio_buffer s
        /\ job_client_id j = c)
  /\ (audio_buffer s = [] \/ MAX_QUEUE_DEPTH cfg < xlen (redis g) ->
      g1 = g).
Proof.
  cbv zeta. unfold publish_audio_job, RedisService.publish_audio_job.
  destruct (blen (audio_buffer s) =? 0) eqn:E0.
  - apply Z.eqb_eq in E0. rewrite set_redis_same.
    repeat split. intros Hne. destruct (audio_buffer s); [congruence|].
    unfold blen in E0. simpl in E0. lia.
  - apply Z.eqb_neq in E0.
    destruct (xlen (redis g) >? MAX_QUEUE_DEPTH cfg) eqn:Ed.
    + apply gtb_true in Ed. rewrite set_redis_same. repeat split.
      intros _ Hd. lia.
    + apply gtb_false in Ed. simpl. repeat split.
      * intros _ _. eexists. split; [reflexivity|]. repeat split.
      * intros [He | Hd]; [|lia]. rewrite He in E0. now contradiction E0.
Qed.

(** X6.  [process_audio_chunk] returns True through the buffer cap or the
    silence timeout and through nothing else.  When the session is ACTIVE
    once the verdict is taken into account, the call returns True exactly
    when the audio buffer with the chunk appended is strictly longer than
    [int(MAX_AUDIO_BUFFER_SECONDS * SAMPLE_RATE * 2)] bytes, or the clock
    read at the silence check is at least [SILENCE_THRESHOLD_SECONDS] past
    the silence timer (the time of this chunk when it holds speech, else
    the timer already running, else the time silence is first noted).  A
    session that stays INACTIVE or SILENCE always makes it return False. *)
Theorem X6_ends_on_overflow_or_silence_timeout_only
    (cfg : Config) (iid : string) (env : ChunkEnv) (c : string)
    (chunk : list byte) (h : bool) (s : SpeechSession) (g : Gateway) :
  divisors_nonzero cfg ->
  fst (fst (process_audio_chunk cfg iid env c chunk h s g))
  = match next_state (state s) h with
    | ACTIVE =>
        (blen (buffer_after cfg chunk h s) >? max_audio_buffer_bytes cfg)
        || Qgeb (t_check env - timer_after env h s)
                (SILENCE_THRESHOLD_SECONDS cfg)
    | _ => false
    end.
Proof.
  intros _.
  destruct (SpeechState_eqb (next_state (state s) h) ACTIVE) eqn:En.
  - apply state_eqb_true in En. rewrite En.
    rewrite (process_audio_chunk_active _ _ _ _ _ _ _ _ En). cbv zeta.
    destruct (appended_fields cfg env chunk h s En) as (A1 & A2 & A3 & A4).
    cbv zeta in *. rewrite A2.
    destruct (_ >? _); simpl.
    { destruct (SEND_FINAL_JOB_ON_MAX_BUFFER cfg);
        [destruct (publish_job_if_needed _ _ _ _ _ _ _ _) as [[p s6] g1]|];
        reflexivity. }
    unfold silence_phase. rewrite A1, A3. simpl.
    destruct (Qgeb _ _).
    + destruct (publish_job_if_needed _ _ _ _ _ _ _ _) as [[p s6] g1].
      reflexivity.
    + unfold publish_phase.
      match goal with |- context [let '(_, _) := ?x in _] => destruct x end.
      reflexivity.
  - apply state_eqb_false in En.
    rewrite (process_audio_chunk_idle _ _ _ _ _ _ _ _ En). simpl.
    destruct (next_state (state s) h); congruence.
Qed.

Lemma X6_witness :
  fst (fst (process_audio_chunk default_config "gw" (chunk_env_at 1) "c1"
              [x01; x02] false (active_session 4) fresh_gateway))
  = true.
Proof.
  rewrite (X6_ends_on_overflow_or_silence_timeout_only default_config "gw"
             (chunk_env_at 1) "c1" [x01; x02] false (active_session 4)
             fresh_gateway default_divisors).
  vm_compute. reflexivity.
Defined.

(** X7.  What the buffer cap does.  When the buffer with the chunk appended
    exceeds the cap, the call returns True, the session handed to
    [save_session] is wiped, the chunk is not counted and no in-flight flag
    changes.  With [SEND_FINAL_JOB_ON_MAX_BUFFER] off, the job stream, its
    counter, the flags, the frames sent and everything else of the gateway
    outside the Redis session keys are as they were.  With it on, one final
    job carrying the whole buffer is appended when there is unpublished audio
    and the stream is not deeper than [MAX_QUEUE_DEPTH]; when the stream is
    deeper, or nothing is unpublished, again nothing outside the session
    keys changes, so the buffered audio is gone.  Nothing is said here of
    the Redis session keys, which the save of the wiped session rewrites
    (X25). *)
Theorem X7_overflow_drops_or_flushes_the_buffer
    (cfg : Config) (iid : string) (env : ChunkEnv) (c : string)
    (chunk : list byte) (h : bool) (s : SpeechSession) (g : Gateway) :
  divisors_nonzero cfg ->
  next_state (state s) h = ACTIVE ->
  max_audio_buffer_bytes cfg < blen (buffer_after cfg chunk h s) ->
  let '(ended, s', g') := process_audio_chunk cfg iid env c chunk h s g in
  ended = true
  /\ is_reset s'
  /\ job_in_flight g' = job_in_flight g
  /\ audio_chunks_processed g' = audio_chunks_processed g
  /\ same_frames g g'
  /\ (SEND_FINAL_JOB_ON_MAX_BUFFER cfg = false -> same_outside_keyspace g g')
  /\ (SEND_FINAL_JOB_ON_MAX_BUFFER cfg = true ->
      0 <= published_before h s < blen (buffer_after cfg chunk h s) ->
      xlen (redis g) <= MAX_QUEUE_DEPTH cfg ->
      exists j,
        audio_jobs (redis g') = audio_jobs (redis g) ++ [j]
        /\ jobs_published g' = jobs_published g + 1
        /\ is_final j = true
        /\ audio_bytes j = buffer_after cfg chunk h s
        /\ job_client_id j = c)
  /\ (blen (buffer_after cfg chunk h s) <= published_before h s
      \/ MAX_QUEUE_DEPTH cfg < xlen (redis g) ->
      same_outside_keyspace g g').
Proof.
  intros _ En Hov.
  pose proof (process_audio_chunk_effect cfg iid env c chunk h s g) as Heff.
  rewrite (process_audio_chunk_active _ _ _ _ _ _ _ _ En) in *. cbv zeta in *.
  destruct (appended_fields cfg env chunk h s En) as (A1 & A2 & A3 & A4).
  cbv zeta in *. rewrite A2 in *.
  apply gtb_true in Hov. rewrite Hov in *.
  assert (forall x, same_outside_keyspace x x) as Hrefl
    by (intros x; repeat split).
  destruct (SEND_FINAL_JOB_ON_MAX_BUFFER cfg).
  2:{ repeat split; try apply is_reset_end; try discriminate. }
  rewrite forced_publish, A2, A4 in *.
  destruct (blen (buffer_after cfg chunk h s) >? published_before h s)
    eqn:Enew.
  - apply gtb_true in Enew.
    destruct (publish_audio_job_cases cfg iid (publish_env env) c
                (appended cfg env chunk h s) true g) as (P1 & P2 & P3 & P4).
    destruct Heff as (_ & (_ & _ & K3 & K4 & K5 & K6) & _).
    cbv zeta in *. cbn [negb] in *.
    split; [reflexivity|]. split; [apply is_reset_end|].
    split; [exact P1|]. split; [exact P2|].
    split; [unfold same_frames; auto|].
    split; [discriminate|].
    split.
    + intros _ Hpos Hd.
      assert (audio_buffer (appended cfg env chunk h s) <> []) as Hne.
      { rewrite A2. intros E. rewrite E in Hpos. unfold blen in Hpos.
        simpl in Hpos. lia. }
      destruct (P3 Hne Hd) as (j & J1 & J0 & J2 & J3 & J4).
      exists j. rewrite <- A2. auto.
    + intros [Hle | Hd]; [lia|]. rewrite P4 by now right. apply Hrefl.
  - apply gtb_false in Enew.
    repeat split; try apply is_reset_end; try discriminate.
    intros _ Hlt. lia.
Qed.

Lemma X7_witness :
  let '(ended, s', g') :=
    process_audio_chunk default_config "gw" (chunk_env_at (1 # 2)) "c1"
      [x01; x00] true (active_session 320000) (gateway_with_backlog 101) in
  ended = true /\ is_reset s'
  /\ same_outside_keyspace (gateway_with_backlog 101) g'.
Proof.
  pose proof (X7_overflow_drops_or_flushes_the_buffer default_config "gw"
                (chunk_env_at (1 # 2)) "c1" [x01; x00] true
                (active_session 320000) (gateway_with_backlog 101)
                default_divisors eq_refl) as H.
  destruct (process_audio_chunk _ _ _ _ _ _ _ _) as [[e s'] g'].
  destruct H as (H1 & H2 & _ & _ & _ & _ & _ & H8);
    [vm_compute; reflexivity|].
  split; [exact H1|]. split; [exact H2|].
  apply H8. right. vm_compute. reflexivity.
Defined.

(** X8.  What the silence timeout does.  When the buffer fits the cap and
    the clock is at least [SILENCE_THRESHOLD_SECONDS] past the silence
    timer, the call returns True, the saved session is wiped, the chunk is
    not counted, and the client's in-flight flag is set to False, the other
    flags untouched.  One final job carrying the whole buffer is appended
    when there is unpublished audio and the stream is not deeper than
    [MAX_QUEUE_DEPTH]; otherwise the stream and its counter stay as they
    were, although the session is wiped all the same. *)
Theorem X8_silence_timeout_sends_the_final_job
    (cfg : Config) (iid : string) (env : ChunkEnv) (c : string)
    (chunk : list byte) (h : bool) (s : SpeechSession) (g : Gateway) :
  divisors_nonzero cfg ->
  next_state (state s) h = ACTIVE ->
  blen (buffer_after cfg chunk h s) <= max_audio_buffer_bytes cfg ->
  (SILENCE_THRESHOLD_SECONDS cfg <= t_check env - timer_after env h s)%Q ->
  let '(ended, s', g') := process_audio_chunk cfg iid env c chunk h s g in
  ended = true
  /\ is_reset s'
  /\ job_in_flight g' = <[c := false]> (job_in_flight g)
  /\ audio_chunks_processed g' = audio_chunks_processed g
  /\ (0 <= published_before h s < blen (buffer_after cfg chunk h s) ->
      xlen (redis g) <= MAX_QUEUE_DEPTH cfg ->
      exists j,
        audio_jobs (redis g') = audio_jobs (redis g) ++ [j]
        /\ is_final j = true
        /\ audio_bytes j = buffer_after cfg chunk h s
        /\ job_client_id j = c)
  /\ (blen (buffer_after cfg chunk h s) <= published_before h s
      \/ MAX_QUEUE_DEPTH cfg < xlen (redis g) ->
      audio_jobs (redis g') = audio_jobs (redis g)
      /\ jobs_published g' = jobs_published g).
Proof.
  intros _ En Hfit Hto.
  rewrite (process_audio_chunk_active _ _ _ _ _ _ _ _ En). cbv zeta.
  destruct (appended_fields cfg env chunk h s En) as (A1 & A2 & A3 & A4).
  cbv zeta in *. rewrite A2.
  apply gtb_false in Hfit. rewrite Hfit.
  unfold silence_phase. rewrite A1, A3. cbn [SpeechState_eqb].
  apply Qgeb_le in Hto. rewrite Hto.
  set (g0 := set_job_in_flight (<[c:=false]> (job_in_flight g)) g).
  rewrite forced_publish, A2, A4.
  destruct (blen (buffer_after cfg chunk h s) >? published_before h s)
    eqn:Enew.
  - apply gtb_true in Enew.
    destruct (publish_audio_job_cases cfg iid (publish_env env) c
                (appended cfg env chunk h s) true g0) as (P1 & P2 & P3 & P4).
    cbv zeta in *. cbn [negb].
    split; [reflexivity|]. split; [apply is_reset_end|].
    split; [exact P1|]. split; [exact P2|].
    split.
    + intros Hpos Hd.
      assert (audio_buffer (appended cfg env chunk h s) <> []) as Hne.
      { rewrite A2. intros E. rewrite E in Hpos. unfold blen in Hpos.
        simpl in Hpos. lia. }
      destruct (P3 Hne Hd) as (j & J1 & _ & J2 & J3 & J4).
      exists j. rewrite <- A2. auto.
    + intros [Hle | Hd]; [lia|]. rewrite P4; [split; reflexivity|now right].
  - apply gtb_false in Enew.
    repeat split; try apply is_reset_end. intros Hlt. lia.
Qed.

Lemma X8_witness :
  let '(ended, s', g') :=
    process_audio_chunk default_config "gw" (chunk_env_at 1) "c1"
      [x01; x00] false (active_session 4) (gateway_in_flight "c1") in
  ended = true /\ in_flight "c1" g' = false
  /\ map audio_bytes (audio_jobs (redis g')) = [[x00; x00; x00; x00; x01; x00]].
Proof.
  pose proof (X8_silence_timeout_sends_the_final_job default_config "gw"
                (chunk_env_at 1) "c1" [x01; x00] false (active_session 4)
                (gateway_in_flight "c1") default_divisors eq_refl) as H.
  destruct (process_audio_chunk _ _ _ _ _ _ _ _) as [[e s'] g'].
  destruct H as (H1 & _ & H3 & _ & H5 & _);
    [vm_compute; discriminate | vm_compute; discriminate |].
  split; [exact H1|].
  split; [unfold in_flight; rewrite H3; reflexivity|].
  destruct H5 as (j & J1 & _ & J3 & _);
    [vm_compute; split; [discriminate | reflexivity]
    |vm_compute; discriminate|].
  rewrite J1. simpl. rewrite J3. reflexivity.
Defined.

(** ** Redis: deleting, saving, other clients *)

(** A client without a session hash loads as a new session. *)
Lemma load_session_absent `{PyPrims} cfg c r :
  kv r !! RedisService.session_key c = None ->
  RedisService.load_session cfg c r = Ok (new_session cfg).
Proof.
  intros E. unfold RedisService.load_session, hgetall. rewrite E. simpl.
  reflexivity.
Qed.

(** The keyspace after [delete_session]. *)
Lemma delete_session_lookup c r k :
  (In k (client_keys c) ->
   kv (RedisService.delete_session c r) !! k = None
   /\ ttl (RedisService.delete_session c r) !! k = None)
  /\ (~ In k (client_keys c) ->
      kv (RedisService.delete_session c r) !! k = kv r !! k
      /\ ttl (RedisService.delete_session c r) !! k = ttl r !! k).
Proof.
  destruct (session_keys_distinct c) as (D1 & D2 & D3).
  unfold RedisService.delete_session, del. simpl. split.
  - intros Hk. destruct Hk as [<- | [<- | [<- | []]]];
      split; simplify_map_eq; reflexivity.
  - intros Hk. unfold client_keys in Hk. simpl in Hk.
    split; rewrite !lookup_delete_ne by (intros E; apply Hk; auto);
      reflexivity.
Qed.

(** X9.  After [delete_session(c)] the three keys of the client and their
    expiries are gone, every other key, every other expiry and the job
    stream are as before, and [load_session(c)] returns a new session with
    the default languages, whatever the keys held before, values of the
    wrong type included. *)
Theorem X9_deleted_session_loads_fresh `{PyPrims}
    (cfg : Config) (c : string) (r : Redis) :
  let r' := RedisService.delete_session c r in
  RedisService.load_session cfg c r' = Ok (new_session cfg)
  /\ (forall k, In k (client_keys c) ->
        kv r' !! k = None /\ ttl r' !! k = None)
  /\ (forall k, ~ In k (client_keys c) ->
        kv r' !! k = kv r !! k /\ ttl r' !! k = ttl r !! k)
  /\ audio_jobs r' = audio_jobs r.
Proof.
  cbv zeta. split.
  { apply load_session_absent.
    apply (delete_session_lookup c r (RedisService.session_key c)).
    now left. }
  split; [intros k; apply delete_session_lookup|].
  split; [intros k; apply delete_session_lookup|].
  reflexivity.
Qed.

(** [save_session] once its [HSET] has succeeded. *)
Lemma kv_of_save `{PyPrims} cfg c s r r1 :
  hset (RedisService.session_key c) (to_dict s) r = Ok r1 ->
  RedisService.save_session cfg c s r
  = Ok (expire (RedisService.pre_speech_buffer_key c)
          (SESSION_EXPIRATION_SECONDS cfg)
          (expire (RedisService.audio_buffer_key c)
             (SESSION_EXPIRATION_SECONDS cfg)
             (expire (RedisService.session_key c)
                (SESSION_EXPIRATION_SECONDS cfg)
                (RedisService.store_buffer
                   (RedisService.pre_speech_buffer_key c)
                   (pre_speech_buffer s)
                   (RedisService.store_buffer
                      (RedisService.audio_buffer_key c)
                      (audio_buffer s) r1))))).
Proof.
  intros E. unfold RedisService.save_session. rewrite E. reflexivity.
Qed.

Lemma ttl_expire k n r k' :
  ttl (expire k n r) !! k'
  = if decide (k' = k) then
      match kv r !! k with Some _ => Some n | None => ttl r !! k' end
    else ttl r !! k'.
Proof.
  unfold expire. destruct (kv r !! k) eqn:E; simpl.
  - destruct (decide (k' = k)) as [->|Hne]; simplify_map_eq; reflexivity.
  - destruct (decide (k' = k)); reflexivity.
Qed.

Lemma ttl_store_buffer k b r k' :
  ttl (RedisService.store_buffer k b r) !! k'
  = if decide (k' = k) then None else ttl r !! k'.
Proof.
  unfold RedisService.store_buffer, del, set.
  destruct b; simpl; destruct (decide (k' = k)) as [->|Hne];
    simplify_map_eq; reflexivity.
Qed.

Lemma kv_store_buffer_lookup k b r k' :
  kv (RedisService.store_buffer k b r) !! k'
  = if decide (k' = k) then RStr <$> stored_blob b else kv r !! k'.
Proof.
  unfold RedisService.store_buffer, del, set, stored_blob.
  destruct b; simpl; destruct (decide (k' = k)) as [->|Hne];
    simplify_map_eq; reflexivity.
Qed.

Lemma audio_jobs_expire k n r : audio_jobs (expire k n r) = audio_jobs r.
Proof. unfold expire. destruct (kv r !! k); reflexivity. Qed.

Lemma audio_jobs_store_buffer k b r :
  audio_jobs (RedisService.store_buffer k b r) = audio_jobs r.
Proof. unfold RedisService.store_buffer. destruct b; reflexivity. Qed.

(** The keyspace after [save_session]. *)
Lemma save_session_lookup `{PyPrims}
    (cfg : Config) (c : string) (s : SpeechSession) (r : Redis) :
  session_slot_ok c r ->
  exists r',
    RedisService.save_session cfg c s r = Ok r'
    /\ (forall k, In k (client_keys c) ->
          kv r' !! k = stored_value c s k
          /\ ttl r' !! k
             = match stored_value c s k with
               | Some _ => Some (SESSION_EXPIRATION_SECONDS cfg)
               | None => None
               end)
    /\ (forall k, ~ In k (client_keys c) ->
          kv r' !! k = kv r !! k /\ ttl r' !! k = ttl r !! k)
    /\ audio_jobs r' = audio_jobs r.
Proof.
  intros Hok.
  destruct (hset_session c s r Hok) as (r1 & Hset & Hkv1).
  assert (ttl r1 = ttl r /\ audio_jobs r1 = audio_jobs r) as [Httl1 Hj1].
  { unfold hset in Hset. destruct (kv r !! _) as [[h|b]|];
      inversion Hset; subst; split; reflexivity. }
  eexists. split; [exact (kv_of_save cfg c s r r1 Hset)|].
  destruct (session_keys_distinct c) as (D1 & D2 & D3).
  set (n := SESSION_EXPIRATION_SECONDS cfg).
  assert (forall k,
    kv (expire (RedisService.pre_speech_buffer_key c) n
          (expire (RedisService.audio_buffer_key c) n
             (expire (RedisService.session_key c) n
                (RedisService.store_buffer
                   (RedisService.pre_speech_buffer_key c)
                   (pre_speech_buffer s)
                   (RedisService.store_buffer
                      (RedisService.audio_buffer_key c)
                      (audio_buffer s) r1))))) !! k
    = if decide (k = RedisService.session_key c)
      then Some (RHash (to_dict s))
      else if decide (k = RedisService.audio_buffer_key c)
           then RStr <$> stored_blob (audio_buffer s)
      else if decide (k = RedisService.pre_speech_buffer_key c)
           then RStr <$> stored_blob (pre_speech_buffer s)
      else kv r !! k) as Hkv.
  { intros k. rewrite !kv_expire, !kv_store_buffer_lookup, Hkv1.
    repeat case_decide; simplify_map_eq; try reflexivity; congruence. }
  split; [|split].
  - intros k Hk. split.
    + rewrite Hkv. unfold stored_value.
      destruct Hk as [<- | [<- | [<- | []]]];
        repeat case_decide; try reflexivity; congruence.
    + rewrite !ttl_expire, !kv_expire, !kv_store_buffer_lookup, Hkv1.
      rewrite !ttl_store_buffer. unfold stored_value.
      destruct Hk as [<- | [<- | [<- | []]]];
        repeat case_decide; simplify_map_eq; try congruence;
        try reflexivity;
        try (destruct (audio_buffer s); reflexivity);
        try (destruct (pre_speech_buffer s); reflexivity).
  - intros k Hk. unfold client_keys in Hk. simpl in Hk.
    split.
    + rewrite Hkv. repeat case_decide; try reflexivity; exfalso; auto.
    + rewrite !ttl_expire, !ttl_store_buffer, Httl1.
      repeat case_decide; try reflexivity; exfalso; auto.
  - rewrite !audio_jobs_expire, !audio_jobs_store_buffer. exact Hj1.
Qed.

(** X10.  When the client's session key holds nothing or a hash of session
    fields, [save_session] succeeds and leaves exactly this: the session key
    holds the hash of the ten scalar fields, each buffer key holds the
    buffer when it is not empty and is absent when it is empty; every key it
    left present expires after [SESSION_EXPIRATION_SECONDS], an absent
    buffer key has no expiry; all other keys, their expiries and the job
    stream are untouched. *)
Theorem X10_save_writes_three_keys_with_expiry `{PyPrims}
    (cfg : Config) (c : string) (s : SpeechSession) (r : Redis) :
  session_slot_ok c r ->
  exists r',
    RedisService.save_session cfg c s r = Ok r'
    /\ (forall k, In k (client_keys c) ->
          kv r' !! k = stored_value c s k
          /\ ttl r' !! k
             = match stored_value c s k with
               | Some _ => Some (SESSION_EXPIRATION_SECONDS cfg)
               | None => None
               end)
    /\ (forall k, ~ In k (client_keys c) ->
          kv r' !! k = kv r !! k /\ ttl r' !! k = ttl r !! k)
    /\ audio_jobs r' = audio_jobs r.
Proof.
  intros Hok.
  destruct (save_session_lookup cfg c s r Hok) as (r' & Hs & Hin & Hout & Hj).
  exists r'. split; [exact Hs|].
  split; [intros k Hk; exact (Hin k Hk)|].
  split; [intros k Hk; exact (Hout k Hk)|exact Hj].
Qed.

Lemma X10_witness :
  exists r',
    RedisService.save_session (H := decimal_prims) default_config "c1"
      sample_session empty_redis = Ok r'
    /\ ttl r' !! RedisService.session_key "c1" = Some 900
    /\ kv r' !! RedisService.pre_speech_buffer_key "c1" = None.
Proof.
  destruct (@X10_save_writes_three_keys_with_expiry decimal_prims
              default_config "c1" sample_session empty_redis
              (session_slot_ok_empty "c1")) as (r' & Hs & Hin & _).
  exists r'. split; [exact Hs|].
  split.
  - destruct (Hin (RedisService.session_key "c1")) as [_ ->];
      [now left | reflexivity].
  - destruct (Hin (RedisService.pre_speech_buffer_key "c1")) as [-> _];
      [right; right; now left | reflexivity].
Defined.

(** [load_session] reads the client's three keys and nothing else. *)
Lemma load_session_ext `{PyPrims} cfg c r r' :
  (forall k, In k (client_keys c) -> kv r' !! k = kv r !! k) ->
  RedisService.load_session cfg c r' = RedisService.load_session cfg c r.
Proof.
  intros Hk. unfold RedisService.load_session, hgetall, get.
  rewrite (Hk (RedisService.session_key c)) by now left.
  rewrite (Hk (RedisService.audio_buffer_key c)) by (right; now left).
  rewrite (Hk (RedisService.pre_speech_buffer_key c))
    by (right; right; now left).
  reflexivity.
Qed.

Lemma string_app_length_inj (a b x y : string) :
  a +:+ x = b +:+ y -> String.length x = String.length y -> a = b /\ x = y.
Proof.
  revert b. induction a as [|ch a IH]; intros [|ch' b] E Hl.
  - auto.
  - exfalso. apply (f_equal String.length) in E.
    rewrite !string_length_app in E. simpl in E. lia.
  - exfalso. apply (f_equal String.length) in E.
    rewrite !string_length_app in E. simpl in E. lia.
  - injection E as -> E. destruct (IH b E Hl) as [-> ->]. auto.
Qed.

Lemma string_app_assoc (a b c : string) : (a +:+ b) +:+ c = a +:+ b +:+ c.
Proof.
  induction a as [|ch a IH]; [reflexivity|].
  change (String ch ((a +:+ b) +:+ c) = String ch (a +:+ b +:+ c)).
  now rewrite IH.
Qed.

(** Which client ids share no Redis key. *)
Lemma keys_disjoint_ids c c' :
  c' <> c ->
  c' <> c +:+ ":audio_buffer" -> c' <> c +:+ ":pre_speech_buffer" ->
  c <> c' +:+ ":audio_buffer" -> c <> c' +:+ ":pre_speech_buffer" ->
  keys_disjoint c c'.
Proof.
  intros H0 H1 H2 H3 H4 k Hk' Hk.
  unfold client_keys, RedisService.session_key, RedisService.audio_buffer_key,
    RedisService.pre_speech_buffer_key in *.
  destruct Hk' as [<- | [<- | [<- | []]]];
    destruct Hk as [E | [E | [E | []]]];
    apply (inj (String.app SESSION_PREFIX)) in E; try congruence.
  - apply string_app_length_inj in E; [|reflexivity]. destruct E. congruence.
  - change ":pre_speech_buffer" with (":pre_" +:+ "speech_buffer") in E.
    rewrite <- string_app_assoc in E.
    apply string_app_length_inj in E; [|reflexivity]. destruct E. discriminate.
  - change ":pre_speech_buffer" with (":pre_" +:+ "speech_buffer") in E.
    rewrite <- string_app_assoc in E.
    apply string_app_length_inj in E; [|reflexivity]. destruct E. discriminate.
  - apply string_app_length_inj in E; [|reflexivity]. destruct E. congruence.
Qed.

(** X11.  Clients that share no Redis key do not see each other's writes:
    saving or deleting the session of [c] leaves what [load_session] returns
    for [c'] unchanged (an exception included).  The keys are built by
    concatenation, so the condition is not empty: the session key of the id
    [c ++ ":audio_buffer"] is the audio-buffer key of [c]. *)
Theorem X11_clients_with_disjoint_keys_are_isolated `{PyPrims}
    (cfg : Config) (c c' : string) (s : SpeechSession) (r : Redis) :
  keys_disjoint c c' ->
  session_slot_ok c r ->
  (exists r',
     RedisService.save_session cfg c s r = Ok r'
     /\ RedisService.load_session cfg c' r'
        = RedisService.load_session cfg c' r)
  /\ RedisService.load_session cfg c' (RedisService.delete_session c r)
     = RedisService.load_session cfg c' r
  /\ RedisService.session_key (c +:+ ":audio_buffer")
     = RedisService.audio_buffer_key c.
Proof.
  intros Hd Hok. split; [|split].
  - destruct (save_session_lookup cfg c s r Hok)
      as (r' & Hs & _ & Hout & _).
    exists r'. split; [exact Hs|].
    apply load_session_ext. intros k Hk. now apply Hout, Hd.
  - apply load_session_ext. intros k Hk.
    now apply delete_session_lookup, Hd.
  - reflexivity.
Qed.

Lemma last_ascii_app (a b : string) :
  b <> "" -> last_ascii (a +:+ b) = last_ascii b.
Proof.
  intros Hb. induction a as [|ch a IH]; [reflexivity|].
  change (last_ascii (String ch (a +:+ b)) = last_ascii b).
  simpl. rewrite IH.
  destruct (a +:+ b) eqn:E; [|reflexivity].
  destruct a; [|discriminate E].
  change (b = "") in E. congruence.
Qed.

Lemma last_ascii_client_id u x :
  is_hex4 x = true ->
  exists a, last_ascii (client_id_of u x) = Some a /\ is_hex_digit a = true.
Proof.
  intros Hx. unfold client_id_of.
  assert (x <> "") as Hne by (intros ->; discriminate).
  rewrite <- !string_app_assoc, last_ascii_app by exact Hne.
  destruct x as [|a [|b [|c' [|d [|e x]]]]]; try discriminate.
  exists d. split; [reflexivity|].
  simpl in Hx. now apply andb_true_iff in Hx as [_ ->].
Qed.

(** X12.  Two different client ids made by [handle_client]
    ([client_<user>_<four hex digits>]) share no Redis key, whatever the
    user ids are: such an id ends in a hex digit, and no buffer key suffix
    does. *)
Theorem X12_gateway_made_ids_share_no_key (u u' x x' : string) :
  is_hex4 x = true -> is_hex4 x' = true ->
  client_id_of u x <> client_id_of u' x' ->
  keys_disjoint (client_id_of u x) (client_id_of u' x').
Proof.
  intros Hx Hx' Hne.
  destruct (last_ascii_client_id u x Hx) as (a & La & Ha).
  destruct (last_ascii_client_id u' x' Hx') as (a' & La' & Ha').
  apply keys_disjoint_ids; try congruence; intros E.
  - rewrite E, last_ascii_app in La' by discriminate.
    injection La' as <-. discriminate Ha'.
  - rewrite E, last_ascii_app in La' by discriminate.
    injection La' as <-. discriminate Ha'.
  - rewrite E, last_ascii_app in La by discriminate.
    injection La as <-. discriminate Ha.
  - rewrite E, last_ascii_app in La by discriminate.
    injection La as <-. discriminate Ha.
Qed.

Lemma X12_witness :
  keys_disjoint (client_id_of "7" "0a1b") (client_id_of "7" "ffff").
Proof.
  apply X12_gateway_made_ids_share_no_key;
    [reflexivity | reflexivity | discriminate].
Defined.

Lemma X11_witness :
  exists r',
    RedisService.save_session (H := decimal_prims) default_config "c1"
      sample_session empty_redis = Ok r'
    /\ RedisService.load_session (H := decimal_prims) default_config "c2" r'
       = RedisService.load_session (H := decimal_prims) default_config "c2"
           empty_redis.
Proof.
  apply (@X11_clients_with_disjoint_keys_are_isolated decimal_prims
           default_config "c1" "c2" sample_session empty_redis).
  - apply keys_disjoint_ids; discriminate.
  - apply session_slot_ok_empty.
Defined.

(** ** The session cache and the control messages *)

(** Saving and loading again gives the session back. *)
Lemma save_then_load `{P : PyPrims} `{!PyLaws P} cfg c s r :
  session_slot_ok c r ->
  exists r',
    RedisService.save_session cfg c s r = Ok r'
    /\ RedisService.load_session cfg c r' = Ok s
    /\ session_slot_ok c r'
    /\ audio_jobs r' = audio_jobs r.
Proof.
  intros Hok.
  destruct (save_session_stores cfg c s r Hok) as (r' & Hsave & Hkv & Ha & Hp).
  exists r'. split; [exact Hsave|].
  split; [|split].
  - rewrite (load_session_eq cfg c r' (to_dict s)
               (stored_blob (audio_buffer s))
               (stored_blob (pre_speech_buffer s)) Hkv);
      [| |exact Ha|exact Hp].
    + apply from_dict_to_dict, loaded_buffers_stored.
    + intros E. assert (to_dict s !! "state" = None) as Hl by now rewrite E.
      discriminate Hl.
  - exact (session_slot_ok_saved cfg c s r r' Hok Hsave).
  - destruct (save_session_lookup cfg c s r Hok) as (r2 & Hs2 & _ & _ & Hj).
    rewrite Hsave in Hs2. injection Hs2 as <-. exact Hj.
Qed.

(** [Qltb] decides [<]. *)
Lemma Qltb_lt (a b : Q) : Qltb a b = true <-> (a < b)%Q.
Proof.
  unfold Qltb. rewrite negb_true_iff. apply Qgeb_false.
Qed.

(** X13.  The session cache of [GatewayService] agrees with Redis under the
    gateway's own writes.  When the client's session key holds nothing or a
    hash of session fields, [GatewayService.save_session] succeeds, caches
    the session under the save time, and every later
    [GatewayService.load_session] returns that session: from the cache while
    the entry is younger than 30 s, and from Redis, re-caching it under the
    load time, once it is not. *)
Theorem X13_load_after_save_returns_the_saved_session
    `{P : PyPrims} `{!PyLaws P} (cfg : Config) (t_save : Q) (c : string)
    (s : SpeechSession) (cg : CachedGateway) :
  session_slot_ok c (redis (gateway cg)) ->
  exists cg1,
    cached_save_session cfg t_save c s cg = Ok cg1
    /\ session_cache cg1 !! c = Some (s, t_save)
    /\ RedisService.load_session cfg c (redis (gateway cg1)) = Ok s
    /\ (forall now, fst (cached_load_session cfg now c cg1) = Ok s)
    /\ (forall now,
          session_cache (snd (cached_load_session cfg now c cg1)) !! c
          = Some (s, if Qltb (now - t_save) session_cache_ttl
                     then t_save else now)).
Proof.
  intros Hok.
  destruct (save_then_load cfg c s (redis (gateway cg)) Hok)
    as (r' & Hsave & Hload & _).
  unfold cached_save_session. rewrite Hsave. simpl.
  eexists. split; [reflexivity|].
  split; [simpl; now rewrite lookup_insert_eq|].
  split; [exact Hload|].
  split; intros now; unfold cached_load_session; simpl;
    rewrite lookup_insert_eq;
    destruct (Qltb (now - t_save) session_cache_ttl); simpl;
    rewrite ?lookup_insert_eq, ?Hload; simpl;
    rewrite ?lookup_insert_eq; reflexivity.
Qed.

Lemma X13_witness :
  exists cg1,
    cached_save_session (H := decimal_prims) default_config 5 "c1"
      sample_session {| gateway := fresh_gateway; session_cache := ∅ |}
    = Ok cg1
    /\ fst (cached_load_session (H := decimal_prims) default_config 100 "c1"
              cg1) = Ok sample_session.
Proof.
  destruct (@X13_load_after_save_returns_the_saved_session decimal_prims
              decimal_laws default_config 5 "c1" sample_session
              {| gateway := fresh_gateway; session_cache := ∅ |}
              (session_slot_ok_empty "c1"))
    as (cg1 & H1 & _ & _ & H4 & _).
  exists cg1. split; [exact H1 | apply H4].
Defined.

(** The slot condition only looks at the keyspace. *)
Lemma session_slot_ok_kv c r r' :
  kv r' = kv r -> session_slot_ok c r -> session_slot_ok c r'.
Proof. unfold session_slot_ok. now intros ->. Qed.

(** A chunk served from a fresh cache entry. *)
Lemma chunk_on_fresh_cache
    `{P : PyPrims} `{!PyLaws P} (cfg : Config) (iid : string)
    (t_load t_save : Q) (env : ChunkEnv) (c : string) (chunk : list byte)
    (h : bool) (cg : CachedGateway) (s : SpeechSession) (t : Q) :
  divisors_nonzero cfg ->
  session_cache cg !! c = Some (s, t) ->
  (t_load - t < session_cache_ttl)%Q ->
  session_slot_ok c (redis (gateway cg)) ->
  let '(ended, s', g') :=
    process_audio_chunk cfg iid env c chunk h s (gateway cg) in
  exists cg2,
    process_audio_chunk_io cfg iid t_load t_save env c chunk h cg
    = (Ok ended, cg2)
    /\ session_cache cg2 !! c = Some (s', t_save)
    /\ RedisService.load_session cfg c (redis (gateway cg2)) = Ok s'
    /\ audio_jobs (redis (gateway cg2)) = audio_jobs (redis g')
    /\ job_in_flight (gateway cg2) = job_in_flight g'.
Proof.
  intros _ Hc Hfresh Hok.
  unfold process_audio_chunk_io, cached_load_session. rewrite Hc.
  apply Qltb_lt in Hfresh. rewrite Hfresh. rewrite Hc.
  pose proof (process_audio_chunk_effect cfg iid env c chunk h s (gateway cg))
    as He.
  destruct (process_audio_chunk cfg iid env c chunk h s (gateway cg))
    as [[ended s'] g'].
  destruct He as (_ & (Hkv & _) & _).
  assert (session_slot_ok c (redis g')) as Hok'
    by (eapply session_slot_ok_kv; eassumption).
  destruct (save_then_load cfg c s' (redis g') Hok')
    as (r' & Hsave & Hload & _ & Hj).
  unfold cached_save_session. simpl. rewrite Hsave. simpl.
  eexists. split; [reflexivity|]. simpl.
  split; [now rewrite lookup_insert_eq|].
  split; [exact Hload|]. split; [exact Hj|reflexivity].
Qed.

(** X14.  While the cache entry of a client is younger than 30 s, a chunk
    is served from it and Redis is not read: whatever the client's session
    key holds in Redis (nothing, or any hash of session fields, written by
    whoever), [process_audio_chunk] runs on the cached session, its result
    is cached under the save time, and what it saved replaces the stored
    session, so that [RedisService.load_session] returns it afterwards. *)
Theorem X14_cached_session_masks_redis
    `{P : PyPrims} `{!PyLaws P} (cfg : Config) (iid : string)
    (t_load t_save : Q) (env : ChunkEnv) (c : string) (chunk : list byte)
    (h : bool) (cg : CachedGateway) (s : SpeechSession) (t : Q) :
  divisors_nonzero cfg ->
  session_cache cg !! c = Some (s, t) ->
  (t_load - t < session_cache_ttl)%Q ->
  session_slot_ok c (redis (gateway cg)) ->
  let '(ended, s', g') :=
    process_audio_chunk cfg iid env c chunk h s (gateway cg) in
  exists cg2,
    process_audio_chunk_io cfg iid t_load t_save env c chunk h cg
    = (Ok ended, cg2)
    /\ session_cache cg2 !! c = Some (s', t_save)
    /\ RedisService.load_session cfg c (redis (gateway cg2)) = Ok s'
    /\ audio_jobs (redis (gateway cg2)) = audio_jobs (redis g')
    /\ job_in_flight (gateway cg2) = job_in_flight g'.
Proof.
  intros Hnz Hc Hfresh Hok.
  pose proof (chunk_on_fresh_cache cfg iid t_load t_save env c chunk h cg s t
                Hnz Hc Hfresh Hok) as H.
  destruct (process_audio_chunk cfg iid env c chunk h s (gateway cg))
    as [[ended s'] g'].
  destruct H as (cg2 & H1 & H2 & H3 & H4 & H5).
  exists cg2. auto.
Qed.

Lemma X14_witness :
  exists cg2 ended s',
    process_audio_chunk_io (H := decimal_prims) default_config "gw" 10 11
      (chunk_env_at (1 # 2)) "c1" [x01; x02] true cached_active_gateway
    = (Ok ended, cg2)
    /\ session_cache cg2 !! "c1" = Some (s', 11%Q)
    /\ RedisService.load_session (H := decimal_prims) default_config "c1"
         (redis (gateway cg2)) = Ok s'.
Proof.
  pose proof (@X14_cached_session_masks_redis decimal_prims decimal_laws
                default_config "gw" 10 11 (chunk_env_at (1 # 2)) "c1"
                [x01; x02] true cached_active_gateway (active_session 4) 0
                default_divisors eq_refl eq_refl (session_slot_ok_empty "c1"))
    as H.
  destruct (process_audio_chunk _ _ _ _ _ _ _ _) as [[e s'] g'].
  destruct H as (cg2 & H1 & H2 & H3 & _).
  exists cg2, e, s'. auto.
Defined.



(** X16.  [_handle_start_over] writes through [RedisService] and leaves the
    session cache of [GatewayService] alone, so a reset that arrives while
    the client's cache entry is younger than 30 s is lost: the next chunk
    is processed on the cached session, not on the wiped one, and its save
    replaces the wiped session in Redis. *)
Theorem X16_start_over_is_lost_while_the_cache_is_fresh
    `{P : PyPrims} `{!PyLaws P} (cfg : Config) (iid : string)
    (t_load t_save : Q) (env : ChunkEnv) (c : string) (chunk : list byte)
    (h : bool) (cg : CachedGateway) (s s0 : SpeechSession) (t : Q) :
  divisors_nonzero cfg ->
  session_cache cg !! c = Some (s, t) ->
  (t_load - t < session_cache_ttl)%Q ->
  RedisService.load_session cfg c (redis (gateway cg)) = Ok s0 ->
  session_slot_ok c (redis (gateway cg)) ->
  exists g1,
    _handle_start_over cfg c (gateway cg) = Ok g1
    /\ RedisService.load_session cfg c (redis g1) = Ok (end_speech_session s0)
    /\ let '(ended, s', g') := process_audio_chunk cfg iid env c chunk h s g1 in
       exists cg2,
         process_audio_chunk_io cfg iid t_load t_save env c chunk h
           (with_gateway g1 cg) = (Ok ended, cg2)
         /\ session_cache cg2 !! c = Some (s', t_save)
         /\ RedisService.load_session cfg c (redis (gateway cg2)) = Ok s'.
Proof.
  intros Hnz Hc Hfresh Hload Hok.
  destruct (save_then_load cfg c (end_speech_session s0) (redis (gateway cg))
              Hok) as (r' & Hsave & Hload' & Hok' & _).
  unfold _handle_start_over. rewrite Hload. simpl. rewrite Hsave. simpl.
  eexists. split; [reflexivity|]. split; [exact Hload'|].
  match goal with |- context [process_audio_chunk _ _ _ _ _ _ _ ?g] =>
    set (g1 := g) end.
  pose proof (chunk_on_fresh_cache cfg iid t_load t_save env c
                chunk h (with_gateway g1 cg) s t Hnz Hc Hfresh Hok') as H.
  simpl in H.
  destruct (process_audio_chunk cfg iid env c chunk h s g1) as [[e s'] g'].
  destruct H as (cg2 & H1 & H2 & H3 & _). exists cg2. auto.
Qed.

Lemma X16_witness :
  exists g1 cg2 ended s',
    _handle_start_over (H := decimal_prims) default_config "c1"
      (gateway cached_active_gateway) = Ok g1
    /\ process_audio_chunk_io (H := decimal_prims) default_config "gw" 10 11
         (chunk_env_at (1 # 2)) "c1" [x01; x02] true
         (with_gateway g1 cached_active_gateway) = (Ok ended, cg2)
    /\ session_cache cg2 !! "c1" = Some (s', 11%Q)
    /\ (ended, s')
       = fst (process_audio_chunk default_config "gw" (chunk_env_at (1 # 2))
                "c1" [x01; x02] true (active_session 4) g1).
Proof.
  destruct (@X16_start_over_is_lost_while_the_cache_is_fresh decimal_prims
              decimal_laws default_config "gw" 10 11 (chunk_env_at (1 # 2))
              "c1" [x01; x02] true cached_active_gateway (active_session 4)
              (new_session default_config) 0 default_divisors eq_refl eq_refl
              eq_refl (session_slot_ok_empty "c1")) as (g1 & H1 & _ & H).
  destruct (process_audio_chunk _ _ _ _ _ _ _ _) as [[e s'] g'] eqn:E.
  destruct H as (cg2 & H2 & H3 & _).
  exists g1, cg2, e, s'. repeat split; try assumption. now rewrite E.
Defined.

(** X17.  [_handle_set_languages], on a stored session that loads, with the
    requested languages defaulting to the stored ones.  When both equal the
    stored ones nothing is written and no status frame is sent.  Otherwise
    the session is saved with the two languages replaced and
    [translation_enabled] set to whether they differ, every other field as
    loaded, and the status frame sent reports exactly these three values;
    the job stream is not touched. *)
Theorem X17_set_languages_rewrites_the_three_language_fields
    `{P : PyPrims} `{!PyLaws P} (cfg : Config) (data : gmap string string)
    (c : string) (r : Redis) (s : SpeechSession) :
  RedisService.load_session cfg c r = Ok s ->
  session_slot_ok c r ->
  let ns := default (source_lang s) (data !! "source_language") in
  let nt := default (target_lang s) (data !! "target_language") in
  if String.eqb ns (source_lang s) && String.eqb nt (target_lang s)
  then _handle_set_languages cfg data c r = Ok (r, None)
  else
    exists r',
      _handle_set_languages cfg data c r
      = Ok (r', Some {| status_client_id := c;
                        status_source_language := ns;
                        status_target_language := nt;
                        status_translation_enabled := negb (String.eqb ns nt) |})
      /\ RedisService.load_session cfg c r'
         = Ok (set_translation_enabled (negb (String.eqb ns nt))
                 (set_target_lang nt (set_source_lang ns s)))
      /\ audio_jobs r' = audio_jobs r.
Proof.
  intros Hload Hok. cbv zeta.
  unfold _handle_set_languages. rewrite Hload. simpl.
  set (ns := default (source_lang s) (data !! "source_language")).
  set (nt := default (target_lang s) (data !! "target_language")).
  destruct (String.eqb ns (source_lang s)), (String.eqb nt (target_lang s));
    simpl; try reflexivity;
    (destruct (save_then_load cfg c
                 (set_translation_enabled (negb (String.eqb ns nt))
                    (set_target_lang nt (set_source_lang ns s))) r Hok)
       as (r' & Hsave & Hload' & _ & Hj);
     rewrite Hsave; simpl; exists r'; auto).
Qed.

Lemma X17_witness :
  exists r',
    _handle_set_languages (H := decimal_prims) default_config
      {["target_language" := "en"]} "c1" empty_redis
    = Ok (r', Some {| status_client_id := "c1";
                      status_source_language := "en";
                      status_target_language := "en";
                      status_translation_enabled := false |}).
Proof.
  destruct (@X17_set_languages_rewrites_the_three_language_fields
              decimal_prims decimal_laws default_config
              {["target_language" := "en"]} "c1" empty_redis
              (new_session default_config) eq_refl
              (session_slot_ok_empty "c1")) as (r' & H1 & _).
  exists r'. exact H1.
Defined.

(** ** Framing, header stripping and flags *)

(** Little-endian digits and their value. *)
Lemma byte_of_to (z : Z) :
  0 <= z < 256 ->
  Z.of_N (Byte.to_N (default x00 (Byte.of_N (Z.to_N z)))) = z.
Proof.
  intros Hz. destruct (Byte.of_N (Z.to_N z)) as [b|] eqn:E.
  - apply Byte.to_of_N in E. simpl. rewrite E. lia.
  - apply Byte.of_N_None_iff in E. lia.
Qed.

Lemma int_from_le_bytes (n : nat) (z : Z) :
  0 <= z -> int_from_bytes_le (le_bytes n z) = z mod 256 ^ Z.of_nat n.
Proof.
  revert z. induction n as [|n IH]; intros z Hz.
  - simpl. now rewrite Z.mod_1_r.
  - cbn [le_bytes int_from_bytes_le].
    rewrite byte_of_to by (apply Z.mod_pos_bound; lia).
    rewrite IH by (apply Z.div_pos; lia).
    rewrite Nat2Z.inj_succ, Z.pow_succ_r by lia.
    rewrite Z.rem_mul_r by lia. lia.
Qed.

Lemma length_le_bytes n z : length (le_bytes n z) = n.
Proof. revert z. induction n; intros z; simpl; [reflexivity|now rewrite IHn]. Qed.

(** X18.  The audio frame of the demo client and the slicing of
    [_handle_audio_message] are inverse to each other: for metadata shorter
    than 2^32 bytes the client builds a frame of [4 + len(metadata) +
    len(audio)] bytes from which the gateway recovers the metadata length,
    the metadata bytes and the audio bytes exactly; for longer metadata
    [struct.pack] raises and no frame is built. *)
Theorem X18_audio_frame_round_trip (metadata audio_data : list byte) :
  (blen metadata < 2 ^ 32 ->
   exists message,
     audio_message metadata audio_data = Some message
     /\ blen message = 4 + blen metadata + blen audio_data
     /\ split_audio_message message = (blen metadata, metadata, audio_data))
  /\ (2 ^ 32 <= blen metadata -> audio_message metadata audio_data = None).
Proof.
  pose proof (blen_nonneg metadata) as Hpos.
  unfold audio_message, struct_pack_u32_le. split; intros Hlen.
  - replace (0 <=? blen metadata) with true by (symmetry; apply Z.leb_le; lia).
    replace (blen metadata <? 2 ^ 32) with true
      by (symmetry; apply Z.ltb_lt; lia).
    cbn [andb]. eexists. split; [reflexivity|].
    split.
    { rewrite !blen_app. unfold blen at 1. rewrite length_le_bytes. lia. }
    unfold split_audio_message.
    assert (take 4 (le_bytes 4 (blen metadata) ++ metadata ++ audio_data)
            = le_bytes 4 (blen metadata)) as ->.
    { rewrite take_app_le by (rewrite length_le_bytes; lia).
      apply take_ge. rewrite length_le_bytes. lia. }
    rewrite int_from_le_bytes by lia.
    change (Z.of_nat 4) with 4. change (256 ^ 4) with (2 ^ 32).
    rewrite Z.mod_small by lia.
    assert (Z.to_nat (blen metadata) = length metadata) as ->
      by (unfold blen; lia).
    f_equal; [f_equal|].
    + rewrite drop_app_length' by (symmetry; apply length_le_bytes).
      now rewrite take_app_length.
    + rewrite <- drop_drop.
      rewrite drop_app_length' by (symmetry; apply length_le_bytes).
      now rewrite drop_app_length.
  - replace (blen metadata <? 2 ^ 32) with false
      by (symmetry; apply Z.ltb_ge; lia).
    now rewrite andb_false_r.
Qed.




(** X20.  The two readers of the final flag.  The worker's [_parse_bool] and
    the gateway's normalisation of [is_final] agree on every JSON scalar
    except the strings that lower-case to [on], which only the worker takes
    for true.  On the values the services write they agree: [str(bool)] as
    the gateway puts it into a job is read back by the worker, and the
    booleans and the strings [true] / [false] the workers publish are read
    back by the gateway; a result without the flag is not final. *)
Theorem X20_final_flag_parsers_agree_except_on (v : jval) (b : bool) :
  (_parse_bool v
   = parse_is_final {["is_final" := v]}
     || match v with
        | JStr s => String.eqb (py_lower s) "on"
        | _ => false
        end)
  /\ _parse_bool (JStr (str_of_bool b)) = b
  /\ parse_is_final {["is_final" := JBool b]} = b
  /\ parse_is_final {["is_final" := JStr (if b then "true" else "false")]} = b
  /\ parse_is_final ∅ = false.
Proof.
  split.
  { unfold parse_is_final. rewrite lookup_singleton_eq. simpl.
    destruct v; simpl; rewrite ?orb_false_r; reflexivity. }
  unfold parse_is_final. rewrite !lookup_singleton_eq, lookup_empty.
  destruct b; repeat split; reflexivity.
Qed.

(** ** The voice activity detector *)

(** The frames cut from a chunk, given fuel for all of them. *)
Lemma frames_spec (fuel : nat) (l : list byte) :
  Forall (fun f => length f = frame_bytes) (frames fuel l)
  /\ ((length l / frame_bytes <= fuel)%nat ->
      length (frames fuel l) = (length l / frame_bytes)%nat
      /\ concat (frames fuel l)
         = take (frame_bytes * (length l / frame_bytes)) l).
Proof.
  revert l. induction fuel as [|fuel IH]; intros l.
  - cbn [frames]. split; [constructor|]. intros Hle.
    assert ((length l / frame_bytes)%nat = 0%nat) as -> by lia.
    now rewrite Nat.mul_0_r, take_0.
  - cbn [frames].
    destruct (frame_bytes <=? length l)%nat eqn:E.
    + apply Nat.leb_le in E.
      destruct (IH (drop frame_bytes l)) as [IH1 IH2].
      assert (length l / frame_bytes
              = S (length (drop frame_bytes l) / frame_bytes))%nat as Hdiv.
      { rewrite length_drop.
        replace (length l) with ((length l - frame_bytes) + 1 * frame_bytes)%nat
          at 1 by lia.
        rewrite Nat.div_add by (unfold frame_bytes; lia). lia. }
      split.
      * constructor; [|exact IH1]. rewrite length_take. lia.
      * intros Hle. rewrite Hdiv in *.
        destruct IH2 as [L C]; [lia|].
        split; [cbn [length]; now rewrite L|].
        cbn [concat]. rewrite C.
        rewrite Nat.mul_succ_r, Nat.add_comm.
        set (k := (frame_bytes * _)%nat).
        transitivity (take (frame_bytes + k)
                        (take frame_bytes l ++ drop frame_bytes l));
          [|now rewrite take_drop].
        rewrite take_app_add'; [reflexivity|].
        rewrite length_take. lia.
    + apply Nat.leb_gt in E. split; [constructor|]. intros _.
      rewrite Nat.div_small by exact E.
      now rewrite Nat.mul_0_r, take_0.
Qed.

(** X21.  WebRTC is shown whole 10 ms frames only.  The frames cut from a
    chunk are its first [len // 320] blocks of exactly 320 bytes, in order;
    the bytes after the last whole frame are never looked at.  A chunk
    shorter than 320 bytes therefore has no frame, WebRTC's verdict on it is
    False in both modes, and [detect_speech_activity] returns False for it
    whatever the detector state and the thread schedule. *)
Theorem X21_webrtc_sees_whole_frames_only `{VadModels} (chunk : list byte) :
  let fs := frames (length chunk) chunk in
  Forall (fun f => length f = 320%nat) fs
  /\ length fs = (length chunk / 320)%nat
  /\ concat fs = take (320 * (length chunk / 320)) chunk
  /\ ((length chunk < 320)%nat ->
      forall all_frames cfg sched st,
        webrtc_verdict chunk all_frames = false
        /\ fst (detect_speech_activity cfg sched chunk st) = false).
Proof.
  cbv zeta.
  destruct (frames_spec (length chunk) chunk) as [H1 H2].
  change frame_bytes with 320%nat in *.
  destruct H2 as [H2 H3].
  { apply Nat.Div0.div_le_upper_bound. lia. }
  split; [exact H1|]. split; [exact H2|]. split; [exact H3|].
  intros Hlt all_frames cfg sched st.
  assert (frames (length chunk) chunk = []) as Hnil.
  { apply length_zero_iff_nil. rewrite H2. now apply Nat.div_small. }
  assert (forall b, webrtc_verdict chunk b = false) as Hw.
  { intros b. unfold webrtc_verdict. rewrite Hnil. now destruct b. }
  split; [apply Hw|].
  unfold detect_speech_activity.
  destruct (length chunk =? 0)%nat; [reflexivity|].
  cbv zeta. cbn [fst].
  destruct (finish_before_read sched).
  - rewrite thread_finish_webrtc, check_voice_activity_webrtc, Hw.
    reflexivity.
  - rewrite check_voice_activity_webrtc, Hw. reflexivity.
Qed.

(** [np.frombuffer(.., dtype=np.int16)] raises exactly on odd lengths. *)
Lemma int16_samples_odd (chunk : list byte) :
  int16_samples chunk = None <-> Nat.odd (length chunk) = true.
Proof.
  assert (forall n l, (length l <= n)%nat ->
            (int16_samples l = None <-> Nat.odd (length l) = true)) as H.
  { induction n as [|n IH]; intros l Hl.
    - destruct l; [|simpl in Hl; lia]. simpl. split; discriminate.
    - destruct l as [|lo [|hi rest]].
      + simpl. split; discriminate.
      + simpl. split; reflexivity.
      + cbn [int16_samples length]. rewrite Nat.odd_succ_succ.
        rewrite <- IH by (simpl in Hl; lia).
        destruct (int16_samples rest); simpl; split; congruence. }
  apply (H (length chunk)). lia.
Qed.

(** One more chunk on a doomed detector. *)
Lemma detect_on_doomed `{VadModels} cfg sched chunk st :
  silero_doomed st ->
  let '(v, st') := detect_speech_activity cfg sched chunk st in
  silero_doomed st'
  /\ is_silero_speech_active st' = is_silero_speech_active st
  /\ v = negb (length chunk =? 0)%nat
         && webrtc_verdict chunk false && is_silero_speech_active st.
Proof.
  intros [Hw Ht]. unfold detect_speech_activity.
  destruct (length chunk =? 0)%nat; [repeat split; assumption|].
  assert (forall x, silero_working x = true ->
            (forall d, silero_thread x = Some d -> int16_samples d = None) ->
            silero_working (thread_finish cfg x) = true
            /\ silero_thread (thread_finish cfg x) = None
            /\ is_silero_speech_active (thread_finish cfg x)
               = is_silero_speech_active x
            /\ is_webrtc_speech_active (thread_finish cfg x)
               = is_webrtc_speech_active x) as Hfin.
  { intros x Hx Hd. unfold thread_finish.
    destruct (silero_thread x) as [d|] eqn:E; [|repeat split; assumption].
    unfold silero_verdict. rewrite (Hd d eq_refl). repeat split. }
  set (st0 := if finish_before_check sched then thread_finish cfg st else st).
  assert (silero_working st0 = true
          /\ (forall d, silero_thread st0 = Some d -> int16_samples d = None)
          /\ is_silero_speech_active st0 = is_silero_speech_active st)
    as (Hw0 & Ht0 & Hs0).
  { subst st0. destruct (finish_before_check sched); [|auto].
    destruct (Hfin st Hw Ht) as (F1 & F2 & F3 & _).
    repeat split; try assumption. intros d Hd. congruence. }
  set (st1 := _check_voice_activity chunk st0).
  assert (silero_working st1 = true
          /\ (forall d, silero_thread st1 = Some d -> int16_samples d = None)
          /\ is_silero_speech_active st1 = is_silero_speech_active st
          /\ is_webrtc_speech_active st1 = webrtc_verdict chunk false)
    as (Hw1 & Ht1 & Hs1 & Hb1).
  { subst st1. unfold _check_voice_activity. rewrite Hw0, andb_false_r.
    simpl. repeat split; assumption. }
  cbv zeta. destruct (finish_before_read sched); cbn beta iota.
  - destruct (Hfin st1 Hw1 Ht1) as (F1 & F2 & F3 & F4).
    split; [split; [exact F1|intros d Hd; congruence]|].
    split; [congruence|]. rewrite F3, F4, Hs1, Hb1. reflexivity.
  - split; [split; assumption|]. split; [exact Hs1|].
    rewrite Hs1, Hb1. reflexivity.
Qed.

(** X22.  An odd-length chunk can switch Silero off for good.  When a chunk
    of odd length that WebRTC takes for speech reaches a detector whose
    Silero check is idle, the Silero thread it starts dies on
    [np.frombuffer] with [silero_working] still set.  From then on, under
    every schedule and for every later chunk, no Silero thread is started,
    [is_silero_speech_active] keeps the value it had, and the verdict is
    WebRTC's verdict and that frozen value; on a detector that had not yet
    heard speech every later verdict is False. *)
Theorem X22_odd_length_chunk_wedges_silero `{VadModels}
    (cfg : Config) (sched : Schedule) (chunk : list byte) (st : VadState) :
  Nat.odd (length chunk) = true ->
  webrtc_verdict chunk false = true ->
  silero_working st = false ->
  let st1 := snd (detect_speech_activity cfg sched chunk st) in
  silero_doomed st1
  /\ forall evs,
       let '(vs, st2) := detect_all cfg evs st1 in
       silero_doomed st2
       /\ is_silero_speech_active st2 = is_silero_speech_active st1
       /\ vs = map (fun ev => negb (length (snd ev) =? 0)%nat
                              && webrtc_verdict (snd ev) false
                              && is_silero_speech_active st1) evs.
Proof.
  intros Hodd Hweb Hidle. cbv zeta.
  apply int16_samples_odd in Hodd.
  assert (silero_doomed (snd (detect_speech_activity cfg sched chunk st)))
    as Hd.
  { unfold detect_speech_activity.
    destruct (length chunk =? 0)%nat eqn:E0.
    { apply Nat.eqb_eq, length_zero_iff_nil in E0. subst chunk.
      discriminate Hodd. }
    cbv zeta. cbn [snd].
    set (st0 := if finish_before_check sched then thread_finish cfg st
                else st).
    assert (silero_working st0 = true
            /\ silero_thread st0 = None
            \/ silero_working st0 = false) as Hst0.
    { subst st0. destruct (finish_before_check sched); [|now right].
      unfold thread_finish. destruct (silero_thread st); [|now right].
      destruct (silero_verdict cfg l); simpl; auto. }
    assert (silero_doomed (_check_voice_activity chunk st0)) as Hd1.
    { unfold _check_voice_activity. rewrite Hweb.
      destruct Hst0 as [[Hw Ht] | Hw]; rewrite Hw; simpl.
      - split; [reflexivity|]. simpl. intros d Hd. congruence.
      - split; [reflexivity|]. simpl. intros d [= <-]. exact Hodd. }
    destruct (finish_before_read sched); [|exact Hd1].
    destruct Hd1 as [Hw1 Ht1]. unfold thread_finish.
    destruct (silero_thread (_check_voice_activity chunk st0)) as [d|] eqn:E;
      [|split; [exact Hw1|intros d Hd; congruence]].
    unfold silero_verdict. rewrite (Ht1 d eq_refl).
    split; [reflexivity|]. simpl. intros ? ?. discriminate. }
  split; [exact Hd|].
  set (st1 := snd (detect_speech_activity cfg sched chunk st)) in *.
  clearbody st1.
  assert (forall evs x, silero_doomed x ->
            let '(vs, st2) := detect_all cfg evs x in
            silero_doomed st2
            /\ is_silero_speech_active st2 = is_silero_speech_active x
            /\ vs = map (fun ev => negb (length (snd ev) =? 0)%nat
                                   && webrtc_verdict (snd ev) false
                                   && is_silero_speech_active x) evs) as Hrun.
  { induction evs as [|[sc ch] evs IH]; intros x Hx.
    - simpl. auto.
    - cbn [detect_all].
      pose proof (detect_on_doomed cfg sc ch x Hx) as Hstep.
      destruct (detect_speech_activity cfg sc ch x) as [v x1].
      destruct Hstep as (Hx1 & Hs1 & Hv).
      specialize (IH x1 Hx1).
      destruct (detect_all cfg evs x1) as [vs x2].
      destruct IH as (I1 & I2 & I3).
      split; [exact I1|]. split; [congruence|].
      cbn [map snd]. rewrite Hv, I3, Hs1. reflexivity. }
  intros evs. exact (Hrun evs st1 Hd).
Qed.

Lemma X22_witness :
  let st1 := snd (detect_speech_activity (H := toy_models) default_config
                    finish_first odd_speech_chunk new_vad) in
  silero_doomed st1
  /\ fst (detect_all (H := toy_models) default_config
            [(finish_first, loud_chunk); (no_finish, loud_chunk)] st1)
     = [false; false].
Proof.
  destruct (@X22_odd_length_chunk_wedges_silero toy_models default_config
              finish_first odd_speech_chunk new_vad eq_refl eq_refl eq_refl)
    as [H1 H2].
  split; [exact H1|].
  specialize (H2 [(finish_first, loud_chunk); (no_finish, loud_chunk)]).
  destruct (detect_all _ _ _) as [vs st2].
  destruct H2 as (_ & _ & ->). reflexivity.
Defined.

(** ** The result router *)

(** [router_step] is a preorder, and every step of the router is one. *)
Lemma router_step_refl c g : router_step c g g.
Proof.
  unfold router_step. repeat split; try reflexivity; try lia.
  - exists []. now rewrite app_nil_r.
  - exists []. now rewrite app_nil_r.
Qed.

Lemma router_step_trans c g1 g2 g3 :
  router_step c g1 g2 -> router_step c g2 g3 -> router_step c g1 g3.
Proof.
  intros (A1 & A2 & A3 & A4 & (n1 & A5 & A5') & (j1 & A6 & A6') & A7 & A8)
         (B1 & B2 & B3 & B4 & (n2 & B5 & B5') & (j2 & B6 & B6') & B7 & B8).
  unfold router_step. split; [congruence|]. split; [congruence|].
  split.
  { intros c' Hc'. destruct (A3 c' Hc') as [E1 E2].
    destruct (B3 c' Hc') as [E3 E4]. split; congruence. }
  split; [lia|].
  split.
  { exists (n1 ++ n2). rewrite B5, A5, app_assoc. split; [reflexivity|].
    now apply Forall_app. }
  split.
  { exists (j1 ++ j2). rewrite B6, A6, app_assoc. split; [reflexivity|].
    now apply Forall_app. }
  split; [|congruence].
  intros k Hk. rewrite B7 by exact Hk. now apply A7.
Qed.

Lemma router_step_publish cfg iid env c s g :
  router_step c g
    (snd (publish_job_if_needed cfg iid env c s false false g)).
Proof.
  destruct (publish_effect cfg iid env c s false false g)
    as ((K1 & K2 & K3 & K4 & K5 & K6) & Hcnt & Hoth & Hstep).
  cbv zeta in *.
  set (g' := snd (publish_job_if_needed cfg iid env c s false false g)) in *.
  unfold router_step. split; [exact K4|]. split; [exact Hcnt|].
  split.
  { intros c' Hc'. split; [now rewrite K3 | now apply Hoth]. }
  split; [unfold last_sent; rewrite K3; lia|].
  split; [exists []; rewrite app_nil_r; split; [exact K5|constructor]|].
  split.
  { destruct Hstep as [[E _] | (j & E & _ & J)].
    - exists []. rewrite app_nil_r. split; [exact E|constructor].
    - exists [j]. split; [exact E|]. constructor; [|constructor].
      unfold job_of in J. tauto. }
  split; [intros k _; now rewrite K1 | exact K2].
Qed.

Lemma router_step_segment c seg g :
  router_step c g
    (if seg >? last_sent c g
     then set_latest_segment_id_sent
            (<[c := seg]> (latest_segment_id_sent g)) g
     else g).
Proof.
  destruct (seg >? last_sent c g) eqn:E; [|apply router_step_refl].
  apply gtb_true in E. unfold router_step. simpl.
  repeat split; try reflexivity.
  - now rewrite lookup_insert_ne by congruence.
  - unfold last_sent at 2. simpl. rewrite lookup_insert_eq. simpl. lia.
  - exists []. now rewrite app_nil_r.
  - exists []. now rewrite app_nil_r.
Qed.

Lemma router_step_send c m g : router_step c g (send c m g).
Proof.
  unfold router_step, send. simpl. repeat split; try reflexivity; try lia.
  - exists [(c, m)]. split; [reflexivity|]. repeat constructor.
  - exists []. now rewrite app_nil_r.
Qed.

Lemma router_step_counted c v g :
  router_step c g (set_results_forwarded v g).
Proof.
  unfold router_step. simpl. repeat split; try reflexivity; try lia.
  - exists []. now rewrite app_nil_r.
  - exists []. now rewrite app_nil_r.
Qed.

Lemma router_step_unlock c g :
  router_step c g (set_job_in_flight (<[c := false]> (job_in_flight g)) g).
Proof.
  unfold router_step. simpl. repeat split; try reflexivity; try lia.
  - now rewrite lookup_insert_ne by congruence.
  - exists []. now rewrite app_nil_r.
  - exists []. now rewrite app_nil_r.
Qed.

Lemma router_step_hset c m g :
  router_step c g
    (match hset (RedisService.session_key c) m (redis g) with
     | Ok r => set_redis r g
     | Raise _ => g
     end).
Proof.
  unfold hset.
  destruct (kv (redis g) !! RedisService.session_key c) as [[h|b]|];
    try apply router_step_refl;
    unfold router_step; simpl; repeat split; try reflexivity; try lia;
    try (exists []; now rewrite app_nil_r);
    intros k Hk; now rewrite lookup_insert_ne by congruence.
Qed.

(** X23.  The router touches only the client a result is addressed to.  For
    a result whose [client_id] is the string [c], when
    [forward_result_to_client] returns it leaves a gateway in which: every
    new frame handed to a socket is addressed to [c]; every new job is a
    non-final job of [c]; [latest_segment_id_sent] of [c] has not gone down;
    the latest ids and in-flight flags of all other clients, the set of
    connected clients, the chunk counter, all expiries and every Redis key
    other than the session hash of [c] are unchanged. *)
Theorem X23_router_touches_only_the_addressed_client `{PyPrims}
    (cfg : Config) (iid : string) (env : PublishEnv)
    (result_data : gmap string jval) (g : Gateway) (c : string) :
  result_data !! "client_id" = Some (JStr c) ->
  match forward_result_to_client cfg iid env result_data g with
  | Ok g' => router_step c g g'
  | Raise _ => True
  end.
Proof.
  intros Hc. unfold forward_result_to_client. rewrite Hc.
  destruct (negb (str_truthy c)); [apply router_step_refl|].
  destruct (RedisService.load_session cfg c (redis g)) as [session|e];
    [|exact I].
  cbn [mbind result_bind].
  destruct (translation_text result_data) as [tr|e]; [|exact I].
  cbn [mbind result_bind]. cbv zeta.
  fold (last_sent c g).
  destruct (should_forward _ _ _ _); [|apply router_step_refl].
  set (seg := int_or_zero _).
  pose proof (router_step_segment c seg g) as S1.
  set (g1 := if seg >? last_sent c g then _ else g) in *.
  assert (exists g2, router_step c g1 g2 /\ g2 =
    (if bool_decide (c ∈ connected_clients g1) then
       if should_send_utterance_end (parse_is_final result_data)
            (translation_enabled session) (str_truthy tr)
       then send c (UtteranceEnd c)
              (set_results_forwarded (results_forwarded g1 + 1)
                 (send c (Realtime (default (JStr "") (result_data !! "text"))
                            (default (JStr "") (result_data !! "translation"))
                            (default (JStr "") (result_data !! "segment_id"))
                            (default (JFloat 0)
                               (result_data !! "processing_time"))) g1))
       else set_results_forwarded (results_forwarded g1 + 1)
              (send c (Realtime (default (JStr "") (result_data !! "text"))
                         (default (JStr "") (result_data !! "translation"))
                         (default (JStr "") (result_data !! "segment_id"))
                         (default (JFloat 0)
                            (result_data !! "processing_time"))) g1)
     else g1)) as (g2 & S2 & E2).
  { eexists. split; [|reflexivity].
    destruct (bool_decide _); [|apply router_step_refl].
    destruct (should_send_utterance_end _ _ _).
    - eapply router_step_trans; [apply router_step_send|].
      eapply router_step_trans; [apply router_step_counted|].
      apply router_step_send.
    - eapply router_step_trans; [apply router_step_send|].
      apply router_step_counted. }
  rewrite <- E2. clear E2.
  set (unlock := should_unlock_job _ _).
  assert (router_step c g2
            (if unlock
             then set_job_in_flight (<[c := false]> (job_in_flight g2)) g2
             else g2)) as S3.
  { destruct unlock; [apply router_step_unlock|apply router_step_refl]. }
  set (g3 := if unlock then _ else g2) in *.
  pose proof (router_step_trans _ _ _ _ S1
                (router_step_trans _ _ _ _ S2 S3)) as S13.
  destruct (unlock && _); [|exact S13].
  pose proof (router_step_hset c
                {["last_published_len" :=
                    str_of_int (last_published_len session)]} g3) as S4.
  set (g4 := match hset _ _ _ with Ok r => _ | Raise _ => g3 end) in *.
  pose proof (router_step_publish cfg iid env c session g4) as S5.
  destruct (publish_job_if_needed cfg iid env c session false false g4)
    as [[p s1] g5].
  simpl in S5.
  exact (router_step_trans _ _ _ _ S13 (router_step_trans _ _ _ _ S4 S5)).
Qed.

Lemma X23_witness :
  match forward_result_to_client (H := decimal_prims) default_config "gw"
          sample_publish_env fresh_final_result busy_gateway with
  | Ok g' => router_step "c1" busy_gateway g'
  | Raise _ => True
  end.
Proof.
  exact (@X23_router_touches_only_the_addressed_client decimal_prims
           default_config "gw" sample_publish_env fresh_final_result
           busy_gateway "c1" eq_refl).
Defined.

(** The constructor's check on the keys, as a statement about the hash. *)
Lemma keys_known_spec (data : gmap string string) :
  keys_known data = true
  <-> forall k, is_Some (data !! k) -> known_field k = true.
Proof.
  unfold keys_known. rewrite forallb_forall. split.
  - intros Hf k Hk. apply Hf. apply list_elem_of_In, elem_of_elements.
    now apply elem_of_dom.
  - intros Hf k Hk. apply Hf. apply elem_of_dom.
    now apply elem_of_elements, list_elem_of_In.
Qed.

Lemma keys_known_insert (data : gmap string string) k v :
  known_field k = true -> keys_known (<[k:=v]> data) = keys_known data.
Proof.
  intros Hk. apply eq_iff_eq_true. rewrite !keys_known_spec. split.
  - intros Hf k' Hk'. apply Hf.
    destruct (decide (k' = k)) as [->|Hne];
      [rewrite lookup_insert_eq; eauto|now rewrite lookup_insert_ne].
  - intros Hf k' Hk'.
    destruct (decide (k' = k)) as [->|Hne]; [exact Hk|].
    rewrite lookup_insert_ne in Hk' by congruence. now apply Hf.
Qed.

(** Rewriting [last_published_len] with a string of the same value does not
    change what the hash decodes to. *)
Lemma from_dict_same_len `{PyPrims} cfg (h : gmap string string) bufs v :
  default 0 (int_of_str v) = decode_int h "last_published_len" ->
  from_dict cfg (<["last_published_len" := v]> h) bufs = from_dict cfg h bufs.
Proof.
  intros Hv. unfold from_dict, decode_legacy_buffer.
  fold (keys_known (<["last_published_len" := v]> h)). fold (keys_known h).
  rewrite keys_known_insert by reflexivity.
  rewrite !lookup_insert_ne by discriminate.
  assert (decode_int (<["last_published_len" := v]> h) "last_published_len"
          = decode_int h "last_published_len") as ->.
  { unfold decode_int at 1. now rewrite lookup_insert_eq. }
  unfold decode_int, decode_float.
  rewrite !lookup_insert_ne by discriminate. reflexivity.
Qed.

(** The router's partial [HSET] leaves the stored session as it loads. *)
Lemma load_after_hot_write `{P : PyPrims} `{!PyLaws P} cfg c r session r' :
  RedisService.load_session cfg c r = Ok session ->
  last_published_len session < blen (audio_buffer session) ->
  hset (RedisService.session_key c)
    {["last_published_len" := str_of_int (last_published_len session)]} r
  = Ok r' ->
  RedisService.load_session cfg c r' = Ok session.
Proof.
  intros Hload Hnew Hset.
  destruct (session_keys_distinct c) as (D1 & D2 & D3).
  unfold RedisService.load_session, hgetall, get in *.
  unfold hset in Hset.
  destruct (kv r !! RedisService.session_key c) as [[h|b]|] eqn:Ek;
    cbn [mbind result_bind] in Hload; try discriminate.
  2:{ rewrite bool_decide_eq_true_2 in Hload by reflexivity.
      injection Hload as <-. unfold blen in Hnew. simpl in Hnew. lia. }
  destruct (bool_decide (h = ∅)) eqn:Eh.
  { injection Hload as <-. unfold blen in Hnew. simpl in Hnew. lia. }
  apply bool_decide_eq_false_1 in Eh.
  injection Hset as <-. cbn [kv].
  rewrite lookup_insert_eq. cbn [mbind result_bind].
  rewrite !lookup_insert_ne by congruence.
  rewrite <- insert_union_singleton_l.
  rewrite bool_decide_eq_false_2 by apply insert_non_empty.
  destruct (kv r !! RedisService.audio_buffer_key c) as [[ha|ba]|];
    cbn [mbind result_bind] in *; try discriminate;
    (destruct (kv r !! RedisService.pre_speech_buffer_key c) as [[hp|bp]|];
     cbn [mbind result_bind] in *; try discriminate);
    (rewrite from_dict_same_len; [exact Hload|];
     rewrite int_of_str_of_int; simpl;
     now destruct (from_dict_fields _ _ _ _ Hload) as (_ & -> & _)).
Qed.

(** X24.  The router never changes the session a client has stored.  After
    [forward_result_to_client] has handled a result for [c], [load_session]
    returns for [c] what it returned before.  In particular the catch-up
    publish does not persist its bookkeeping: the hot-path [HSET] writes the
    [last_published_len] read before the publish task has run, which is the
    value the hash already decodes to, and the session object the publish
    updates is never saved. *)
Theorem X24_router_never_changes_the_stored_session
    `{P : PyPrims} `{!PyLaws P} (cfg : Config) (iid : string)
    (env : PublishEnv) (result_data : gmap string jval) (g : Gateway)
    (c : string) :
  result_data !! "client_id" = Some (JStr c) ->
  match forward_result_to_client cfg iid env result_data g with
  | Ok g' =>
      RedisService.load_session cfg c (redis g')
      = RedisService.load_session cfg c (redis g)
  | Raise _ => True
  end.
Proof.
  intros Hc. unfold forward_result_to_client. rewrite Hc.
  destruct (negb (str_truthy c)); [reflexivity|].
  destruct (RedisService.load_session cfg c (redis g)) as [session|e]
    eqn:Hload; [|exact I].
  cbn [mbind result_bind].
  destruct (translation_text result_data) as [tr|e]; [|exact I].
  cbn [mbind result_bind]. cbv zeta.
  destruct (should_forward _ _ _ _); [|exact Hload].
  match goal with
  | |- context [hset _ _ (redis ?x)] =>
      set (g3 := x); assert (redis g3 = redis g) as Hr
  end.
  { subst g3.
    repeat match goal with
           | |- context [if ?b then _ else _] => destruct b
           end; reflexivity. }
  destruct (should_unlock_job _ _ && _) eqn:Econd;
    [|now rewrite Hr].
  apply andb_true_iff in Econd as [_ Hnew]. apply gtb_true in Hnew.
  set (g4 := match hset _ _ _ with Ok r => _ | Raise _ => g3 end).
  assert (RedisService.load_session cfg c (redis g4) = Ok session) as H4.
  { subst g4. rewrite Hr.
    destruct (hset _ _ (redis g)) as [r'|e] eqn:Eset.
    - simpl. exact (load_after_hot_write cfg c (redis g) session r' Hload
                      Hnew Eset).
    - now rewrite Hr. }
  destruct (publish_effect cfg iid env c session false false g4)
    as ((K1 & _) & _).
  cbv zeta in K1.
  destruct (publish_job_if_needed cfg iid env c session false false g4)
    as [[p s1] g5].
  simpl in K1. rewrite <- H4.
  apply load_session_ext. intros k _. now rewrite K1.
Qed.

Lemma X24_witness :
  match forward_result_to_client (H := decimal_prims) default_config "gw"
          sample_publish_env fresh_final_result busy_gateway with
  | Ok g' =>
      RedisService.load_session (H := decimal_prims) default_config "c1"
        (redis g')
      = RedisService.load_session (H := decimal_prims) default_config "c1"
          (redis busy_gateway)
  | Raise _ => True
  end.
Proof.
  exact (@X24_router_never_changes_the_stored_session decimal_prims
           decimal_laws default_config "gw" sample_publish_env
           fresh_final_result busy_gateway "c1" eq_refl).
Defined.

(** ** The handler as a whole *)

(** [GatewayService.load_session] touches the cache only. *)
Lemma cached_load_gateway `{PyPrims} cfg now c cg :
  gateway (snd (cached_load_session cfg now c cg)) = gateway cg.
Proof.
  unfold cached_load_session.
  destruct (session_cache cg !! c) as [[s t]|].
  - destruct (Qltb _ _); [reflexivity|]. simpl.
    destruct (RedisService.load_session _ _ _); reflexivity.
  - destruct (RedisService.load_session _ _ _); reflexivity.
Qed.

(** X25.  Every exit path of [process_audio_chunk] saves the session.  When
    the client's session key holds nothing or a hash of session fields and
    [load_session] succeeds, the whole call (load, body, save) succeeds and
    returns what the body returns; the session the body ends with is cached
    under the save time and stored: the client's three keys hold it, each
    key present expiring after [SESSION_EXPIRATION_SECONDS], [load_session]
    returns it afterwards, all other keys and expiries are as before the
    call, and the job stream, the flags, the counters and the frames are
    those the body produced. *)
Theorem X25_every_exit_path_saves_the_session
    `{P : PyPrims} `{!PyLaws P} (cfg : Config) (iid : string)
    (t_load t_save : Q) (env : ChunkEnv) (c : string) (chunk : list byte)
    (h : bool) (cg : CachedGateway) (s : SpeechSession) :
  divisors_nonzero cfg ->
  session_slot_ok c (redis (gateway cg)) ->
  fst (cached_load_session cfg t_load c cg) = Ok s ->
  let '(ended, s', g') :=
    process_audio_chunk cfg iid env c chunk h s (gateway cg) in
  exists cg2,
    process_audio_chunk_io cfg iid t_load t_save env c chunk h cg
    = (Ok ended, cg2)
    /\ session_cache cg2 !! c = Some (s', t_save)
    /\ RedisService.load_session cfg c (redis (gateway cg2)) = Ok s'
    /\ (forall k, In k (client_keys c) ->
          kv (redis (gateway cg2)) !! k = stored_value c s' k
          /\ ttl (redis (gateway cg2)) !! k
             = match stored_value c s' k with
               | Some _ => Some (SESSION_EXPIRATION_SECONDS cfg)
               | None => None
               end)
    /\ (forall k, ~ In k (client_keys c) ->
          kv (redis (gateway cg2)) !! k = kv (redis (gateway cg)) !! k
          /\ ttl (redis (gateway cg2)) !! k = ttl (redis (gateway cg)) !! k)
    /\ same_outside_keyspace g' (gateway cg2).
Proof.
  intros _ Hok Hload.
  unfold process_audio_chunk_io.
  pose proof (cached_load_gateway cfg t_load c cg) as Hg.
  destruct (cached_load_session cfg t_load c cg) as [r cg1].
  simpl in Hload, Hg. subst r. rewrite Hg.
  pose proof (process_audio_chunk_effect cfg iid env c chunk h s (gateway cg))
    as He.
  destruct (process_audio_chunk cfg iid env c chunk h s (gateway cg))
    as [[ended s'] g'].
  destruct He as (_ & (Hkv & Httl & _) & _).
  assert (session_slot_ok c (redis g')) as Hok'
    by (eapply session_slot_ok_kv; eassumption).
  destruct (save_then_load cfg c s' (redis g') Hok')
    as (r' & Hsave & Hload' & _ & Hj).
  destruct (save_session_lookup cfg c s' (redis g') Hok')
    as (r2 & Hsave2 & Hin & Hout & _).
  rewrite Hsave in Hsave2. injection Hsave2 as <-.
  unfold cached_save_session. simpl. rewrite Hsave. simpl.
  eexists. split; [reflexivity|]. simpl.
  split; [now rewrite lookup_insert_eq|].
  split; [exact Hload'|].
  split; [exact Hin|].
  split.
  { intros k Hk. destruct (Hout k Hk) as [-> ->]. now rewrite Hkv, Httl. }
  unfold same_outside_keyspace, same_frames. simpl. auto 10.
Qed.

Lemma X25_witness :
  exists cg2 ended s',
    process_audio_chunk_io (H := decimal_prims) default_config "gw" 10 11
      (chunk_env_at (1 # 2)) "c1" [x01; x02] true
      {| gateway := fresh_gateway; session_cache := ∅ |}
    = (Ok ended, cg2)
    /\ RedisService.load_session (H := decimal_prims) default_config "c1"
         (redis (gateway cg2)) = Ok s'
    /\ kv (redis (gateway cg2)) !! RedisService.session_key "c1"
       = Some (RHash (to_dict (H := decimal_prims) s'))
    /\ ttl (redis (gateway cg2)) !! RedisService.session_key "c1" = Some 900.
Proof.
  pose proof (@X25_every_exit_path_saves_the_session decimal_prims
                decimal_laws default_config "gw" 10 11 (chunk_env_at (1 # 2))
                "c1" [x01; x02] true
                {| gateway := fresh_gateway; session_cache := ∅ |}
                (new_session default_config) default_divisors
                (session_slot_ok_empty "c1") eq_refl) as H.
  destruct (process_audio_chunk _ _ _ _ _ _ _ _) as [[e s'] g'].
  destruct H as (cg2 & H1 & _ & H3 & H4 & _).
  exists cg2, e, s'. split; [exact H1|]. split; [exact H3|].
  destruct (H4 (RedisService.session_key "c1")) as [Hk Ht]; [now left|].
  split; [exact Hk | exact Ht].
Defined.
